(** * Export-To-Ghostfolio: the TrueWealth and Bitpanda converters

    A shallow embedding of [src/converters/truewealthConverter.ts] and
    [src/converters/bitpandaConverter.ts], and the properties of the
    record normalization engine proved (or refuted) on it.

    Conventions of the embedding:
    - a JavaScript string is a [string] (a sequence of 8-bit characters);
      case conversion and white space are those of the ASCII range;
    - a JavaScript number is an IEEE 754 binary64 value, [spec_float] with
      precision 53 and maximal exponent 1024;
    - [undefined] / [null] are [None] of an option type;
    - the asynchronous callback of [parse] is a function from the tokenizer's
      result to the callback that ends up being invoked, together with the
      trace of collaborator calls and log lines. *)

From Stdlib Require Import Bool Arith ZArith List Ascii String Lia.
From Stdlib Require Import Floats.SpecFloat.
Import ListNotations.

Local Open Scope string_scope.
Local Open Scope Z_scope.

(* ================================================================== *)
(** * The fragment of the JavaScript runtime the converters use        *)
(* ================================================================== *)

Module JS.

(** ** Numbers *)

Definition prec : Z := 53.
Definition emax : Z := 1024.

Definition number : Type := spec_float.

Definition NaN : number := S754_nan.
Definition zero : number := S754_zero false.

Definition div (x y : number) : number := SFdiv prec emax x y.
Definition mul (x y : number) : number := SFmul prec emax x y.

(** [Math.abs] on a number. *)
Definition Math_abs (x : number) : number := SFabs x.

(** [x >= 0] and [x < 0]; both are [false] on NaN. *)
Definition geb0 (x : number) : bool := SFleb zero x.
Definition ltb0 (x : number) : bool := SFltb x zero.

Definition isNaN (x : number) : bool :=
  match x with S754_nan => true | _ => false end.

(** The number denoted by the decimal [m * 10^e], rounded to nearest even. *)
Definition of_decimal (neg : bool) (m e : Z) : number :=
  match m with
  | Zpos p =>
      if 0 <=? e
      then binary_normalize prec emax (if neg then - (m * 10 ^ e) else m * 10 ^ e) 0 neg
      else SFdiv prec emax (S754_finite neg p 0)
                           (S754_finite false (Z.to_pos (10 ^ (- e))) 0)
  | _ => S754_zero neg
  end.

(** ** Characters and strings *)

Definition is_digit (c : ascii) : bool :=
  let n := nat_of_ascii c in (Nat.leb 48 n && Nat.leb n 57)%bool.

Definition digit_value (c : ascii) : Z := Z.of_nat (nat_of_ascii c) - 48.

(** White space and line terminators of the ASCII range. *)
Definition is_space (c : ascii) : bool :=
  let n := nat_of_ascii c in
  (Nat.eqb n 32 || (Nat.leb 9 n && Nat.leb n 13))%bool.

Definition lower_char (c : ascii) : ascii :=
  let n := nat_of_ascii c in
  if (Nat.leb 65 n && Nat.leb n 90)%bool then ascii_of_nat (n + 32) else c.

(** [s.toLowerCase()] (and [toLocaleLowerCase]). *)
Fixpoint toLowerCase (s : string) : string :=
  match s with
  | EmptyString => EmptyString
  | String c r => String (lower_char c) (toLowerCase r)
  end.

(** [s.startsWith(p)]. *)
Definition startsWith (s p : string) : bool := String.prefix p s.

(** [s.indexOf(p) > -1]. *)
Fixpoint includes (s p : string) : bool :=
  if String.prefix p s then true
  else match s with
       | EmptyString => false
       | String _ r => includes r p
       end.

Fixpoint trimStart (s : string) : string :=
  match s with
  | String c r => if is_space c then trimStart r else s
  | EmptyString => EmptyString
  end.

(** [trimEnd], written so that trailing white space is dropped from the
    right. *)
Fixpoint trimEnd (s : string) : string :=
  match s with
  | EmptyString => EmptyString
  | String c r =>
      match trimEnd r with
      | EmptyString => if is_space c then EmptyString else String c EmptyString
      | r' => String c r'
      end
  end.

(** [s.trim()]. *)
Definition trim (s : string) : string := trimEnd (trimStart s).

(** [s.split(d)] for a one-character separator [d]: the result always has
    one more element than [s] has occurrences of [d]. *)
Fixpoint split (d : ascii) (s : string) : list string :=
  match s with
  | EmptyString => [EmptyString]
  | String c r =>
      if Ascii.eqb c d then EmptyString :: split d r
      else match split d r with
           | x :: xs => String c x :: xs
           | [] => [String c EmptyString]
           end
  end.

(** [l.join(sep)]. *)
Definition join (sep : string) (l : list string) : string := String.concat sep l.

Definition CR : ascii := ascii_of_nat 13.
Definition LF : ascii := ascii_of_nat 10.

(** [s.split(/\r?\n/)]. *)
Fixpoint split_lines (s : string) : list string :=
  match s with
  | EmptyString => [EmptyString]
  | String c r =>
      if Ascii.eqb c LF then EmptyString :: split_lines r
      else
        match r with
        | String c' r' =>
            if (Ascii.eqb c CR && Ascii.eqb c' LF)%bool
            then EmptyString :: split_lines r'
            else match split_lines r with
                 | x :: xs => String c x :: xs
                 | [] => [String c EmptyString]
                 end
        | EmptyString => [String c EmptyString]
        end
  end.

(** [s.replace(/[^\d.-]/g, "")]. *)
Fixpoint strip_non_numeric (s : string) : string :=
  match s with
  | EmptyString => EmptyString
  | String c r =>
      if (is_digit c || Ascii.eqb c "." || Ascii.eqb c "-")%bool
      then String c (strip_non_numeric r)
      else strip_non_numeric r
  end.

(** [a || b] on strings: the empty string is falsy. *)
Definition or_string (a b : string) : string :=
  match a with EmptyString => b | _ => a end.

(** [a || b] on possibly-undefined strings. *)
Definition or_ostring (a b : option string) : option string :=
  match a with
  | Some (String _ _) => a
  | _ => b
  end.

(** [a === s] for a possibly-undefined string [a]. *)
Definition strict_eq (a : option string) (s : string) : bool :=
  match a with Some t => String.eqb t s | None => false end.

(** [a ?? b]. *)
Definition nullish {A} (a b : option A) : option A :=
  match a with Some _ => a | None => b end.

(** ** [parseFloat] *)

(** Reads the longest run of decimal digits at the head of [s]: the value
    accumulated on [acc], the number of digits read, and the rest. *)
Fixpoint read_digits (s : string) (acc : Z) (n : Z) : Z * Z * string :=
  match s with
  | String c r =>
      if is_digit c then read_digits r (10 * acc + digit_value c) (n + 1)
      else (acc, n, s)
  | EmptyString => (acc, n, s)
  end.

Definition read_sign (s : string) : bool * string :=
  match s with
  | String "+" r => (false, r)
  | String "-" r => (true, r)
  | _ => (false, s)
  end.

(** The optional [ExponentPart]: consumed only when at least one digit
    follows the [e] and its sign. *)
Definition read_exponent (s : string) : Z * string :=
  match s with
  | String c r =>
      if (Ascii.eqb c "e" || Ascii.eqb c "E")%bool then
        let '(neg, r1) := read_sign r in
        let '(x, n, r2) := read_digits r1 0 0 in
        if n =? 0 then (0, s) else ((if neg then - x else x), r2)
      else (0, s)
  | EmptyString => (0, s)
  end.

(** The longest prefix of [s] that is a [StrDecimalLiteral], as the number
    it denotes, with the unread rest; [None] when there is no such prefix. *)
Definition read_decimal_literal (s : string) : option (number * string) :=
  let '(neg, s1) := read_sign s in
  if String.prefix "Infinity" s1
  then Some (S754_infinity neg, String.substring 8 (String.length s1 - 8) s1)
  else
    let '(i, ni, s2) := read_digits s1 0 0 in
    match s2 with
    | String "." s3 =>
        let '(m, nf, s4) := read_digits s3 i 0 in
        if ((ni =? 0) && (nf =? 0))%bool then None
        else let '(x, s5) := read_exponent s4 in
             Some (of_decimal neg m (x - nf), s5)
    | _ =>
        if ni =? 0 then None
        else let '(x, s5) := read_exponent s2 in
             Some (of_decimal neg i x, s5)
    end.

(** [parseFloat(s)]. *)
Definition parseFloat (s : string) : number :=
  match read_decimal_literal (trimStart s) with
  | Some (x, _) => x
  | None => NaN
  end.

End JS.

(* ================================================================== *)
(** * The tokenizer ([csv-parse]) as the converters configure it       *)
(* ================================================================== *)

Module Csv.
Import JS.

(** A cell after [cast]: a string, a primitive number, or (what no cast of
    the converters produces, but what [isNumberObject] asks about) a boxed
    [Number] object. [VUndefined] is what reading an absent property gives. *)
Inductive value :=
| VUndefined
| VString (s : string)
| VNumber (x : number)
| VNumberObject (x : number).

(** A record: the object [csv-parse] builds when [columns] is a list of
    names, properties in column order. *)
Definition object : Type := list (string * value).

(** [o[k]]: a later column of the same name overwrites an earlier one. *)
Fixpoint get (o : object) (k : string) : value :=
  match o with
  | [] => VUndefined
  | (k', v) :: r =>
      match get r k with
      | VUndefined => if String.eqb k' k then v else VUndefined
      | later => later
      end
  end.

Definition get_string (o : object) (k : string) : option string :=
  match get o k with VString s => Some s | _ => None end.

Definition get_number (o : object) (k : string) : option number :=
  match get o k with VNumber x => Some x | _ => None end.

(** The tokenizer's errors: a record whose number of fields differs from
    the number of columns ([relax_column_count] is not set), and the three
    quoting errors ([relax_quotes] is not set). [line] is the line count of
    the tokenizer at the error. *)
Inductive csv_error :=
| InvalidRecordLength (line expected got : nat)
| InvalidOpeningQuote (line : nat)
| InvalidClosingQuote (line : nat)
| QuoteNotClosed (line : nat).

(** The record the tokenizer builds from the fields of one record: each
    field goes through [cast] with its column name, and the field count is
    checked against the column list. *)
Definition build (columns : list string) (cast : string -> string -> value)
    (line : nat) (fields : list string) : csv_error + object :=
  if Nat.eqb (List.length fields) (List.length columns)
  then inr (map (fun cf => (fst cf, cast (fst cf) (snd cf))) (combine columns fields))
  else inl (InvalidRecordLength line (List.length columns) (List.length fields)).

(** ** The scanner

    [parse] reads the input character by character. The options the
    converters leave at their defaults: the quote and the escape are the
    double quote, the record delimiter is discovered, nothing is trimmed. *)

Definition QUOTE : ascii := ascii_of_nat 34.
Definition NUL : ascii := ascii_of_nat 0.

(** The record delimiter, once discovered. *)
Inductive delimiter := rd_crlf | rd_lf | rd_cr.

(** The state of the scanner: [quoting] inside a quoted field,
    [wasQuoting] after its closing quote, the characters of the current
    [field], the fields of the current [record], the line count [lines] and
    the flag that postpones its increment, [enabled] once [from_line] is
    reached, and the record delimiter when it is known. *)
Record scanner := {
  quoting : bool;
  wasQuoting : bool;
  field : string;
  record : list string;
  lines : nat;
  wasRowDelimiter : bool;
  enabled : bool;
  record_delimiter : option delimiter
}.

(** "Auto discovery of record_delimiter, unix, mac and windows supported". *)
Definition discover (s : string) : option delimiter :=
  match s with
  | String c r =>
      if Ascii.eqb c CR then
        match r with
        | String c' _ => if Ascii.eqb c' LF then Some rd_crlf else Some rd_cr
        | EmptyString => Some rd_cr
        end
      else if Ascii.eqb c LF then Some rd_lf
      else None
  | EmptyString => None
  end.

Definition discovered (s : string) (st : scanner) : scanner :=
  match record_delimiter st with
  | Some _ => st
  | None =>
      match discover s with
      | Some d =>
          {| quoting := quoting st; wasQuoting := wasQuoting st; field := field st;
             record := record st; lines := lines st;
             wasRowDelimiter := wasRowDelimiter st; enabled := enabled st;
             record_delimiter := Some d |}
      | None => st
      end
  end.

(** Whether the record delimiter starts [s]. *)
Definition at_record_delimiter (st : scanner) (s : string) : bool :=
  match record_delimiter st, s with
  | Some rd_crlf, String c (String c' _) => (Ascii.eqb c CR && Ascii.eqb c' LF)%bool
  | Some rd_lf, String c _ => Ascii.eqb c LF
  | Some rd_cr, String c _ => Ascii.eqb c CR
  | _, _ => false
  end.

(** The line count is brought up to date at the character after a line
    end. *)
Definition count_line (st : scanner) : scanner :=
  if wasRowDelimiter st
  then {| quoting := quoting st; wasQuoting := wasQuoting st; field := field st;
          record := record st; lines := S (lines st);
          wasRowDelimiter := false; enabled := enabled st;
          record_delimiter := record_delimiter st |}
  else st.

Definition mark_line_end (chr : ascii) (st : scanner) : scanner :=
  if ((Ascii.eqb chr CR || Ascii.eqb chr LF) && negb (wasRowDelimiter st))%bool
  then {| quoting := quoting st; wasQuoting := wasQuoting st; field := field st;
          record := record st; lines := lines st;
          wasRowDelimiter := true; enabled := enabled st;
          record_delimiter := record_delimiter st |}
  else st.

Definition append_char (chr : ascii) (st : scanner) : scanner :=
  {| quoting := quoting st; wasQuoting := wasQuoting st;
     field := field st ++ String chr EmptyString;
     record := record st; lines := lines st;
     wasRowDelimiter := wasRowDelimiter st; enabled := enabled st;
     record_delimiter := record_delimiter st |}.

Definition open_quote (st : scanner) : scanner :=
  {| quoting := true; wasQuoting := wasQuoting st; field := field st;
     record := record st; lines := lines st;
     wasRowDelimiter := wasRowDelimiter st; enabled := enabled st;
     record_delimiter := record_delimiter st |}.

Definition close_quote (st : scanner) : scanner :=
  {| quoting := false; wasQuoting := true; field := field st;
     record := record st; lines := lines st;
     wasRowDelimiter := wasRowDelimiter st; enabled := enabled st;
     record_delimiter := record_delimiter st |}.

(** [__onField]: below [from_line] the field is dropped. *)
Definition on_field (st : scanner) : scanner :=
  {| quoting := quoting st; wasQuoting := false; field := EmptyString;
     record := if enabled st then (record st ++ [field st])%list else record st;
     lines := lines st;
     wasRowDelimiter := wasRowDelimiter st; enabled := enabled st;
     record_delimiter := record_delimiter st |}.

Definition reset_record (on : bool) (st : scanner) : scanner :=
  {| quoting := quoting st; wasQuoting := false; field := EmptyString;
     record := []; lines := lines st;
     wasRowDelimiter := wasRowDelimiter st; enabled := on;
     record_delimiter := record_delimiter st |}.

Definition is_empty (s : string) : bool :=
  match s with EmptyString => true | _ => false end.

Definition is_nil {A} (l : list A) : bool :=
  match l with [] => true | _ => false end.

(** What is prepended to the records still to come. *)
Definition emit (os : list object) (r : csv_error + list object)
  : csv_error + list object :=
  match r with
  | inl e => inl e
  | inr os' => inr (os ++ os')%list
  end.

Section Scan.

Variable from_line : nat.
Variable columns : list string.
Variable cast : string -> string -> value.

(** [__onRecord]: below [from_line] the record is dropped. *)
Definition on_record (st : scanner) : csv_error + (list object * scanner) :=
  if enabled st then
    match build columns cast (lines st) (record st) with
    | inl e => inl e
    | inr o => inr ([o], reset_record true st)
    end
  else inr ([], reset_record false st).

(** At a record delimiter: "Activate records emition if above from_line",
    or else close the field and the record. *)
Definition end_of_record (st : scanner) : csv_error + (list object * scanner) :=
  if (negb (enabled st)
      && Nat.leb from_line (lines st + (if wasRowDelimiter st then 1 else 0)))%bool
  then inr ([], reset_record true st)
  else on_record (on_field st).

(** At the end of the input: "Ensure we are not ending in a quoting
    state", "Skip last line if it has no characters". *)
Definition at_end (st : scanner) : csv_error + list object :=
  if quoting st then inl (QuoteNotClosed (lines st))
  else if (wasQuoting st || negb (is_nil (record st)) || negb (is_empty (field st)))%bool
  then match on_record (on_field st) with
       | inl e => inl e
       | inr (os, _) => inr os
       end
  else inr [].

(** The loop over the characters of the input. *)
Fixpoint scan (s : string) (st : scanner) {struct s} : csv_error + list object :=
  match s with
  | EmptyString => at_end st
  | String chr rest =>
      let st := count_line st in
      let st := if quoting st then st else discovered s st in
      let st := mark_line_end chr st in
      if Ascii.eqb chr QUOTE then
        if quoting st then
          match rest with
          | String next rest' =>
              if Ascii.eqb next QUOTE
              then (* an escaped quote *) scan rest' (append_char QUOTE st)
              else
                let st := discovered rest st in
                if (Ascii.eqb next NUL || Ascii.eqb next ","
                    || at_record_delimiter st rest)%bool
                then scan rest (close_quote st)
                else inl (InvalidClosingQuote (lines st))
          | EmptyString => scan rest (close_quote st)
          end
        else if is_empty (field st) then scan rest (open_quote st)
        else inl (InvalidOpeningQuote (lines st))
      else if quoting st then scan rest (append_char chr st)
      else if at_record_delimiter st s then
        match end_of_record st with
        | inl e => inl e
        | inr (os, st') =>
            emit os
              match record_delimiter st, rest with
              | Some rd_crlf, String _ rest' => scan rest' st'
              | _, _ => scan rest st'
              end
        end
      else if Ascii.eqb chr "," then scan rest (on_field st)
      else scan rest (append_char chr st)
  end.

Definition start : scanner :=
  {| quoting := false; wasQuoting := false; field := EmptyString; record := [];
     lines := 1; wasRowDelimiter := false; enabled := Nat.eqb from_line 1;
     record_delimiter := None |}.

End Scan.

(** [parse(input, {delimiter: ",", fromLine, columns, cast}, callback)]:
    what the callback receives. Lines are numbered from 1 and [fromLine]
    (at least 1) is the first line that is handled as a record; with
    [columns] given as a list no line is taken as a header. *)
Definition parse (fromLine : nat) (columns : list string)
    (cast : string -> string -> value) (input : string)
  : csv_error + list object :=
  scan fromLine columns cast input (start fromLine).

(** ** The tokenizer on plain text

    On a text without quote characters and carriage returns the scanner
    amounts to splitting the text into lines and the lines into fields
    ([CsvFacts.parse_plain] below); the definitions of this view follow. *)

(** The lines of a text; a final line terminator ends the last record and
    does not start an empty one. *)
Definition plain_lines (input : string) : list string :=
  let ls := split_lines input in
  match rev ls with
  | EmptyString :: r => rev r
  | _ => ls
  end.

Definition plain_record (columns : list string)
    (cast : string -> string -> value) (line : nat) (text : string)
  : csv_error + object :=
  build columns cast line (split "," text).

Fixpoint plain_records (columns : list string)
    (cast : string -> string -> value) (line : nat) (ls : list string)
  : csv_error + list object :=
  match ls with
  | [] => inr []
  | text :: rest =>
      match plain_record columns cast line text with
      | inl e => inl e
      | inr o =>
          match plain_records columns cast (S line) rest with
          | inl e => inl e
          | inr os => inr (o :: os)
          end
      end
  end.

Definition plain_parse (fromLine : nat) (columns : list string)
    (cast : string -> string -> value) (input : string)
  : csv_error + list object :=
  plain_records columns cast fromLine (skipn (fromLine - 1) (plain_lines input)).

(** The steps the scanner takes on such a text, by which the two are
    shown to agree. *)

(** The scanner at a character that is no quote, no carriage return and no
    line feed, outside quotes. *)
Definition plain_char (chr : ascii) (st : scanner) : scanner :=
  let st := count_line st in
  if Ascii.eqb chr "," then on_field st else append_char chr st.

(** The scanner after the characters of [l]. *)
Fixpoint feed (l : string) (st : scanner) : scanner :=
  match l with
  | EmptyString => st
  | String c r => feed r (plain_char c st)
  end.

(** The scanner after the line feed that ends line [n]. *)
Definition line_start (n : nat) (on : bool) : scanner :=
  {| quoting := false; wasQuoting := false; field := EmptyString; record := [];
     lines := n; wasRowDelimiter := true; enabled := on;
     record_delimiter := Some rd_lf |}.

(** The line the next character is on. *)
Definition lines_now (st : scanner) : nat :=
  if wasRowDelimiter st then S (lines st) else lines st.

(** The scanner at a line feed, outside quotes, the record delimiter being
    the line feed or not known yet. *)
Definition at_line_feed (st : scanner) : scanner :=
  {| quoting := false; wasQuoting := wasQuoting st; field := field st;
     record := record st; lines := lines_now st; wasRowDelimiter := true;
     enabled := enabled st; record_delimiter := Some rd_lf |}.

(** A scanner between two records. *)
Definition fresh (st : scanner) : Prop :=
  quoting st = false /\ wasQuoting st = false /\ field st = EmptyString
  /\ record st = []
  /\ (record_delimiter st = None \/ record_delimiter st = Some rd_lf).

(** The scanner over the lines of a plain text, [cur] being the number of
    the first of them and [on] whether records are built yet. *)
Fixpoint plain_scan (from_line : nat) (columns : list string)
    (cast : string -> string -> value) (cur : nat) (on : bool) (ls : list string)
  : csv_error + list object :=
  match ls with
  | [] => inr []
  | l :: rest =>
      match rest with
      | [] =>
          if is_empty l then inr []
          else if on then
            match build columns cast cur (split "," l) with
            | inl e => inl e
            | inr o => inr [o]
            end
          else inr []
      | _ :: _ =>
          if on then
            match build columns cast cur (split "," l) with
            | inl e => inl e
            | inr o => emit [o] (plain_scan from_line columns cast (S cur) true rest)
            end
          else plain_scan from_line columns cast (S cur) (Nat.leb from_line (cur + 1)) rest
      end
  end.

(** The lines but an empty last one. *)
Fixpoint chop (ls : list string) : list string :=
  match ls with
  | [] => []
  | l :: rest =>
      match rest with
      | [] => if is_empty l then [] else [l]
      | _ :: _ => l :: chop rest
      end
  end.

(** The first line of [ls] continues what was read before. *)
Definition glue (p : string) (ls : list string) : list string :=
  match ls with
  | x :: xs => (p ++ x) :: xs
  | [] => [p]
  end.

End Csv.

(* ================================================================== *)
(** * The canonical ledger model and the collaborators                 *)
(* ================================================================== *)

Module Ghostfolio.
Import JS.

(** Modelled from the spec: the enumeration [GhostfolioOrderType] of
    [models/ghostfolioOrderType], which the converters import; its members
    are the closed set of canonical activity kinds. *)
Inductive GhostfolioOrderType := buy | sell | dividend | interest | fx.

(** [GhostfolioOrderType[key]]: [None] is [undefined]. *)
Definition GhostfolioOrderType_of (key : string) : option GhostfolioOrderType :=
  if String.eqb key "buy" then Some buy
  else if String.eqb key "sell" then Some sell
  else if String.eqb key "dividend" then Some dividend
  else if String.eqb key "interest" then Some interest
  else if String.eqb key "fx" then Some fx
  else None.

Record GhostfolioActivity := {
  accountId : option string;
  comment : string;
  fee : number;
  quantity : number;
  type : option GhostfolioOrderType;
  unitPrice : number;
  currency : option string;
  dataSource : string;
  date : string;
  symbol : option string
}.

Record GhostfolioExport := {
  meta_date : string;
  meta_version : string;
  activities : list GhostfolioActivity
}.

(** Modelled from the spec: the resolved security of
    [models/yahooFinanceRecord], which carries at least a symbol and a
    currency. *)
Record YahooFinanceRecord := {
  y_symbol : option string;
  y_currency : option string
}.

(** The arguments of one [securityService.getSecurity] call. *)
Record query := {
  q_isin : option string;
  q_symbol : option string;
  q_name : option string;
  q_currency : option string
}.

(** What a call comes back with: a security, nothing, or a raised error. *)
Inductive resolution :=
| Found (security : YahooFinanceRecord)
| NotFound
| Raises (message : string).

(** The security service: its answer may depend on the calls made before. *)
Definition SecurityService : Type := list query -> query -> resolution.

(** The errors handed to the error callback. *)
Inductive Error :=
| ParsingError (details : option Csv.csv_error)
| Raised (message : string).

(** Lines written to the progress log or the console: the line either
    converter writes once the tokenizer has delivered records, and the
    lines written for single rows. *)
Inductive log_line :=
| ReadCsvFile
| ReadBitpandaCsvFile
| QueryError (identifier : option string) (line : nat)
| NoResult (action identifier currency : option string)
| MetalNoSymbol (asset currency : string)
| MetalLookupError (asset message : string).

(** The state one run threads through its rows. *)
Record state := {
  acts : list GhostfolioActivity;
  calls : list query;
  logs : list log_line
}.

Definition init : state := {| acts := []; calls := []; logs := [] |}.

Definition push (a : GhostfolioActivity) (st : state) : state :=
  {| acts := acts st ++ [a]; calls := calls st; logs := logs st |}.

Definition called (q : query) (st : state) : state :=
  {| acts := acts st; calls := calls st ++ [q]; logs := logs st |}.

Definition logged (l : log_line) (st : state) : state :=
  {| acts := acts st; calls := calls st; logs := logs st ++ [l] |}.

(** How a run ends: one of the two callbacks, or neither when an exception
    escapes the asynchronous callback. *)
Inductive outcome :=
| Success (result : GhostfolioExport)
| Failure (e : Error)
| Unhandled.

End Ghostfolio.

(* ================================================================== *)
(** * Provider A: [TrueWealthConverter]                                *)
(* ================================================================== *)

Module TrueWealth.
Import JS Csv Ghostfolio.

(** Modelled from the spec: [processHeaders(input, ",")] of the abstract
    converter (header-line mode), which is inherited and not part of the
    two source files: the first line, split on the delimiter, tokens
    trimmed. *)
Definition processHeaders (input : string) : list string :=
  map trim (split "," (hd EmptyString (split_lines input))).

Definition numericColumns : list string :=
  ["price"; "shares"; "amount"; "taxes"; "fees"; "value"].

(** The [cast] option of [parse]. A "type" cell that matches none of the
    four actions falls through to the code below the chain. *)
Definition cast (column columnValue : string) : value :=
  let rest :=
    if existsb (String.eqb column) numericColumns
    then VNumber (parseFloat columnValue)
    else VString columnValue in
  if String.eqb column "type" then
    let action := toLowerCase columnValue in
    if includes action "buy" then VString "buy"
    else if includes action "sell" then VString "sell"
    else if includes action "dividend" then VString "dividend"
    else if includes action "fx" then VString "fx"
    else rest
  else rest.

(** [TrueWealthRecord]: a column the header does not name is [undefined]. *)
Record TrueWealthRecord := {
  r_date : option string;
  r_type : option string;
  r_currency : option string;
  r_price : option number;
  r_shares : option number;
  r_amount : option number;
  r_taxes : option number;
  r_fees : option number;
  r_isin : option string;
  r_value : option number;
  r_valueCurrency : option string;
  r_securityName : option string
}.

Definition record_of (o : object) : TrueWealthRecord :=
  {| r_date := get_string o "date";
     r_type := get_string o "type";
     r_currency := get_string o "currency";
     r_price := get_number o "price";
     r_shares := get_number o "shares";
     r_amount := get_number o "amount";
     r_taxes := get_number o "taxes";
     r_fees := get_number o "fees";
     r_isin := get_string o "isin";
     r_value := get_number o "value";
     r_valueCurrency := get_string o "valueCurrency";
     r_securityName := get_string o "securityName" |}.

(** A number-typed property as the value it is at run time. *)
Definition prim (x : option number) : value :=
  match x with Some n => VNumber n | None => VUndefined end.

(** [ToNumber] of a number-typed property: [undefined] is NaN. *)
Definition to_number (x : option number) : number :=
  match x with Some n => n | None => NaN end.

(** [isNumberObject] of [util/types]: true of boxed [Number] objects only. *)
Definition isNumberObject (v : value) : bool :=
  match v with VNumberObject _ => true | _ => false end.

(** The template literal of a string-typed property. *)
Definition template (x : option string) : string :=
  match x with Some s => s | None => "undefined" end.

Definition ignoredRecordTypes : list string := ["fx"].

(** [isIgnoredRecord]; [None] is the [TypeError] of calling
    [toLocaleLowerCase] on [undefined]. *)
Definition isIgnoredRecord (record : TrueWealthRecord) : option bool :=
  match r_type record with
  | Some t => Some (existsb (fun i => includes (toLowerCase t) i) ignoredRecordTypes)
  | None => None
  end.

(** How the body of the loop leaves a row. *)
Inductive step :=
| Next (st : state)
| Abort (st : state) (e : Error)
| Throw (st : state).

(** The state a row is left with. *)
Definition final (s : step) : state :=
  match s with Next st | Abort st _ | Throw st => st end.

Section Run.

Variable getSecurity : SecurityService.
Variable GHOSTFOLIO_ACCOUNT_ID : option string.
(** [new Date()] of the envelope. *)
Variable now : string.
(** [dayjs.tz(d, "YYYY-MM-DD", "Europe/Zurich").hour(15).format(...)];
    [None] is the [RangeError] [dayjs.tz] throws on a date it cannot
    parse. *)
Variable zurich_15h : string -> option string.

Definition query_of (record : TrueWealthRecord) : query :=
  {| q_isin := r_isin record;
     q_symbol := None;
     q_name := r_securityName record;
     q_currency := r_currency record |}.

Definition activity_of (record : TrueWealthRecord) (security : YahooFinanceRecord)
    (date : string) : GhostfolioActivity :=
  let fees :=
    if Bool.eqb (isNumberObject (prim (r_fees record))) false
    then zero else to_number (r_fees record) in
  let numberOfShares := Math_abs (to_number (r_shares record)) in
  let assetPrice := Math_abs (to_number (r_price record)) in
  let '(numberOfShares, assetPrice) :=
    if strict_eq (r_type record) "dividend"
    then (of_decimal false 1 0, Math_abs (to_number (r_price record)))
    else (numberOfShares, assetPrice) in
  {| accountId := GHOSTFOLIO_ACCOUNT_ID;
     comment := "";
     fee := fees;
     quantity := numberOfShares;
     type := match r_type record with
             | Some t => GhostfolioOrderType_of t
             | None => None
             end;
     unitPrice := assetPrice;
     currency := nullish (y_currency security) (r_currency record);
     dataSource := "YAHOO";
     date := date;
     symbol := y_symbol security |}.

(** The body of the [for] loop at index [idx]. The date is parsed after the
    security is resolved; nothing catches what this throws. *)
Definition process_record (idx : nat) (record : TrueWealthRecord) (st : state) : step :=
  match isIgnoredRecord record with
  | None => Throw st
  | Some true => Next st
  | Some false =>
      let q := query_of record in
      let st1 := called q st in
      match getSecurity (calls st) q with
      | Raises message =>
          Abort (logged (QueryError (or_ostring (r_isin record) (r_securityName record))
                                    (idx + 2)) st1)
                (Raised message)
      | NotFound =>
          Next (logged (NoResult (r_type record)
                                 (or_ostring (r_isin record) (r_securityName record))
                                 (r_currency record)) st1)
      | Found security =>
          match zurich_15h (template (r_date record)) with
          | None => Throw st1
          | Some date => Next (push (activity_of record security date) st1)
          end
      end
  end.

Fixpoint loop (records : list TrueWealthRecord) (idx : nat) (st : state) : step :=
  match records with
  | [] => Next st
  | record :: rest =>
      match process_record idx record st with
      | Next st' => loop rest (S idx) st'
      | stop => stop
      end
  end.

(** The state of a run once the tokenizer has delivered records. *)
Definition started : state := logged ReadCsvFile init.

(** The callback of [parse]. *)
Definition on_parsed (parsed : csv_error + list object) : outcome * state :=
  match parsed with
  | inl err => (Failure (ParsingError (Some err)), init)
  | inr [] => (Failure (ParsingError None), init)
  | inr objects =>
      match loop (map record_of objects) 0 started with
      | Next st =>
          (Success {| meta_date := now; meta_version := "v0"; activities := acts st |}, st)
      | Abort st e => (Failure e, st)
      | Throw st => (Unhandled, st)
      end
  end.

(** What the tokenizer is given. *)
Definition tokenized (input : string) : csv_error + list object :=
  parse 2 (processHeaders input) cast input.

Definition processFileContents (input : string) : outcome * state :=
  on_parsed (tokenized input).

End Run.

End TrueWealth.

(* ================================================================== *)
(** * Provider B: [BitpandaConverter]                                  *)
(* ================================================================== *)

Module Bitpanda.
Import JS Csv Ghostfolio.

(** The literal [31.1034768]: grams in one troy ounce. *)
Definition GRAMS_PER_TROY_OUNCE : number := of_decimal false 311034768 (-7).

Definition gramsToTroyOunces (grams : number) : number :=
  div grams GRAMS_PER_TROY_OUNCE.

(** Bitpanda symbol : Yahoo symbol. *)
Definition mapping : list (string * string) := [("POL", "MATIC")].

Fixpoint lookup (table : list (string * string)) (k : string) : option string :=
  match table with
  | [] => None
  | (k', v) :: r => if String.eqb k' k then Some v else lookup r k
  end.

(** [mapping] is an object literal: besides its own entries, indexing it
    finds what it inherits from [Object.prototype], the methods (under the
    name of each the name of the function) and the accessor [__proto__]. *)
Definition Object_prototype : list (string * string) :=
  [ ("constructor", "Object");
    ("__defineGetter__", "__defineGetter__");
    ("__defineSetter__", "__defineSetter__");
    ("hasOwnProperty", "hasOwnProperty");
    ("__lookupGetter__", "__lookupGetter__");
    ("__lookupSetter__", "__lookupSetter__");
    ("isPrototypeOf", "isPrototypeOf");
    ("propertyIsEnumerable", "propertyIsEnumerable");
    ("toString", "toString");
    ("valueOf", "valueOf");
    ("toLocaleString", "toLocaleString") ].

(** What [mapBitpandaSymbolToYahoo] returns: a string, or one of the
    objects found on the prototype, which are truthy. *)
Inductive mapped :=
| MString (s : string)
| MFunction (name : string)
| MPrototype.

(** [mapping[asset] || asset]. *)
Definition mapBitpandaSymbolToYahoo (asset : string) : mapped :=
  match lookup mapping asset with
  | Some (String c r) => MString (String c r)
  | Some EmptyString => MString asset
  | None =>
      if String.eqb asset "__proto__" then MPrototype
      else match lookup Object_prototype asset with
           | Some name => MFunction name
           | None => MString asset
           end
  end.

(** [ToString] of the value, as a template literal applies it. *)
Definition ToString (m : mapped) : string :=
  match m with
  | MString s => s
  | MFunction name => "function " ++ name ++ "() { [native code] }"
  | MPrototype => "[object Object]"
  end.

(** [processHeaders]: the header mapping of the export, whatever the file
    says. *)
Definition processHeaders (_ : string) : list string :=
  [ "transactionId"; "timestamp"; "transactionType"; "inOut"; "amountFiat";
    "fiat"; "amountAsset"; "asset"; "assetMarketPrice";
    "assetMarketPriceCurrency"; "assetClass"; "productId"; "fee"; "feeAsset";
    "feePercent"; "spread"; "spreadCurrency"; "taxFiat" ].

Definition floatFields : list string :=
  [ "amountFiat"; "amountAsset"; "assetMarketPrice"; "fee"; "feePercent";
    "spread"; "taxFiat" ].

(** The [cast] option of [parse]. *)
Definition cast (column columnValue : string) : value :=
  if existsb (String.eqb column) floatFields then
    if (String.eqb columnValue "" || String.eqb columnValue "-")%bool
    then VNumber zero
    else VNumber (Math_abs (parseFloat (strip_non_numeric columnValue)))
  else VString columnValue.

(** [BitpandaRecord]: with the fixed column list every property is there. *)
Record BitpandaRecord := {
  transactionId : string;
  timestamp : string;
  transactionType : string;
  inOut : string;
  amountFiat : number;
  fiat : string;
  amountAsset : number;
  asset : string;
  assetMarketPrice : number;
  assetMarketPriceCurrency : string;
  assetClass : string;
  productId : string;
  r_fee : number;
  feeAsset : string;
  feePercent : number;
  spread : number;
  spreadCurrency : string;
  taxFiat : number
}.

Definition str (o : object) (k : string) : string :=
  match get_string o k with Some s => s | None => "" end.

Definition num (o : object) (k : string) : number :=
  match get_number o k with Some x => x | None => NaN end.

Definition record_of (o : object) : BitpandaRecord :=
  {| transactionId := str o "transactionId";
     timestamp := str o "timestamp";
     transactionType := str o "transactionType";
     inOut := str o "inOut";
     amountFiat := num o "amountFiat";
     fiat := str o "fiat";
     amountAsset := num o "amountAsset";
     asset := str o "asset";
     assetMarketPrice := num o "assetMarketPrice";
     assetMarketPriceCurrency := str o "assetMarketPriceCurrency";
     assetClass := str o "assetClass";
     productId := str o "productId";
     r_fee := num o "fee";
     feeAsset := str o "feeAsset";
     feePercent := num o "feePercent";
     spread := num o "spread";
     spreadCurrency := str o "spreadCurrency";
     taxFiat := num o "taxFiat" |}.

(** [isIgnoredRecord]: asset class missing, or "Fiat". *)
Definition isIgnoredRecord (record : BitpandaRecord) : bool :=
  match assetClass record with
  | EmptyString => true
  | c => String.eqb (toLowerCase c) "fiat"
  end.

(** "Determine type": the key of [GhostfolioOrderType], or [undefined]. *)
Definition determine_type (record : BitpandaRecord) : option string :=
  let t := toLowerCase (transactionType record) in
  if String.eqb t "reward" then Some "interest"
  else if startsWith t "transfer" then
    Some (if String.eqb (toLowerCase (inOut record)) "incoming" then "buy" else "sell")
  else if String.eqb t "buy" then Some "buy"
  else if String.eqb t "sell" then Some "sell"
  else None.

(** [record.assetClass ? record.assetClass.toLowerCase() : ""]. *)
Definition lower_class (record : BitpandaRecord) : string :=
  match assetClass record with
  | EmptyString => ""
  | c => toLowerCase c
  end.

(** The padding of one line of the export. *)
Definition pad_line (expectedColumns : nat) (line : string) : string :=
  match trim line with
  | EmptyString => line
  | _ =>
      let cols := split "," line in
      if Nat.ltb (List.length cols) expectedColumns
      then line ++ join "" (repeat ",-" (expectedColumns - List.length cols))
      else line
  end.

(** 0-based, line 8 is the header. *)
Definition headerLineIdx : nat := 7.

(** The first line [parse] handles ([fromLine]). *)
Definition fromLine : nat := 8.

(** The [for] loop over the lines, from index [headerLineIdx + 1] on. *)
Definition pad_lines (expectedColumns : nat) (lines : list string) : list string :=
  firstn (headerLineIdx + 1) lines
  ++ map (pad_line expectedColumns) (skipn (headerLineIdx + 1) lines).

(** "Preprocess input to ensure each data row has the correct number of
    columns". *)
Definition preprocess (input : string) : string :=
  let lines := split_lines input in
  let expectedColumns := List.length (processHeaders input) in
  join (String LF "") (pad_lines expectedColumns lines).

Section Run.

Variable getSecurity : SecurityService.
Variable GHOSTFOLIO_ACCOUNT_ID : option string.
Variable GHOSTFOLIO_BITPANDA_STAKING_REWARD_ASSET_ID : option string.
(** [new Date()] of the envelope. *)
Variable now : string.
(** [dayjs(t).format("YYYY-MM-DDTHH:mm:ssZ")]. *)
Variable format_timestamp : string -> string.

Definition metal_query (record : BitpandaRecord) : query :=
  {| q_isin := None; q_symbol := None; q_name := Some (asset record); q_currency := None |}.

(** "Convert symbol, amount, unit price based on asset class". *)
Definition convert (record : BitpandaRecord) (st : state)
  : string * number * number * state :=
  let assetClass := lower_class record in
  let quantity := amountAsset record in
  let unitPrice := assetMarketPrice record in
  if String.eqb assetClass "cryptocurrency" then
    (ToString (mapBitpandaSymbolToYahoo (asset record)) ++ "USD", quantity, unitPrice, st)
  else if String.eqb assetClass "stock (derivative)" then
    (asset record, quantity, unitPrice, st)
  else if String.eqb assetClass "metal" then
    let quantity := gramsToTroyOunces quantity in
    let unitPrice := mul unitPrice GRAMS_PER_TROY_OUNCE in
    let st1 := called (metal_query record) st in
    match getSecurity (calls st) (metal_query record) with
    | Found {| y_symbol := Some (String c s) |} =>
        (String c s, quantity, unitPrice, st1)
    | Found _ | NotFound =>
        (asset record, quantity, unitPrice,
         logged (MetalNoSymbol (asset record) (assetMarketPriceCurrency record)) st1)
    | Raises message =>
        (asset record, quantity, unitPrice,
         logged (MetalLookupError (asset record) message) st1)
    end
  else (asset record, quantity, unitPrice, st).

(** "Add activities to result". *)
Definition activities_of (record : BitpandaRecord) (type : string)
    (symbol : string) (quantity unitPrice : number) : list GhostfolioActivity :=
  let date := format_timestamp (timestamp record) in
  if String.eqb type "interest" then
    [ {| accountId := GHOSTFOLIO_ACCOUNT_ID;
         comment := "Staking reward " ++ asset record;
         fee := r_fee record;
         quantity := of_decimal false 1 0;
         type := GhostfolioOrderType_of type;
         unitPrice := amountFiat record;
         currency := Some (fiat record);
         dataSource := "MANUAL";
         date := date;
         symbol := GHOSTFOLIO_BITPANDA_STAKING_REWARD_ASSET_ID |};
      {| accountId := GHOSTFOLIO_ACCOUNT_ID;
         comment := "";
         fee := zero;
         quantity := quantity;
         type := GhostfolioOrderType_of "buy";
         unitPrice := unitPrice;
         currency := Some (or_string (assetMarketPriceCurrency record) (fiat record));
         dataSource := "YAHOO";
         date := date;
         symbol := Some symbol |} ]
  else
    [ {| accountId := GHOSTFOLIO_ACCOUNT_ID;
         comment := "";
         fee := r_fee record;
         quantity := quantity;
         type := GhostfolioOrderType_of type;
         unitPrice := unitPrice;
         currency := Some (or_string (assetMarketPriceCurrency record) (fiat record));
         dataSource := "YAHOO";
         date := date;
         symbol := Some symbol |} ].

Definition push_all (l : list GhostfolioActivity) (st : state) : state :=
  fold_left (fun s a => push a s) l st.

(** The body of the [for] loop. *)
Definition process_record (record : BitpandaRecord) (st : state) : state :=
  if isIgnoredRecord record then st
  else
    match determine_type record with
    | None => st
    | Some type =>
        let '(symbol, quantity, unitPrice, st1) := convert record st in
        push_all (activities_of record type symbol quantity unitPrice) st1
    end.

Definition loop (records : list BitpandaRecord) (st : state) : state :=
  fold_left (fun s record => process_record record s) records st.

(** The state of a run once the tokenizer has delivered records. *)
Definition started : state := logged ReadBitpandaCsvFile init.

(** The callback of [parse]. *)
Definition on_parsed (parsed : csv_error + list object) : outcome * state :=
  match parsed with
  | inl err => (Failure (ParsingError (Some err)), init)
  | inr [] => (Failure (ParsingError None), init)
  | inr objects =>
      let st := loop (map record_of objects) started in
      (Success {| meta_date := now; meta_version := "v0"; activities := acts st |}, st)
  end.

(** What the tokenizer is given and what it returns. *)
Definition tokenized (input : string) : csv_error + list object :=
  parse fromLine (processHeaders input) cast (preprocess input).

Definition processFileContents (input : string) : outcome * state :=
  on_parsed (tokenized input).

End Run.

End Bitpanda.

(* ================================================================== *)
(** * Predicates of the specification and sample exports               *)
(* ================================================================== *)

Module Props.
Import JS Csv Ghostfolio.

(** A number that carries no sign: NaN, a zero, or positive. *)
Definition unsigned (x : number) : Prop :=
  match x with
  | S754_nan | S754_zero _ => True
  | S754_infinity s | S754_finite s _ _ => s = false
  end.

(** [x] is never below zero, and is at least zero as soon as it is a
    number at all. *)
Definition never_negative (x : number) : Prop :=
  ltb0 x = false /\ (isNaN x = false -> geb0 x = true).

(** The invariant of the data model, [quantity >= 0], [unitPrice >= 0] and
    [fee >= 0], as the comparison of the language decides it. *)
Definition sign_invariant (a : GhostfolioActivity) : bool :=
  (geb0 (quantity a) && geb0 (unitPrice a) && geb0 (fee a))%bool.

(** What the converters do establish of the three numbers. *)
Definition sign_normalized (a : GhostfolioActivity) : Prop :=
  never_negative (quantity a) /\ never_negative (unitPrice a) /\
  never_negative (fee a).

(** The activities of the envelope a run delivers, if it delivers one. *)
Definition delivered (run : outcome * state) : list GhostfolioActivity :=
  match fst run with
  | Success result => activities result
  | _ => []
  end.

Definition succeeded (run : outcome * state) : bool :=
  match fst run with Success _ => true | _ => false end.

(** Every property of a tokenized record is the cast of a field under its
    column name. *)
Definition cast_image (cast : string -> string -> value) (o : object) : Prop :=
  forall k v, In (k, v) o -> exists field, v = cast k field.

(** The number the Bitpanda cast makes of a cell of a numeric column. *)
Definition bitpanda_number (field : string) : number :=
  if (String.eqb field "" || String.eqb field "-")%bool then zero
  else Math_abs (parseFloat (strip_non_numeric field)).

(** The numbers of a Bitpanda record the converter reads carry no sign. *)
Definition unsigned_record (r : Bitpanda.BitpandaRecord) : Prop :=
  unsigned (Bitpanda.amountFiat r) /\ unsigned (Bitpanda.amountAsset r) /\
  unsigned (Bitpanda.assetMarketPrice r) /\ unsigned (Bitpanda.r_fee r).

(** The asset class of a Bitpanda record, compared without case. *)
Definition has_class (r : Bitpanda.BitpandaRecord) (c : string) : bool :=
  String.eqb (toLowerCase (Bitpanda.assetClass r)) c.

(** The quantity and unit price of the position a Bitpanda row books:
    those of the row, in troy ounces when the asset is a metal. *)
Definition position_quantity (r : Bitpanda.BitpandaRecord) : number :=
  if has_class r "metal" then Bitpanda.gramsToTroyOunces (Bitpanda.amountAsset r)
  else Bitpanda.amountAsset r.

Definition position_price (r : Bitpanda.BitpandaRecord) : number :=
  if has_class r "metal"
  then mul (Bitpanda.assetMarketPrice r) Bitpanda.GRAMS_PER_TROY_OUNCE
  else Bitpanda.assetMarketPrice r.

(** The symbol and the state the conversion step of a Bitpanda row
    yields. *)
Definition converted_symbol (svc : SecurityService) (r : Bitpanda.BitpandaRecord)
    (st : state) : string :=
  let '(symbol, _, _, _) := Bitpanda.convert svc r st in symbol.

Definition converted_state (svc : SecurityService) (r : Bitpanda.BitpandaRecord)
    (st : state) : state :=
  let '(_, _, _, st1) := Bitpanda.convert svc r st in st1.

(** The action the TrueWealth cast makes of a "type" cell. *)
Definition truewealth_action (v : string) : string :=
  let action := toLowerCase v in
  if includes action "buy" then "buy"
  else if includes action "sell" then "sell"
  else if includes action "dividend" then "dividend"
  else if includes action "fx" then "fx"
  else v.

(** A line of text: no carriage return and no line feed in it. *)
Fixpoint plain (s : string) : bool :=
  match s with
  | EmptyString => true
  | String c r => (negb (Ascii.eqb c CR || Ascii.eqb c LF) && plain r)%bool
  end.

(** A text without a stray carriage return: each of its lines is plain. *)
Definition clean (input : string) : bool := forallb plain (split_lines input).

(** No carriage return anywhere in a text. *)
Fixpoint no_CR (s : string) : bool :=
  match s with
  | EmptyString => true
  | String c r => (negb (Ascii.eqb c CR) && no_CR r)%bool
  end.

(** No quote character anywhere in a text. *)
Fixpoint no_quote (s : string) : bool :=
  match s with
  | EmptyString => true
  | String c r => (negb (Ascii.eqb c QUOTE) && no_quote r)%bool
  end.

Fixpoint has_digit (s : string) : bool :=
  match s with
  | EmptyString => false
  | String c r => (is_digit c || has_digit r)%bool
  end.

(** A string of dots and dashes only. *)
Fixpoint dots_and_dashes (s : string) : bool :=
  match s with
  | EmptyString => true
  | String c r => ((Ascii.eqb c "." || Ascii.eqb c "-") && dots_and_dashes r)%bool
  end.

(** A string that does not begin with a dash. *)
Definition no_leading_dash (s : string) : bool :=
  match s with
  | String c _ => negb (Ascii.eqb c "-")
  | EmptyString => true
  end.

(** A line the padding of Bitpanda leaves as it is: blank, or with the
    eighteen columns of the schema or more. *)
Definition compliant (line : string) : bool :=
  (String.eqb (trim line) "" || Nat.leb 18 (List.length (split "," line)))%bool.

(** The number of activities a Bitpanda record books. *)
Definition booked (r : Bitpanda.BitpandaRecord) : nat :=
  if Bitpanda.isIgnoredRecord r then 0%nat
  else match Bitpanda.determine_type r with
       | Some t => if String.eqb t "interest" then 2%nat else 1%nat
       | None => 0%nat
       end.

(** The Bitpanda records that book anything. *)
Definition books (r : Bitpanda.BitpandaRecord) : bool :=
  (negb (Bitpanda.isIgnoredRecord r)
   && match Bitpanda.determine_type r with Some _ => true | None => false end)%bool.

(** The Bitpanda records for which the security service is asked. *)
Definition looked_up (r : Bitpanda.BitpandaRecord) : bool :=
  (books r && has_class r "metal")%bool.

(** The two shapes of a Bitpanda activity: the booking of a reward, and
    the booking of a position. *)
Definition bitpanda_shape (account reward_asset : option string)
    (a : GhostfolioActivity) : Prop :=
  accountId a = account
  /\ ((type a = Some interest /\ dataSource a = "MANUAL"
       /\ quantity a = of_decimal false 1 0 /\ symbol a = reward_asset)
      \/ ((type a = Some buy \/ type a = Some sell) /\ dataSource a = "YAHOO"
          /\ comment a = "" /\ symbol a <> None)).

(** The TrueWealth records the loop resolves. *)
Definition resolved (r : TrueWealth.TrueWealthRecord) : bool :=
  match TrueWealth.isIgnoredRecord r with Some false => true | _ => false end.

(** The static rename table, spelled out. *)
Definition renamed (asset : string) : string :=
  if String.eqb asset "POL" then "MATIC" else asset.

(** The names an object literal answers to besides its own keys. *)
Definition inherited (key : string) : bool :=
  (String.eqb key "__proto__"
   || existsb (fun e => String.eqb (fst e) key) Bitpanda.Object_prototype)%bool.

End Props.

Module Samples.
Import JS Csv Ghostfolio.

Definition NL : string := String LF "".

(** Three security services: one that always finds the same security, one
    that finds nothing, one whose every call raises. *)
Definition finding : SecurityService :=
  fun _ _ => Found {| y_symbol := Some "ABC"; y_currency := Some "CHF" |}.
Definition missing : SecurityService := fun _ _ => NotFound.
Definition raising : SecurityService := fun _ _ => Raises "lookup failed".

Definition same (s : string) : string := s.

(** A date that parses is left as it is; two dates do not parse. *)
Definition zurich (s : string) : option string :=
  if (String.eqb s "" || String.eqb s "undefined")%bool then None else Some s.

(** A TrueWealth export: a purchase, and a fee charged on the same
    security. *)
Definition tw_header : string :=
  "date,type,currency,price,shares,amount,taxes,fees,isin,value,valueCurrency,securityName".
Definition tw_buy : string :=
  "2024-01-02,Buy,CHF,10,-5,50,0,1.5,CH1,50,CHF,Foo".
Definition tw_fee : string :=
  "2024-01-03,Fee,CHF,0,0,-3,0,3,CH1,-3,CHF,Foo".
Definition tw_export : string := tw_header ++ NL ++ tw_buy ++ NL ++ tw_fee ++ NL.

(** A TrueWealth purchase whose price cell is empty. *)
Definition tw_no_price : string :=
  tw_header ++ NL ++ "2024-01-02,Buy,CHF,,-5,50,0,1.5,CH1,50,CHF,Foo" ++ NL.


(** A Bitpanda export: seven lines of metadata, the header on line 8, data
    from line 9. *)
Definition bp_meta : string :=
  "Disclaimer" ++ NL ++ "Name" ++ NL ++ "Account" ++ NL ++ "Venue" ++ NL
  ++ "Period" ++ NL ++ "Generated" ++ NL ++ "Note" ++ NL.
Definition bp_header : string :=
  "Transaction ID,Timestamp,Transaction Type,In/Out,Amount Fiat,Fiat,Amount Asset,Asset,Asset market price,Asset market price currency,Asset class,Product ID,Fee,Fee asset,Fee percent,Spread,Spread Currency,Tax Fiat".
Definition bp_reward : string :=
  "T1,2024-01-01T10:00:00+01:00,reward,incoming,5,EUR,0.001,BTC,50000,EUR,Cryptocurrency,1,0,-,-,-,-,0".
Definition bp_gold : string :=
  "T2,2024-01-02T10:00:00+01:00,buy,outgoing,100,EUR,2,Gold,60,EUR,Metal,28".
Definition bp_gold_reward : string :=
  "T3,2024-01-03T10:00:00+01:00,reward,incoming,60,EUR,31.1034768,Gold,60,EUR,Metal,28,0,-,-,-,-,0".
Definition bp_deposit : string :=
  "T4,2024-01-04T10:00:00+01:00,deposit,incoming,100,EUR,2,Gold,60,EUR,Metal,28,0,-,-,-,-,0".

(** A purchase of a cryptocurrency that goes by the name "constructor". *)
Definition bp_constructor : string :=
  "T5,2024-01-05T10:00:00+01:00,buy,outgoing,100,EUR,2,constructor,50,EUR,Cryptocurrency,1,0,-,-,-,-,0".

Definition bp_export : string :=
  bp_meta ++ bp_header ++ NL ++ bp_reward ++ NL ++ bp_gold ++ NL.
Definition bp_deposit_only : string := bp_meta ++ bp_header ++ NL ++ bp_deposit ++ NL.
Definition bp_constructor_only : string :=
  bp_meta ++ bp_header ++ NL ++ bp_constructor ++ NL.
Definition bp_gold_only : string := bp_meta ++ bp_header ++ NL ++ bp_gold ++ NL.
Definition bp_gold_reward_only : string :=
  bp_meta ++ bp_header ++ NL ++ bp_gold_reward ++ NL.
Definition bp_header_only : string := bp_meta ++ bp_header ++ NL.

(** A quote character, and the line end of two characters. *)
Definition Q : string := String QUOTE "".
Definition CRLF : string := String CR (String LF "").

(** A TrueWealth purchase whose security name is quoted, with a comma in
    it; the same row with the closing quote missing. *)
Definition tw_quoted : string :=
  "2024-01-02,Buy,CHF,10,-5,50,0,1.5,CH1,50,CHF," ++ Q ++ "Foo, Inc" ++ Q.
Definition tw_unclosed : string :=
  "2024-01-02,Buy,CHF,10,-5,50,0,1.5,CH1,50,CHF," ++ Q ++ "Foo, Inc".

(** A TrueWealth purchase without a date. *)
Definition tw_undated : string :=
  ",Buy,CHF,10,-5,50,0,1.5,CH1,50,CHF,Foo".

(** A short Bitpanda row whose asset is quoted, with a comma in it. *)
Definition bp_quoted : string :=
  "T6,2024-01-06T10:00:00+01:00,buy,outgoing,100,EUR,2," ++ Q ++ "Gold, 1oz" ++ Q
  ++ ",60,EUR,Metal,28".

(** The records of single Bitpanda lines, as the tokenizer builds them. *)
Definition bp_record (line : string) : Bitpanda.BitpandaRecord :=
  Bitpanda.record_of
    (map (fun cf => (fst cf, Bitpanda.cast (fst cf) (snd cf)))
         (combine (Bitpanda.processHeaders "") (split "," line))).

Definition bp_object (line : string) : object :=
  map (fun cf => (fst cf, Bitpanda.cast (fst cf) (snd cf)))
      (combine (Bitpanda.processHeaders "") (split "," line)).

Definition tw_object (line : string) : object :=
  map (fun cf => (fst cf, TrueWealth.cast (fst cf) (snd cf)))
      (combine (TrueWealth.processHeaders tw_header) (split "," line)).

Definition tw_record (line : string) : TrueWealth.TrueWealthRecord :=
  TrueWealth.record_of (tw_object line).

End Samples.

(* ================================================================== *)
(** * Facts about numbers                                              *)
(* ================================================================== *)

Module NumberFacts.
Import JS Props.

Lemma unsigned_never_negative (x : number) : unsigned x -> never_negative x.
Proof.
  destruct x as [s | s | | s m e]; simpl; intros H; subst; split;
    try reflexivity; try (destruct s; reflexivity);
    intros Hn; try discriminate Hn; reflexivity.
Qed.

Lemma unsigned_abs (x : number) : unsigned (Math_abs x).
Proof. destruct x; simpl; auto. Qed.

Lemma unsigned_zero : unsigned zero.
Proof. exact I. Qed.

Lemma unsigned_NaN : unsigned NaN.
Proof. exact I. Qed.

(** Rounding keeps the sign it is given. *)
Lemma unsigned_round (m e : Z) (l : location) :
  unsigned (binary_round_aux prec emax false m e l).
Proof.
  unfold binary_round_aux.
  destruct (shr_fexp prec emax m e l) as [mrs' e'].
  destruct (shr_fexp prec emax _ e' loc_Exact) as [mrs'' e''].
  destruct (shr_m mrs''); simpl; auto.
  match goal with |- context [if ?b then _ else _] => destruct b end;
    reflexivity.
Qed.

Lemma unsigned_div (x : number) (m : positive) (e : Z) :
  unsigned x -> unsigned (div x (S754_finite false m e)).
Proof.
  destruct x as [s | s | | s mx ex]; simpl; intros H; subst; auto.
  unfold div, SFdiv.
  destruct (SFdiv_core_binary prec emax (Z.pos mx) ex (Z.pos m) e) as [[mz ez] lz].
  apply unsigned_round.
Qed.

Lemma unsigned_mul (x : number) (m : positive) (e : Z) :
  unsigned x -> unsigned (mul x (S754_finite false m e)).
Proof.
  destruct x as [s | s | | s mx ex]; simpl; intros H; subst; auto.
  apply unsigned_round.
Qed.

Lemma unsigned_one : unsigned (of_decimal false 1 0).
Proof. vm_compute. reflexivity. Qed.

End NumberFacts.

(* ================================================================== *)
(** * Facts about strings and the tokenizer                            *)
(* ================================================================== *)

Module CsvFacts.
Import JS Csv Props.

Lemma split_not_nil (d : ascii) (s : string) : split d s <> [].
Proof.
  destruct s as [| c r]; simpl; [discriminate |].
  destruct (Ascii.eqb c d); [discriminate |].
  destruct (split d r); discriminate.
Qed.

(** Splitting at a separator splits the list of fields. *)
Lemma split_app (d : ascii) (a b : string) :
  split d (a ++ String d b) = (split d a ++ split d b)%list.
Proof.
  induction a as [| c a IH]; simpl.
  - rewrite Ascii.eqb_refl. reflexivity.
  - destruct (Ascii.eqb c d).
    + rewrite IH. reflexivity.
    + rewrite IH. pose proof (split_not_nil d a) as Hne.
      destruct (split d a); [contradiction | reflexivity].
Qed.

Lemma append_assoc (a b c : string) : ((a ++ b) ++ c = a ++ (b ++ c))%string.
Proof. induction a as [| x a IH]; simpl; [reflexivity | now rewrite IH]. Qed.

Lemma join_repeat_S (s : string) (k : nat) :
  join "" (repeat s (S k)) = (s ++ join "" (repeat s k))%string.
Proof.
  unfold join. destruct k as [| k]; simpl.
  - induction s; simpl; [reflexivity | now f_equal].
  - reflexivity.
Qed.

(** Appending [k] times [",-"] appends [k] fields ["-"]. *)
Lemma split_padding (line : string) (k : nat) :
  split "," (line ++ join "" (repeat ",-" k)) = (split "," line ++ repeat "-" k)%list.
Proof.
  revert line. induction k as [| k IH]; intros line.
  - simpl. rewrite app_nil_r. f_equal.
    induction line; simpl; [reflexivity | now f_equal].
  - rewrite join_repeat_S.
    change (",-" ++ join "" (repeat ",-" k))%string
      with (String "," ("-" ++ join "" (repeat ",-" k))).
    rewrite split_app. f_equal.
    rewrite (IH "-"). reflexivity.
Qed.

Lemma append_empty (s : string) : (s ++ "")%string = s.
Proof. induction s as [| c s IH]; simpl; [reflexivity | now rewrite IH]. Qed.

Lemma split_lines_not_nil s : split_lines s <> [].
Proof.
  destruct s as [| c r]; simpl; [discriminate |].
  destruct (Ascii.eqb c LF); [discriminate |].
  destruct r as [| c' r']; [discriminate |].
  destruct (Ascii.eqb c CR && Ascii.eqb c' LF)%bool; [discriminate |].
  destruct (split_lines (String c' r')); discriminate.
Qed.

(** ** The scanner *)

Lemma scanner_ext (a b : scanner) :
  quoting a = quoting b -> wasQuoting a = wasQuoting b -> field a = field b ->
  record a = record b -> lines a = lines b ->
  wasRowDelimiter a = wasRowDelimiter b -> enabled a = enabled b ->
  record_delimiter a = record_delimiter b -> a = b.
Proof. destruct a, b; simpl; intros; subst; reflexivity. Qed.

Lemma quoting_count_line st : quoting (count_line st) = quoting st.
Proof. unfold count_line. now destruct (wasRowDelimiter st). Qed.

Lemma discovered_plain c r st :
  Ascii.eqb c CR = false -> Ascii.eqb c LF = false -> discovered (String c r) st = st.
Proof.
  intros Hcr Hlf. unfold discovered, discover. rewrite Hcr, Hlf.
  now destruct (record_delimiter st).
Qed.

Lemma mark_line_end_plain c st :
  Ascii.eqb c CR = false -> Ascii.eqb c LF = false -> mark_line_end c st = st.
Proof. intros Hcr Hlf. unfold mark_line_end. now rewrite Hcr, Hlf. Qed.

Lemma at_record_delimiter_plain c r st :
  Ascii.eqb c CR = false -> Ascii.eqb c LF = false ->
  at_record_delimiter st (String c r) = false.
Proof.
  intros Hcr Hlf. unfold at_record_delimiter.
  destruct (record_delimiter st) as [[| |] |]; rewrite ?Hcr, ?Hlf; try reflexivity.
  destruct r; reflexivity.
Qed.

Section ScanFacts.

Variable from_line : nat.
Variable columns : list string.
Variable cast : string -> string -> value.

Lemma scan_plain_char c r st :
  Ascii.eqb c CR = false -> Ascii.eqb c LF = false -> Ascii.eqb c QUOTE = false ->
  quoting st = false ->
  scan from_line columns cast (String c r) st
  = scan from_line columns cast r (plain_char c st).
Proof.
  intros Hcr Hlf Hq Hst.
  cbn [scan]. rewrite quoting_count_line, Hst.
  rewrite (discovered_plain _ _ _ Hcr Hlf), (mark_line_end_plain _ _ Hcr Hlf).
  rewrite Hq, quoting_count_line, Hst, (at_record_delimiter_plain _ _ _ Hcr Hlf).
  unfold plain_char. now destruct (Ascii.eqb c ",").
Qed.


Lemma scan_line_feed r st :
  quoting st = false ->
  record_delimiter st = None \/ record_delimiter st = Some rd_lf ->
  scan from_line columns cast (String LF r) st
  = match end_of_record from_line columns cast (at_line_feed st) with
    | inl e => inl e
    | inr (os, st') => emit os (scan from_line columns cast r st')
    end.
Proof.
  intros Hq Hrd. destruct st as [q wq f rec n wrd en rd]. simpl in Hq, Hrd. subst q.
  destruct wrd; destruct Hrd as [-> | ->]; reflexivity.
Qed.

Ltac plain_char_cases c st :=
  unfold plain_char, count_line, lines_now;
  destruct st as [? ? ? ? ? [|] ? ?]; simpl in *;
  destruct (Ascii.eqb c ","); simpl; auto.

Lemma plain_char_quoting c st : quoting (plain_char c st) = quoting st.
Proof. plain_char_cases c st. Qed.

Lemma feed_quoting p : forall st, quoting (feed p st) = quoting st.
Proof.
  induction p as [| c p IH]; intros st; simpl; [reflexivity |].
  now rewrite IH, plain_char_quoting.
Qed.

Lemma feed_record_delimiter p : forall st,
  record_delimiter (feed p st) = record_delimiter st.
Proof.
  induction p as [| c p IH]; intros st; simpl; [reflexivity |].
  rewrite IH. plain_char_cases c st.
Qed.

Lemma feed_enabled p : forall st, enabled (feed p st) = enabled st.
Proof.
  induction p as [| c p IH]; intros st; simpl; [reflexivity |].
  rewrite IH. plain_char_cases c st.
Qed.

Lemma feed_wasQuoting p : forall st,
  wasQuoting st = false -> wasQuoting (feed p st) = false.
Proof.
  induction p as [| c p IH]; intros st H; simpl; [exact H |].
  apply IH. plain_char_cases c st.
Qed.

Lemma feed_lines_now p : forall st, lines_now (feed p st) = lines_now st.
Proof.
  induction p as [| c p IH]; intros st; simpl; [reflexivity |].
  rewrite IH. plain_char_cases c st.
Qed.

Lemma feed_counted p : forall st,
  wasRowDelimiter st = false -> wasRowDelimiter (feed p st) = false.
Proof.
  induction p as [| c p IH]; intros st H; simpl; [exact H |].
  apply IH. plain_char_cases c st.
Qed.

Lemma feed_lines c p st : lines (feed (String c p) st) = lines_now st.
Proof.
  rewrite <- (feed_lines_now (String c p) st). unfold lines_now at 1.
  simpl. rewrite feed_counted; [reflexivity |]. plain_char_cases c st.
Qed.

Lemma feed_app p q : forall st, feed (p ++ q) st = feed q (feed p st).
Proof. induction p as [| c p IH]; intros st; simpl; [reflexivity | apply IH]. Qed.

(** The fields read so far, the last one still open. *)
Lemma feed_fields p : forall st,
  enabled st = true ->
  (record (feed p st) ++ [field (feed p st)])%list
  = (record st ++ glue (field st) (split "," p))%list.
Proof.
  induction p as [| c p IH]; intros st Hen.
  - simpl. now rewrite append_empty.
  - cbn [feed]. rewrite IH.
    2:{ plain_char_cases c st. }
    cbn [split]. unfold plain_char.
    assert (Hc : forall st', enabled st' = enabled st -> record st' = record st ->
                 field st' = field st ->
                 (record (if Ascii.eqb c "," then on_field st' else append_char c st')
                  ++ glue (field (if Ascii.eqb c "," then on_field st'
                                  else append_char c st')) (split "," p))%list
                 = (record st ++ glue (field st)
                      (if Ascii.eqb c "," then EmptyString :: split "," p
                       else match split "," p with
                            | x :: xs => String c x :: xs
                            | [] => [String c EmptyString]
                            end))%list).
    { intros st' He Hr Hf. destruct (Ascii.eqb c ","); simpl.
      - rewrite He, Hen, Hr, Hf, append_empty.
        pose proof (split_not_nil "," p) as Hne.
        destruct (split "," p) as [| x xs]; [contradiction |].
        simpl. now rewrite <- app_assoc.
      - rewrite Hr, Hf. pose proof (split_not_nil "," p) as Hne.
        destruct (split "," p) as [| x xs]; [contradiction |].
        simpl. now rewrite append_assoc. }
    apply Hc; unfold count_line; destruct st as [? ? ? ? ? [|] ? ?]; reflexivity.
Qed.

Lemma feed_disabled p : forall st,
  enabled st = false -> record (feed p st) = record st.
Proof.
  induction p as [| c p IH]; intros st Hen; simpl; [reflexivity |].
  rewrite IH.
  - plain_char_cases c st; now subst.
  - plain_char_cases c st.
Qed.

Lemma split_single_empty p : split "," p = [EmptyString] -> p = EmptyString.
Proof.
  destruct p as [| c p]; [reflexivity |]. simpl.
  destruct (Ascii.eqb c ","); [| destruct (split "," p); discriminate].
  pose proof (split_not_nil "," p). destruct (split "," p); [contradiction | discriminate].
Qed.

(** The record the scanner closes at the line feed that ends line [p]. *)
Lemma end_of_line p st0 :
  fresh st0 ->
  end_of_record from_line columns cast (at_line_feed (feed p st0))
  = if enabled st0 then
      match build columns cast (lines_now st0) (split "," p) with
      | inl e => inl e
      | inr o => inr ([o], line_start (lines_now st0) true)
      end
    else inr ([], line_start (lines_now st0) (Nat.leb from_line (lines_now st0 + 1))).
Proof.
  intros (Hq & Hwq & Hf & Hr & Hrd).
  unfold end_of_record, at_line_feed.
  cbn [enabled lines wasRowDelimiter]. rewrite feed_enabled, feed_lines_now.
  destruct (enabled st0) eqn:Hen; cbn [negb andb].
  - unfold on_record, on_field, reset_record.
    cbn [enabled lines record field quoting wasQuoting wasRowDelimiter record_delimiter].
    rewrite (feed_fields p st0 Hen), Hr, Hf.
    cbn [app glue].
    pose proof (split_not_nil "," p) as Hne.
    destruct (split "," p) as [| x xs] eqn:Hs; [contradiction |]. cbn [glue append].
    destruct (build columns cast (lines_now st0) (x :: xs)); reflexivity.
  - destruct (Nat.leb from_line (lines_now st0 + 1)); [reflexivity |].
    unfold on_record, on_field. reflexivity.
Qed.

(** The record the scanner closes at the end of the text. *)
Lemma end_of_text p st0 :
  fresh st0 ->
  at_end columns cast (feed p st0)
  = plain_scan from_line columns cast (lines_now st0) (enabled st0) [p].
Proof.
  intros (Hq & Hwq & Hf & Hr & Hrd).
  unfold at_end. rewrite feed_quoting, Hq, (feed_wasQuoting p st0 Hwq). cbn [orb].
  destruct p as [| c p].
  - simpl. rewrite Hr, Hf. reflexivity.
  - cbn [plain_scan is_empty]. unfold on_record, on_field. cbn [enabled lines record].
    rewrite feed_enabled, feed_lines.
    destruct (enabled st0) eqn:Hen.
    + pose proof (feed_fields (String c p) st0 Hen) as Hfs.
      rewrite Hr, Hf in Hfs. cbn [app] in Hfs.
      assert (Hg : glue EmptyString (split "," (String c p)) = split "," (String c p)).
      { pose proof (split_not_nil "," (String c p)) as Hne.
        destruct (split "," (String c p)); [contradiction | reflexivity]. }
      rewrite Hg in Hfs.
      destruct (negb (is_nil (record (feed (String c p) st0)))
                || negb (is_empty (field (feed (String c p) st0))))%bool eqn:Hc.
      * rewrite Hfs.
        destruct (build columns cast (lines_now st0) (split "," (String c p)));
          reflexivity.
      * apply orb_false_elim in Hc. destruct Hc as [Hn He].
        apply negb_false_iff in Hn, He.
        destruct (record (feed (String c p) st0)); [| discriminate].
        destruct (field (feed (String c p) st0)); [| discriminate].
        symmetry in Hfs. apply split_single_empty in Hfs. discriminate.
    + destruct (negb (is_nil (record (feed (String c p) st0)))
                || negb (is_empty (field (feed (String c p) st0))))%bool; reflexivity.
Qed.

Lemma split_lines_plain_char c s :
  Ascii.eqb c CR = false -> Ascii.eqb c LF = false ->
  split_lines (String c s) = glue (String c EmptyString) (split_lines s).
Proof.
  intros Hcr Hlf. cbn [split_lines]. rewrite Hlf, Hcr. cbn [andb].
  destruct s as [| c' s']; [reflexivity |].
  destruct (split_lines (String c' s')); reflexivity.
Qed.

Lemma glue_glue p q ls : glue p (glue q ls) = glue (p ++ q) ls.
Proof. destruct ls; simpl; now rewrite ?append_assoc. Qed.

Lemma emit_nil r : emit [] r = r.
Proof. now destruct r. Qed.

Lemma fresh_line_start n on : fresh (line_start n on).
Proof. unfold fresh. simpl. repeat split; auto. Qed.

(** The scanner over a text without quotes and carriage returns. *)
Lemma scan_plain_text s : forall p st0,
  no_CR s = true -> no_quote s = true -> fresh st0 ->
  scan from_line columns cast s (feed p st0)
  = plain_scan from_line columns cast (lines_now st0) (enabled st0)
      (glue p (split_lines s)).
Proof.
  induction s as [| c s IH]; intros p st0 Hcr Hq Hfresh.
  - cbn [scan split_lines glue]. rewrite append_empty. now apply end_of_text.
  - simpl in Hcr, Hq. apply andb_prop in Hcr, Hq.
    destruct Hcr as [Hc Hcr], Hq as [Hc' Hq]. apply negb_true_iff in Hc, Hc'.
    destruct (Ascii.eqb c LF) eqn:Hlf.
    + apply Ascii.eqb_eq in Hlf. subst c.
      destruct Hfresh as (H1 & H2 & H3 & H4 & H5).
      rewrite scan_line_feed.
      2:{ now rewrite feed_quoting. }
      2:{ now rewrite feed_record_delimiter. }
      rewrite end_of_line by (unfold fresh; auto).
      cbn [split_lines]. rewrite Ascii.eqb_refl. cbn [glue]. rewrite append_empty.
      pose proof (split_lines_not_nil s) as Hne.
      specialize (IH EmptyString).
      destruct (split_lines s) as [| x xs] eqn:Hs; [contradiction |].
      cbn [plain_scan]. cbn [feed glue append] in IH.
      destruct (enabled st0).
      * destruct (build columns cast (lines_now st0) (split "," p)); [reflexivity |].
        now rewrite (IH (line_start (lines_now st0) true) Hcr Hq (fresh_line_start _ _)).
      * rewrite (IH (line_start (lines_now st0) _) Hcr Hq (fresh_line_start _ _)).
        apply emit_nil.
    + rewrite scan_plain_char; auto.
      2:{ destruct Hfresh as (H1 & _). now rewrite feed_quoting. }
      change (plain_char c (feed p st0)) with (feed (String c EmptyString) (feed p st0)).
      rewrite <- feed_app, IH by assumption.
      now rewrite (split_lines_plain_char c s Hc Hlf), glue_glue.
Qed.

Lemma chop_app pre x :
  chop (pre ++ [x]) = if is_empty x then pre else (pre ++ [x])%list.
Proof.
  induction pre as [| y pre IH]; [reflexivity |].
  change ((y :: pre) ++ [x])%list with (y :: (pre ++ [x]))%list.
  cbn [chop]. destruct (pre ++ [x])%list as [| z zs] eqn:E.
  { destruct pre; discriminate. }
  rewrite IH. destruct (is_empty x); reflexivity.
Qed.

Lemma plain_lines_chop s : plain_lines s = chop (split_lines s).
Proof.
  unfold plain_lines. pose proof (split_lines_not_nil s) as Hne.
  destruct (split_lines s) as [| l ls] using rev_ind; [contradiction |].
  rewrite rev_app_distr, chop_app. simpl.
  destruct l; simpl; [apply rev_involutive | reflexivity].
Qed.

Lemma plain_scan_records ls : forall cur,
  plain_scan from_line columns cast cur (Nat.leb from_line cur) ls
  = plain_records columns cast (Nat.max from_line cur)
      (skipn (from_line - cur) (chop ls)).
Proof.
  induction ls as [| l rest IH]; intros cur.
  - simpl. now rewrite skipn_nil.
  - cbn [plain_scan chop]. destruct rest as [| l' rest'].
    + destruct l as [| c l]; cbn [is_empty].
      * now rewrite skipn_nil.
      * destruct (Nat.leb from_line cur) eqn:Hle.
        -- apply Nat.leb_le in Hle.
           replace (from_line - cur)%nat with 0%nat by lia.
           replace (Nat.max from_line cur) with cur by lia.
           cbn [skipn plain_records]. unfold plain_record.
           destruct (build columns cast cur (split "," (String c l))); reflexivity.
        -- apply Nat.leb_gt in Hle.
           destruct (from_line - cur)%nat as [| k] eqn:Hk; [lia |].
           cbn [skipn]. now rewrite skipn_nil.
    + destruct (Nat.leb from_line cur) eqn:Hle.
      * apply Nat.leb_le in Hle.
        replace (from_line - cur)%nat with 0%nat by lia.
        replace (Nat.max from_line cur) with cur by lia.
        cbn [skipn plain_records]. unfold plain_record.
        destruct (build columns cast cur (split "," l)); [reflexivity |].
        assert (Hle' : Nat.leb from_line (S cur) = true) by (apply Nat.leb_le; lia).
        specialize (IH (S cur)). rewrite Hle' in IH. rewrite IH.
        replace (from_line - S cur)%nat with 0%nat by lia.
        replace (Nat.max from_line (S cur)) with (S cur) by lia.
        cbn [skipn]. destruct (plain_records _ _ _ _); reflexivity.
      * apply Nat.leb_gt in Hle.
        destruct (from_line - cur)%nat as [| k] eqn:Hk; [lia |].
        cbn [skipn]. replace (cur + 1)%nat with (S cur) by lia.
        rewrite IH. replace (from_line - S cur)%nat with k by lia.
        now replace (Nat.max from_line (S cur)) with (Nat.max from_line cur) by lia.
Qed.

End ScanFacts.

(** On a text without quotes and carriage returns the tokenizer splits the
    text into lines and the lines into fields. *)
Lemma parse_plain fromLine columns cast input :
  (1 <= fromLine)%nat -> no_CR input = true -> no_quote input = true ->
  parse fromLine columns cast input = plain_parse fromLine columns cast input.
Proof.
  intros Hfrom Hcr Hq. unfold parse, plain_parse.
  assert (Hfresh : fresh (start fromLine)) by (unfold fresh; simpl; repeat split; auto).
  pose proof (scan_plain_text fromLine columns cast input EmptyString
                (start fromLine) Hcr Hq Hfresh) as H.
  cbn [feed] in H. rewrite H. clear H.
  pose proof (split_lines_not_nil input) as Hne.
  rewrite plain_lines_chop.
  destruct (split_lines input) as [| x xs]; [contradiction |].
  cbn [glue append lines_now start wasRowDelimiter lines enabled].
  replace (Nat.eqb fromLine 1) with (Nat.leb fromLine 1).
  2:{ destruct (Nat.leb_spec fromLine 1), (Nat.eqb_spec fromLine 1); auto; lia. }
  rewrite plain_scan_records. now replace (Nat.max fromLine 1) with fromLine by lia.
Qed.


Section ScanImage.

Variable from_line : nat.
Variable columns : list string.
Variable cast : string -> string -> value.
Variable P : object -> Prop.
Hypothesis build_P : forall line fields o,
  build columns cast line fields = inr o -> P o.

Lemma on_record_all st os st' :
  on_record columns cast st = inr (os, st') -> Forall P os.
Proof.
  unfold on_record. destruct (enabled st).
  - destruct (build columns cast (lines st) (record st)) as [e | o] eqn:Hb;
      [discriminate |].
    intros H. injection H as <- _. constructor; [| constructor]. eapply build_P, Hb.
  - intros H. injection H as <- _. constructor.
Qed.

Lemma end_of_record_all st os st' :
  end_of_record from_line columns cast st = inr (os, st') -> Forall P os.
Proof.
  unfold end_of_record. destruct (_ && _)%bool.
  - intros H. injection H as <- _. constructor.
  - apply on_record_all.
Qed.

Lemma at_end_all st os : at_end columns cast st = inr os -> Forall P os.
Proof.
  unfold at_end. destruct (quoting st); [discriminate |].
  destruct (_ || _)%bool.
  - destruct (on_record columns cast (on_field st)) as [e | [os' st']] eqn:Hr;
      [discriminate |].
    intros H. injection H as <-. eapply on_record_all, Hr.
  - intros H. injection H as <-. constructor.
Qed.

Lemma emit_all os r os' :
  emit os r = inr os' -> Forall P os ->
  (forall os'', r = inr os'' -> Forall P os'') -> Forall P os'.
Proof.
  destruct r as [e | os'']; simpl; [discriminate |].
  intros H Hos Hr. injection H as <-. apply Forall_app. split; auto.
Qed.

(** Every record the scanner delivers was built from fields. *)
Lemma scan_all n : forall s st os,
  (String.length s <= n)%nat ->
  scan from_line columns cast s st = inr os -> Forall P os.
Proof.
  induction n as [| n IH]; intros s st os Hlen H.
  - destruct s; [| simpl in Hlen; lia]. eapply at_end_all, H.
  - destruct s as [| chr rest]; [eapply at_end_all, H |].
    simpl in Hlen. cbn [scan] in H.
    repeat match type of H with
           | context [if ?b then _ else _] => destruct b
           | context [match end_of_record ?a ?b ?c ?d with _ => _ end] =>
               let E := fresh "E" in
               destruct (end_of_record a b c d) as [? | [? ?]] eqn:E
           | context [match record_delimiter ?a with _ => _ end] =>
               destruct (record_delimiter a) as [[| |] |]
           | context [match rest with _ => _ end] =>
               destruct rest as [| ? ?]; simpl in Hlen
           | context [match ?r with EmptyString => _ | String _ _ => _ end] =>
               destruct r as [| ? ?]; simpl in Hlen
           end;
      try discriminate;
      try (eapply IH; [| exact H]; simpl; lia);
      try (eapply emit_all; [exact H | eapply end_of_record_all; eassumption |];
           intros os'' H''; eapply IH; [| exact H'']; simpl; lia).
Qed.

End ScanImage.

Lemma build_image columns cast line fields o :
  build columns cast line fields = inr o -> cast_image cast o.
Proof.
  unfold build.
  destruct (Nat.eqb _ _); [| discriminate].
  intros H; injection H as <-. intros k v Hin.
  apply in_map_iff in Hin. destruct Hin as [[c f] [Heq _]].
  simpl in Heq. injection Heq as <- <-. now exists f.
Qed.

Lemma parse_image fromLine columns cast input os :
  parse fromLine columns cast input = inr os -> Forall (cast_image cast) os.
Proof.
  unfold parse. eapply scan_all; [| apply Nat.le_refl].
  intros line fields o. apply build_image.
Qed.


(** Reading a property gives [undefined] or one of the record's values. *)
Lemma get_in (o : object) (k : string) :
  get o k = VUndefined \/ exists k', In (k', get o k) o.
Proof.
  induction o as [| [k' v] r IH]; simpl; [now left |].
  destruct IH as [Hu | [k'' Hin]].
  - rewrite Hu. destruct (String.eqb k' k); [| now left].
    right. exists k'. now left.
  - destruct (get r k) eqn:Hg.
    + destruct (String.eqb k' k); [| now left]. right. exists k'. now left.
    + right. exists k''. now right.
    + right. exists k''. now right.
    + right. exists k''. now right.
Qed.

Lemma get_number_image cast o k x :
  cast_image cast o -> get_number o k = Some x ->
  exists k' field, cast k' field = VNumber x.
Proof.
  intros Himg. unfold get_number.
  destruct (get_in o k) as [Hu | [k' Hin]].
  - rewrite Hu. discriminate.
  - destruct (get o k) eqn:Hg; try discriminate.
    intros H; injection H as <-.
    destruct (Himg _ _ Hin) as [field Hf]. exists k', field. now symmetry.
Qed.

(** A column that is not there reads as [undefined]. *)
Lemma get_absent (o : object) (k : string) :
  ~ In k (map fst o) -> get o k = VUndefined.
Proof.
  induction o as [| [k' v] r IH]; simpl; [reflexivity |].
  intros H. rewrite IH by tauto.
  destruct (String.eqb k' k) eqn:He; [| reflexivity].
  apply String.eqb_eq in He. tauto.
Qed.

Lemma keys_combine (cast : string -> string -> value) :
  forall (columns fields : list string),
  incl (map fst (map (fun cf : string * string => (fst cf, cast (fst cf) (snd cf)))
                     (combine columns fields)))
       columns.
Proof.
  induction columns as [| c cs IH]; intros fields k; simpl; [tauto |].
  destruct fields as [| f fs]; simpl; [tauto |].
  intros [-> | H]; [now left | right; eapply IH; eassumption].
Qed.

(** With distinct column names, the property named by the [j]-th column is
    the cast of the [j]-th field. *)
Lemma get_combine (cast : string -> string -> value) :
  (forall c f, cast c f <> VUndefined) ->
  forall columns fields j k f,
  NoDup columns ->
  nth_error columns j = Some k ->
  nth_error fields j = Some f ->
  get (map (fun cf => (fst cf, cast (fst cf) (snd cf))) (combine columns fields)) k
  = cast k f.
Proof.
  intros Hcast.
  induction columns as [| c cs IH]; intros fields j k f Hnd Hk Hf.
  - destruct j; discriminate.
  - destruct fields as [| f0 fs]; [destruct j; discriminate |].
    inversion Hnd as [| ? ? Hnotin Hnd']; subst. simpl.
    destruct j as [| j]; simpl in Hk, Hf.
    + injection Hk as ->. injection Hf as ->.
      rewrite get_absent.
      * now rewrite String.eqb_refl.
      * intros Hin. apply Hnotin. eapply keys_combine; eassumption.
    + rewrite (IH fs j k f Hnd' Hk Hf).
      specialize (Hcast k f). destruct (cast k f); [contradiction | | |]; reflexivity.
Qed.

End CsvFacts.

(* ================================================================== *)
(** * Facts about the TrueWealth converter                             *)
(* ================================================================== *)

Module TrueWealthFacts.
Import JS Csv Ghostfolio Props TrueWealth.

Section Run.

Variable getSecurity : SecurityService.
Variable account : option string.
Variable now : string.
Variable fmt : string -> option string.

Local Abbreviation activity_of := (TrueWealth.activity_of account).
Local Abbreviation process_record := (TrueWealth.process_record getSecurity account fmt).
Local Abbreviation loop := (TrueWealth.loop getSecurity account fmt).
Local Abbreviation on_parsed := (TrueWealth.on_parsed getSecurity account now fmt).

Lemma isNumberObject_prim (x : option number) : isNumberObject (prim x) = false.
Proof. destruct x; reflexivity. Qed.

Lemma fee_activity_of record security date :
  fee (activity_of record security date) = zero.
Proof.
  unfold TrueWealth.activity_of. rewrite isNumberObject_prim.
  destruct (strict_eq (r_type record) "dividend"); reflexivity.
Qed.

Lemma quantity_activity_of record security date :
  unsigned (quantity (activity_of record security date)).
Proof.
  assert (H : quantity (activity_of record security date) = of_decimal false 1 0
              \/ quantity (activity_of record security date)
                 = Math_abs (to_number (r_shares record))).
  { unfold TrueWealth.activity_of.
    destruct (strict_eq (r_type record) "dividend"); [now left | now right]. }
  destruct H as [-> | ->];
    [apply NumberFacts.unsigned_one | apply NumberFacts.unsigned_abs].
Qed.

Lemma unitPrice_activity_of record security date :
  unitPrice (activity_of record security date)
  = Math_abs (to_number (r_price record)).
Proof.
  unfold TrueWealth.activity_of.
  destruct (strict_eq (r_type record) "dividend"); reflexivity.
Qed.

Lemma sign_normalized_activity_of record security date :
  sign_normalized (activity_of record security date).
Proof.
  unfold sign_normalized.
  split; [| split]; apply NumberFacts.unsigned_never_negative.
  - apply quantity_activity_of.
  - rewrite unitPrice_activity_of. apply NumberFacts.unsigned_abs.
  - rewrite fee_activity_of. exact I.
Qed.

(** Whatever holds of every assembled activity holds of every activity a
    run has appended. *)
Section Invariant.

Variable P : GhostfolioActivity -> Prop.
Hypothesis P_activity : forall record security date,
  P (activity_of record security date).

Lemma truewealth_process_record_inv idx record st :
  Forall P (acts st) -> Forall P (acts (final (process_record idx record st))).
Proof.
  intros H. unfold TrueWealth.process_record.
  destruct (isIgnoredRecord record) as [[|] |]; simpl; auto.
  destruct (getSecurity (calls st) (query_of record)); simpl; auto.
  destruct (fmt (template (r_date record))); simpl; auto.
  apply Forall_app. split; auto.
Qed.

Lemma truewealth_loop_inv records : forall idx st,
  Forall P (acts st) -> Forall P (acts (final (loop records idx st))).
Proof.
  induction records as [| record rest IH]; intros idx st H; simpl; auto.
  pose proof (truewealth_process_record_inv idx record st H) as Hs.
  destruct (process_record idx record st); simpl in *; auto.
Qed.

Lemma delivered_inv parsed : Forall P (delivered (on_parsed parsed)).
Proof.
  unfold delivered, TrueWealth.on_parsed.
  destruct parsed as [e | objects]; [constructor |].
  destruct objects as [| o os]; [constructor |].
  generalize (truewealth_loop_inv (map record_of (o :: os)) 0%nat started
                (Forall_nil P)).
  generalize (map record_of (o :: os)). intros rs H.
  destruct (loop rs 0%nat started); simpl in *; auto.
Qed.

End Invariant.

End Run.

End TrueWealthFacts.

(* ================================================================== *)
(** * Facts about the Bitpanda converter                               *)
(* ================================================================== *)

Module BitpandaFacts.
Import JS Csv Ghostfolio Props Bitpanda.

Lemma troy_ounce_literal :
  GRAMS_PER_TROY_OUNCE = S754_finite false 8754850407900429 (-48).
Proof. vm_compute. reflexivity. Qed.

Lemma troy_ounce_parsed : parseFloat "31.1034768" = GRAMS_PER_TROY_OUNCE.
Proof. vm_compute. reflexivity. Qed.

Lemma cast_unsigned column field x :
  cast column field = VNumber x -> unsigned x.
Proof.
  unfold cast. destruct (existsb _ _); [| discriminate].
  destruct (_ || _)%bool; intros H; injection H as <-.
  - exact I.
  - apply NumberFacts.unsigned_abs.
Qed.

Lemma num_unsigned o k : cast_image cast o -> unsigned (num o k).
Proof.
  intros Himg. unfold num.
  destruct (get_number o k) as [x |] eqn:Hx; [| exact I].
  destruct (CsvFacts.get_number_image _ _ _ _ Himg Hx) as [k' [field Hc]].
  eapply cast_unsigned; eassumption.
Qed.

Lemma record_of_unsigned o : cast_image cast o -> unsigned_record (record_of o).
Proof. intros H. repeat split; simpl; now apply num_unsigned. Qed.

Lemma lookup_absent table key :
  existsb (fun e => String.eqb (fst e) key) table = false -> lookup table key = None.
Proof.
  induction table as [| [k v] r IH]; simpl; [reflexivity |].
  intros H. apply orb_false_elim in H. destruct H as [-> H]. auto.
Qed.

(** Off the names of [Object.prototype] the mapping is the rename table. *)
Lemma mapBitpandaSymbolToYahoo_renamed asset :
  inherited asset = false ->
  mapBitpandaSymbolToYahoo asset = MString (renamed asset).
Proof.
  intros H. unfold inherited in H. apply orb_false_elim in H. destruct H as [Hp H].
  unfold mapBitpandaSymbolToYahoo, renamed. cbn [mapping lookup].
  rewrite (String.eqb_sym "POL" asset).
  destruct (String.eqb asset "POL"); [reflexivity |].
  now rewrite Hp, (lookup_absent _ _ H).
Qed.

Lemma columns_distinct input : NoDup (processHeaders input).
Proof.
  unfold processHeaders.
  repeat (constructor;
          [ simpl; intros H;
            repeat (destruct H as [H | H]; [discriminate H |]); exact H | ]).
  constructor.
Qed.

Lemma cast_defined column field : cast column field <> VUndefined.
Proof.
  unfold cast. destruct (existsb _ _); [| discriminate].
  destruct (_ || _)%bool; discriminate.
Qed.

Lemma cast_numeric column field :
  existsb (String.eqb column) floatFields = true ->
  cast column field = VNumber (bitpanda_number field).
Proof.
  intros H. unfold cast, bitpanda_number. rewrite H.
  destruct (_ || _)%bool; reflexivity.
Qed.

Lemma str_field input fields j k f :
  nth_error (processHeaders input) j = Some k ->
  nth_error fields j = Some f ->
  existsb (String.eqb k) floatFields = false ->
  str (map (fun cf => (fst cf, cast (fst cf) (snd cf)))
           (combine (processHeaders input) fields)) k = f.
Proof.
  intros Hk Hf Hs. unfold str, get_string.
  rewrite (CsvFacts.get_combine cast cast_defined (processHeaders input) fields j k f
             (columns_distinct input) Hk Hf).
  unfold cast. now rewrite Hs.
Qed.

Lemma num_field input fields j k f :
  nth_error (processHeaders input) j = Some k ->
  nth_error fields j = Some f ->
  existsb (String.eqb k) floatFields = true ->
  num (map (fun cf => (fst cf, cast (fst cf) (snd cf)))
           (combine (processHeaders input) fields)) k = bitpanda_number f.
Proof.
  intros Hk Hf Hn. unfold num, get_number.
  rewrite (CsvFacts.get_combine cast cast_defined (processHeaders input) fields j k f
             (columns_distinct input) Hk Hf).
  now rewrite (cast_numeric k f Hn).
Qed.

Ltac read_field j :=
  match goal with
  | |- context [combine (processHeaders ?input) ?fields] =>
      first [ rewrite (str_field input fields j _ _ eq_refl eq_refl eq_refl)
            | rewrite (num_field input fields j _ _ eq_refl eq_refl eq_refl) ]
  end.

(** The record of a line of eighteen fields: each property is its field,
    the numeric ones through the cast. *)
Lemma record_of_fields input f0 f1 f2 f3 f4 f5 f6 f7 f8 f9 f10 f11 f12 f13 f14 f15 f16 f17 :
  record_of
    (map (fun cf => (fst cf, cast (fst cf) (snd cf)))
         (combine (processHeaders input)
                  [f0; f1; f2; f3; f4; f5; f6; f7; f8; f9; f10; f11; f12; f13;
                   f14; f15; f16; f17]))
  = {| transactionId := f0; timestamp := f1; transactionType := f2; inOut := f3;
       amountFiat := bitpanda_number f4; fiat := f5;
       amountAsset := bitpanda_number f6; asset := f7;
       assetMarketPrice := bitpanda_number f8; assetMarketPriceCurrency := f9;
       assetClass := f10; productId := f11; r_fee := bitpanda_number f12;
       feeAsset := f13; feePercent := bitpanda_number f14;
       spread := bitpanda_number f15; spreadCurrency := f16;
       taxFiat := bitpanda_number f17 |}.
Proof.
  unfold record_of.
  read_field 0%nat. read_field 1%nat. read_field 2%nat. read_field 3%nat.
  read_field 4%nat. read_field 5%nat. read_field 6%nat. read_field 7%nat.
  read_field 8%nat. read_field 9%nat. read_field 10%nat. read_field 11%nat.
  read_field 12%nat. read_field 13%nat. read_field 14%nat. read_field 15%nat.
  read_field 16%nat. read_field 17%nat.
  reflexivity.
Qed.

Lemma unsigned_position_quantity r :
  unsigned_record r -> unsigned (position_quantity r).
Proof.
  intros [_ [H _]]. unfold position_quantity, gramsToTroyOunces.
  destruct (has_class r "metal"); [| exact H].
  rewrite troy_ounce_literal. now apply NumberFacts.unsigned_div.
Qed.

Lemma unsigned_position_price r :
  unsigned_record r -> unsigned (position_price r).
Proof.
  intros [_ [_ [H _]]]. unfold position_price.
  destruct (has_class r "metal"); [| exact H].
  rewrite troy_ounce_literal. now apply NumberFacts.unsigned_mul.
Qed.

Section Run.

Variable getSecurity : SecurityService.
Variable account reward_asset : option string.
Variable now : string.
Variable fmt : string -> string.

Local Abbreviation convert := (Bitpanda.convert getSecurity).
Local Abbreviation activities_of := (Bitpanda.activities_of account reward_asset fmt).
Local Abbreviation process_record :=
  (Bitpanda.process_record getSecurity account reward_asset fmt).
Local Abbreviation loop := (Bitpanda.loop getSecurity account reward_asset fmt).
Local Abbreviation on_parsed :=
  (Bitpanda.on_parsed getSecurity account reward_asset now fmt).

Lemma lower_class_eq record : lower_class record = toLowerCase (assetClass record).
Proof. unfold lower_class. destruct (assetClass record); reflexivity. Qed.

(** The conversion step, by what it yields. *)
Lemma convert_eq record st :
  convert record st =
  (converted_symbol getSecurity record st, position_quantity record,
   position_price record, converted_state getSecurity record st).
Proof.
  unfold converted_symbol, converted_state, position_quantity, position_price,
    has_class, Bitpanda.convert.
  rewrite lower_class_eq.
  destruct (String.eqb (toLowerCase (assetClass record)) "cryptocurrency") eqn:Hc.
  { apply String.eqb_eq in Hc. rewrite Hc. reflexivity. }
  destruct (String.eqb (toLowerCase (assetClass record)) "stock (derivative)") eqn:Hs.
  { apply String.eqb_eq in Hs. rewrite Hs. reflexivity. }
  destruct (String.eqb (toLowerCase (assetClass record)) "metal") eqn:Hm;
    [| reflexivity].
  destruct (getSecurity (calls st) (metal_query record)) as [[[[| c s] |] cur] | | msg];
    reflexivity.
Qed.

Lemma acts_converted_state record st :
  acts (converted_state getSecurity record st) = acts st.
Proof.
  unfold converted_state, Bitpanda.convert.
  repeat match goal with
         | |- context [if ?b then _ else _] => destruct b; try reflexivity
         end.
  destruct (getSecurity (calls st) (metal_query record)) as [[[[| c s] |] cur] | | msg];
    reflexivity.
Qed.

(** A row that is neither ignored nor unclassified appends its activities
    to the state its conversion leaves. *)
Lemma process_record_classified record st type :
  isIgnoredRecord record = false ->
  determine_type record = Some type ->
  process_record record st =
  push_all (activities_of record type (converted_symbol getSecurity record st)
                          (position_quantity record) (position_price record))
           (converted_state getSecurity record st).
Proof.
  intros Hi Ht. unfold Bitpanda.process_record.
  rewrite Hi, Ht, convert_eq. reflexivity.
Qed.

Lemma acts_push_all l st : acts (push_all l st) = (acts st ++ l)%list.
Proof.
  revert st. induction l as [| a l IH]; intros st; simpl.
  - now rewrite app_nil_r.
  - unfold push_all in *. simpl. rewrite IH. simpl.
    now rewrite <- app_assoc.
Qed.

Lemma calls_push_all l st : calls (push_all l st) = calls st.
Proof.
  revert st. induction l as [| a l IH]; intros st; simpl; [reflexivity |].
  unfold push_all in *. simpl. now rewrite IH.
Qed.

(** The rows that append nothing. *)
Lemma process_record_ignored record st :
  isIgnoredRecord record = true -> process_record record st = st.
Proof. intros H. unfold Bitpanda.process_record. now rewrite H. Qed.

Lemma process_record_unclassified record st :
  determine_type record = None -> process_record record st = st.
Proof.
  intros H. unfold Bitpanda.process_record. rewrite H.
  now destruct (isIgnoredRecord record).
Qed.

(** The keys the type determination yields. *)
Lemma determine_type_keys record type :
  determine_type record = Some type ->
  type = "interest" \/ type = "buy" \/ type = "sell".
Proof.
  unfold determine_type.
  repeat match goal with
         | |- context [if ?b then _ else _] => destruct b
         end; intros H; inversion H; auto.
Qed.

Lemma sign_normalized_activities_of record type symbol :
  unsigned_record record ->
  Forall sign_normalized
    (activities_of record type symbol (position_quantity record)
                   (position_price record)).
Proof.
  intros Hr. pose proof Hr as [Hfiat [Hasset [Hprice Hfee]]].
  pose proof (unsigned_position_quantity record Hr) as Hq.
  pose proof (unsigned_position_price record Hr) as Hp.
  unfold Bitpanda.activities_of.
  destruct (String.eqb type "interest");
    repeat constructor; simpl;
    try (apply NumberFacts.unsigned_never_negative; assumption);
    try (apply NumberFacts.unsigned_never_negative; exact I);
    apply NumberFacts.unsigned_never_negative, NumberFacts.unsigned_one.
Qed.

Section Invariant.

Variable P : GhostfolioActivity -> Prop.
Variable R : BitpandaRecord -> Prop.
Hypothesis P_activities : forall record type symbol,
  R record ->
  Forall P (activities_of record type symbol (position_quantity record)
                          (position_price record)).

Lemma bitpanda_process_record_inv record st :
  R record -> Forall P (acts st) -> Forall P (acts (process_record record st)).
Proof.
  intros Hr H.
  destruct (isIgnoredRecord record) eqn:Hi.
  { now rewrite process_record_ignored. }
  destruct (determine_type record) as [type |] eqn:Ht.
  2: { now rewrite process_record_unclassified. }
  rewrite (process_record_classified record st type Hi Ht).
  rewrite acts_push_all, acts_converted_state.
  apply Forall_app. split; auto.
Qed.

Lemma bitpanda_loop_inv records : forall st,
  Forall R records -> Forall P (acts st) -> Forall P (acts (loop records st)).
Proof.
  induction records as [| record rest IH]; intros st HR H; simpl; auto.
  inversion HR; subst. apply IH; auto. now apply bitpanda_process_record_inv.
Qed.

End Invariant.

Lemma delivered_sign_normalized parsed :
  match parsed with
  | inr objects => Forall (cast_image cast) objects
  | inl _ => True
  end ->
  Forall sign_normalized (delivered (on_parsed parsed)).
Proof.
  unfold delivered, Bitpanda.on_parsed.
  destruct parsed as [e | objects]; [constructor |].
  destruct objects as [| o os]; [constructor |]. intros Himg.
  change (Forall sign_normalized (acts (loop (map record_of (o :: os)) started))).
  apply (bitpanda_loop_inv sign_normalized unsigned_record).
  - intros record type symbol Hr. now apply sign_normalized_activities_of.
  - apply Forall_forall. intros r Hin. apply in_map_iff in Hin.
    destruct Hin as [o' [<- Hin]]. apply record_of_unsigned.
    rewrite Forall_forall in Himg. exact (Himg _ Hin).
  - constructor.
Qed.

(** Past the tokenizer a run always ends in the success callback. *)
Lemma on_parsed_succeeds o os : succeeded (on_parsed (inr (o :: os))) = true.
Proof. reflexivity. Qed.

End Run.

End BitpandaFacts.

(* ================================================================== *)
(** * Lines, padding and what the tokenizer is given                   *)
(* ================================================================== *)

Import JS Csv Ghostfolio Props Samples.

(** ** Lines, joined and split again *)

Lemma join_cons_char sep c x xs :
  join sep (String c x :: xs) = String c (join sep (x :: xs)).
Proof. unfold join. destruct xs; reflexivity. Qed.

Lemma join_cons sep x y ys :
  join sep (x :: y :: ys) = (x ++ sep ++ join sep (y :: ys))%string.
Proof. reflexivity. Qed.

(** Without carriage returns, joining the lines gives the text back. *)
Lemma join_split_lines s : no_CR s = true -> join (String LF "") (split_lines s) = s.
Proof.
  induction s as [| c r IH]; simpl; [reflexivity |].
  intros H. apply andb_prop in H. destruct H as [Hc Hr].
  apply negb_true_iff in Hc. specialize (IH Hr).
  destruct (Ascii.eqb c LF) eqn:El.
  - apply Ascii.eqb_eq in El. subst c.
    pose proof (CsvFacts.split_lines_not_nil r) as Hne. revert IH.
    destruct (split_lines r) as [| x xs]; [contradiction |]. intros IH.
    rewrite join_cons. cbn [append]. now rewrite IH.
  - destruct r as [| c' r']; [reflexivity |].
    rewrite Hc. cbn [andb].
    pose proof (CsvFacts.split_lines_not_nil (String c' r')) as Hne. revert IH.
    destruct (split_lines (String c' r')) as [| x xs]; [contradiction |]. intros IH.
    rewrite join_cons_char. now rewrite IH.
Qed.

Lemma plain_head c l :
  plain (String c l) = true ->
  Ascii.eqb c CR = false /\ Ascii.eqb c LF = false /\ plain l = true.
Proof.
  simpl. intros H. apply andb_prop in H. destruct H as [Hc Hl].
  apply negb_true_iff, orb_false_elim in Hc. tauto.
Qed.

Lemma split_lines_single l : plain l = true -> split_lines l = [l].
Proof.
  induction l as [| c l IH]; [reflexivity |].
  intros H. apply plain_head in H. destruct H as [Hcr [Hlf Hl]].
  simpl. rewrite Hlf. destruct l as [| c' l']; [reflexivity |].
  rewrite Hcr. cbn [andb]. now rewrite (IH Hl).
Qed.

Lemma split_lines_first l r :
  plain l = true -> split_lines (l ++ String LF r) = l :: split_lines r.
Proof.
  induction l as [| c l IH]; intros H.
  - reflexivity.
  - apply plain_head in H. destruct H as [Hcr [Hlf Hl]].
    change (String c l ++ String LF r)%string with (String c (l ++ String LF r)).
    cbn [split_lines]. rewrite Hlf.
    destruct (l ++ String LF r)%string as [| c' r'] eqn:E.
    { destruct l; discriminate. }
    rewrite Hcr. cbn [andb]. rewrite (IH Hl). reflexivity.
Qed.

(** Plain lines, joined and split, are the same lines. *)
Lemma split_lines_join ls :
  ls <> [] -> Forall (fun l => plain l = true) ls ->
  split_lines (join (String LF "") ls) = ls.
Proof.
  induction ls as [| l ls IH]; [contradiction |].
  intros _ Hall. inversion Hall as [| ? ? Hl Hls]; subst.
  destruct ls as [| l2 ls'].
  - now apply split_lines_single.
  - rewrite join_cons.
    change (String LF "" ++ join (String LF "") (l2 :: ls'))%string
      with (String LF (join (String LF "") (l2 :: ls'))).
    rewrite (split_lines_first l _ Hl). f_equal. apply IH; [discriminate | assumption].
Qed.

Lemma plain_append a b : plain (a ++ b) = (plain a && plain b)%bool.
Proof.
  induction a as [| c a IH]; simpl; [reflexivity |].
  rewrite IH. now rewrite andb_assoc.
Qed.

Lemma plain_padding k : plain (join "" (repeat ",-" k)) = true.
Proof.
  induction k as [| k IH]; [reflexivity |].
  rewrite CsvFacts.join_repeat_S, plain_append, IH. reflexivity.
Qed.

Lemma plain_pad_line n l : plain l = true -> plain (Bitpanda.pad_line n l) = true.
Proof.
  intros H. unfold Bitpanda.pad_line.
  destruct (trim l); [assumption |].
  destruct (Nat.ltb _ _); [| assumption].
  now rewrite plain_append, H, plain_padding.
Qed.

Lemma Forall_first_n {A} (P : A -> Prop) n : forall l : list A,
  Forall P l -> Forall P (firstn n l).
Proof.
  induction n as [| n IH]; intros l H; [constructor |].
  destruct l as [| x l]; [constructor |].
  inversion H; subst. simpl. constructor; auto.
Qed.

Lemma Forall_skip_n {A} (P : A -> Prop) n : forall l : list A,
  Forall P l -> Forall P (skipn n l).
Proof.
  induction n as [| n IH]; intros l H; [exact H |].
  destruct l as [| x l]; [constructor |].
  inversion H; subst. simpl. auto.
Qed.

Lemma plain_pad_lines n ls :
  Forall (fun l => plain l = true) ls ->
  Forall (fun l => plain l = true) (Bitpanda.pad_lines n ls).
Proof.
  intros H. unfold Bitpanda.pad_lines. apply Forall_app. split.
  - now apply Forall_first_n.
  - apply Forall_map. eapply Forall_impl; [| apply Forall_skip_n; exact H].
    intros l Hl. now apply plain_pad_line.
Qed.

Lemma pad_lines_not_nil n ls : ls <> [] -> Bitpanda.pad_lines n ls <> [].
Proof. destruct ls; [contradiction | discriminate]. Qed.

(** What the tokenizer is given, line by line. *)
Lemma split_lines_preprocess input :
  clean input = true ->
  split_lines (Bitpanda.preprocess input) = Bitpanda.pad_lines 18 (split_lines input).
Proof.
  intros H. unfold Bitpanda.preprocess.
  change (List.length (Bitpanda.processHeaders input)) with 18%nat.
  apply split_lines_join.
  - apply pad_lines_not_nil, CsvFacts.split_lines_not_nil.
  - apply plain_pad_lines. unfold clean in H. rewrite forallb_forall in H.
    now apply Forall_forall.
Qed.

(** The final empty line is the only one the tokenizer does not see. *)
Lemma plain_lines_keeps s pre h tail :
  split_lines s = (pre ++ h :: tail)%list -> h <> "" ->
  exists tail', plain_lines s = (pre ++ h :: tail')%list.
Proof.
  intros Hs Hh. unfold plain_lines. rewrite Hs.
  destruct tail as [| t tail] using rev_ind.
  - rewrite rev_app_distr. simpl.
    destruct h as [| c h]; [contradiction |]. now exists [].
  - clear IHtail.
    replace (pre ++ h :: tail ++ [t])%list with ((pre ++ h :: tail) ++ [t])%list
      by (rewrite <- app_assoc; reflexivity).
    rewrite rev_app_distr. simpl.
    destruct t as [| c t].
    + rewrite rev_involutive. now exists tail.
    + exists (tail ++ [String c t])%list. now rewrite <- app_assoc.
Qed.

Lemma length_plain_lines s :
  (List.length (split_lines s) <= S (List.length (plain_lines s)))%nat.
Proof.
  unfold plain_lines. destruct (rev (split_lines s)) as [| [| c x] r] eqn:E; try lia.
  rewrite <- (rev_involutive (split_lines s)), E. simpl.
  rewrite length_app, !length_rev. simpl. lia.
Qed.



Lemma pad_lines_at_header pre h tl :
  List.length pre = Bitpanda.headerLineIdx ->
  Bitpanda.pad_lines 18 (pre ++ h :: tl)%list
  = (pre ++ h :: map (Bitpanda.pad_line 18) tl)%list.
Proof.
  intros Hlen. unfold Bitpanda.pad_lines.
  replace (Bitpanda.headerLineIdx + 1)%nat with (List.length (pre ++ [h])%list)
    by (rewrite length_app, Hlen; reflexivity).
  replace (pre ++ h :: tl)%list with ((pre ++ [h]) ++ tl)%list
    by (rewrite <- app_assoc; reflexivity).
  rewrite firstn_app, Nat.sub_diag, firstn_all, skipn_app, Nat.sub_diag, skipn_all.
  simpl. rewrite app_nil_r, <- app_assoc. reflexivity.
Qed.

(** ** Texts without quotes *)

Lemma plain_no_CR l : plain l = true -> no_CR l = true.
Proof.
  induction l as [| c l IH]; [reflexivity |].
  intros H. apply plain_head in H. destruct H as [Hcr [_ Hl]].
  simpl. now rewrite Hcr, (IH Hl).
Qed.

Lemma no_CR_append a b : no_CR (a ++ b) = (no_CR a && no_CR b)%bool.
Proof.
  induction a as [| c a IH]; simpl; [reflexivity |].
  rewrite IH. now rewrite andb_assoc.
Qed.

Lemma no_CR_join_lines ls :
  Forall (fun l => plain l = true) ls -> no_CR (join (String LF "") ls) = true.
Proof.
  induction ls as [| l ls IH]; [reflexivity |].
  intros H. inversion H as [| ? ? Hl Hls]; subst.
  destruct ls as [| l2 ls'].
  - now apply plain_no_CR.
  - rewrite join_cons, !no_CR_append, (plain_no_CR l Hl), (IH Hls). reflexivity.
Qed.

Lemma no_quote_append a b : no_quote (a ++ b) = (no_quote a && no_quote b)%bool.
Proof.
  induction a as [| c a IH]; simpl; [reflexivity |].
  rewrite IH. now rewrite andb_assoc.
Qed.

Lemma no_quote_split_lines_upto n : forall s,
  (String.length s <= n)%nat -> no_quote s = true ->
  Forall (fun l => no_quote l = true) (split_lines s).
Proof.
  induction n as [| n IH]; intros s Hlen Hq.
  - destruct s; [| simpl in Hlen; lia]. repeat constructor.
  - destruct s as [| c r]; [repeat constructor |].
    simpl in Hlen, Hq. apply andb_prop in Hq. destruct Hq as [Hc Hr].
    cbn [split_lines]. destruct (Ascii.eqb c LF).
    { constructor; [reflexivity | apply IH; [lia | assumption]]. }
    destruct r as [| c' r']; [repeat constructor; simpl; now rewrite Hc |].
    destruct (Ascii.eqb c CR && Ascii.eqb c' LF)%bool.
    { simpl in Hlen, Hr. apply andb_prop in Hr.
      constructor; [reflexivity | apply IH; [lia | tauto]]. }
    pose proof (IH (String c' r') ltac:(simpl in *; lia) Hr) as H.
    destruct (split_lines (String c' r')) as [| x xs].
    + repeat constructor. simpl. now rewrite Hc.
    + inversion H; subst. constructor; [| assumption]. simpl. now rewrite Hc.
Qed.

Lemma no_quote_split_lines s :
  no_quote s = true -> Forall (fun l => no_quote l = true) (split_lines s).
Proof. apply (no_quote_split_lines_upto (String.length s)), Nat.le_refl. Qed.

Lemma no_quote_join_lines ls :
  Forall (fun l => no_quote l = true) ls -> no_quote (join (String LF "") ls) = true.
Proof.
  induction ls as [| l ls IH]; [reflexivity |].
  intros H. inversion H as [| ? ? Hl Hls]; subst.
  destruct ls as [| l2 ls'].
  - exact Hl.
  - rewrite join_cons, !no_quote_append, Hl, (IH Hls). reflexivity.
Qed.

Lemma no_quote_padding k : no_quote (join "" (repeat ",-" k)) = true.
Proof.
  induction k as [| k IH]; [reflexivity |].
  rewrite CsvFacts.join_repeat_S, no_quote_append, IH. reflexivity.
Qed.

Lemma no_quote_pad_line n l :
  no_quote l = true -> no_quote (Bitpanda.pad_line n l) = true.
Proof.
  intros H. unfold Bitpanda.pad_line.
  destruct (trim l); [assumption |].
  destruct (Nat.ltb _ _); [| assumption].
  now rewrite no_quote_append, H, no_quote_padding.
Qed.

Lemma no_quote_pad_lines n ls :
  Forall (fun l => no_quote l = true) ls ->
  Forall (fun l => no_quote l = true) (Bitpanda.pad_lines n ls).
Proof.
  intros H. unfold Bitpanda.pad_lines. apply Forall_app. split.
  - now apply Forall_first_n.
  - apply Forall_map. eapply Forall_impl; [| apply Forall_skip_n; exact H].
    intros l Hl. now apply no_quote_pad_line.
Qed.

(** The text the Bitpanda tokenizer is given is as plain as the export. *)
Lemma preprocess_plain input :
  no_quote input = true -> clean input = true ->
  no_CR (Bitpanda.preprocess input) = true
  /\ no_quote (Bitpanda.preprocess input) = true.
Proof.
  intros Hq Hc. unfold Bitpanda.preprocess. split.
  - apply no_CR_join_lines, plain_pad_lines.
    unfold clean in Hc. rewrite forallb_forall in Hc. now apply Forall_forall.
  - apply no_quote_join_lines, no_quote_pad_lines, no_quote_split_lines, Hq.
Qed.

(** On plain exports the tokenizers split lines and fields. *)
Lemma bitpanda_tokenized_plain input :
  no_quote input = true -> clean input = true ->
  Bitpanda.tokenized input
  = plain_records (Bitpanda.processHeaders input) Bitpanda.cast 8
      (skipn 7 (plain_lines (Bitpanda.preprocess input))).
Proof.
  intros Hq Hc. destruct (preprocess_plain input Hq Hc) as [Hcr' Hq'].
  unfold Bitpanda.tokenized, Bitpanda.fromLine.
  rewrite CsvFacts.parse_plain by (auto; lia). reflexivity.
Qed.

Lemma truewealth_tokenized_plain input :
  no_quote input = true -> no_CR input = true ->
  TrueWealth.tokenized input
  = plain_records (TrueWealth.processHeaders input) TrueWealth.cast 2
      (skipn 1 (plain_lines input)).
Proof.
  intros Hq Hc. unfold TrueWealth.tokenized.
  rewrite CsvFacts.parse_plain by (auto; lia). reflexivity.
Qed.

(** The records of a plain text, line by line. *)
Lemma plain_records_nth columns cast ls : forall line os k l,
  plain_records columns cast line ls = inr os ->
  nth_error ls k = Some l ->
  exists o, nth_error os k = Some o
            /\ plain_record columns cast (line + k) l = inr o.
Proof.
  induction ls as [| text rest IH]; intros line os k l H Hk.
  - destruct k; discriminate.
  - simpl in H.
    destruct (plain_record columns cast line text) as [e | o] eqn:Ho; [discriminate |].
    destruct (plain_records columns cast (S line) rest) as [e | os'] eqn:Hos;
      [discriminate |].
    injection H as <-. destruct k as [| k]; simpl in Hk.
    + injection Hk as <-. exists o. rewrite Nat.add_0_r. now split.
    + destruct (IH (S line) os' k l Hos Hk) as [o' [Hn Hr]].
      exists o'. split; [exact Hn |]. now rewrite Nat.add_succ_r.
Qed.

(** ** The tokenizer on quoted fields and on mixed line ends *)

(** A quoted field keeps its comma and loses its quotes. *)
Example tokenizer_reads_a_quoted_field :
  exists o,
    TrueWealth.tokenized (tw_header ++ NL ++ tw_quoted ++ NL) = inr [o]
    /\ List.length (split "," tw_quoted) = 13%nat
    /\ get o "securityName" = VString "Foo, Inc".
Proof. vm_compute. eexists. repeat split. Qed.

(** A quote that is not closed, and a quote inside an unquoted field, are
    errors of the tokenizer. *)
Example tokenizer_rejects_unbalanced_quotes :
  TrueWealth.tokenized (tw_header ++ NL ++ tw_unclosed ++ NL)
  = inl (QuoteNotClosed 2)
  /\ TrueWealth.tokenized (tw_header ++ NL ++ "2024-01-02,Bu" ++ Q ++ "y" ++ NL)
     = inl (InvalidOpeningQuote 2)
  /\ TrueWealth.tokenized (Q ++ tw_header ++ NL ++ tw_buy ++ NL)
     = inl (QuoteNotClosed 2).
Proof. vm_compute. repeat split. Qed.

(** The record delimiter is the first line end met: after a header that
    ends in a carriage return and a line feed, rows that end in a line
    feed alone are one record. *)
Example tokenizer_fixes_the_record_delimiter :
  TrueWealth.tokenized (tw_header ++ CRLF ++ tw_buy ++ NL ++ tw_fee ++ NL)
  = inl (InvalidRecordLength 3 12 23)
  /\ TrueWealth.tokenized (tw_header ++ CRLF ++ tw_buy ++ CRLF ++ tw_fee ++ CRLF)
     = TrueWealth.tokenized tw_export
  /\ parse 2 (TrueWealth.processHeaders tw_header) TrueWealth.cast
       (tw_header ++ String CR "" ++ tw_buy ++ String CR "" ++ tw_fee)
     = TrueWealth.tokenized tw_export.
Proof. vm_compute. repeat split. Qed.

(** The padding of Bitpanda counts commas, the tokenizer counts fields: a
    short row with a comma inside quotes is padded one column short. *)
Example bitpanda_padding_miscounts_quoted_commas :
  List.length (split "," (Bitpanda.pad_line 18 bp_quoted)) = 18%nat
  /\ Bitpanda.tokenized (bp_meta ++ bp_header ++ NL ++ bp_quoted ++ NL)
     = inl (InvalidRecordLength 9 18 17).
Proof. vm_compute. repeat split. Qed.

(* ================================================================== *)
(** * The claims                                                       *)
(* ================================================================== *)

(** ** The scenarios of the specification *)

(** Provider A: a purchase of 5 shares at 10, resolved to "ABC" in CHF. *)
Example scenario_truewealth_buy :
  exists a,
    delivered (TrueWealth.processFileContents finding None "" zurich
                 (tw_header ++ NL ++ tw_buy ++ NL)) = [a]
    /\ type a = Some buy
    /\ quantity a = parseFloat "5"
    /\ unitPrice a = parseFloat "10"
    /\ fee a = zero
    /\ currency a = Some "CHF"
    /\ symbol a = Some "ABC".
Proof. vm_compute. eexists. repeat split. Qed.

(** Provider B: a reward of 0.001 BTC worth 5 EUR. *)
Example scenario_bitpanda_reward :
  exists a b,
    delivered (Bitpanda.processFileContents missing None (Some "REWARD") "" same
                 (bp_meta ++ bp_header ++ NL ++ bp_reward ++ NL)) = [a; b]
    /\ type a = Some interest /\ unitPrice a = parseFloat "5"
    /\ currency a = Some "EUR" /\ symbol a = Some "REWARD"
    /\ type b = Some buy /\ quantity b = parseFloat "0.001"
    /\ unitPrice b = parseFloat "50000" /\ symbol b = Some "BTCUSD".
Proof. vm_compute. do 2 eexists. repeat split. Qed.

(** ** C1: errors of the security service *)

Lemma truewealth_loop_app getSecurity account fmt before : forall after idx st,
  TrueWealth.loop getSecurity account fmt (before ++ after)%list idx st =
  match TrueWealth.loop getSecurity account fmt before idx st with
  | TrueWealth.Next st' =>
      TrueWealth.loop getSecurity account fmt after (idx + List.length before) st'
  | stop => stop
  end.
Proof.
  induction before as [| record rest IH]; intros after idx st; simpl.
  - now rewrite Nat.add_0_r.
  - destruct (TrueWealth.process_record getSecurity account fmt idx record st);
      try reflexivity.
    rewrite IH. now rewrite Nat.add_succ_r.
Qed.

(** C1, as stated, fails: on a Bitpanda export with one metal row and a
    security service whose every call raises, the lookup of the metal asset
    does raise, and yet the run ends in the success callback with an
    envelope that holds the row's activity. *)
Lemma C1_metal_lookup_error_is_not_fatal :
  let run := Bitpanda.processFileContents raising None None "" same bp_gold_only in
  calls (snd run) = [Bitpanda.metal_query (bp_record bp_gold)]
  /\ raising [] (Bitpanda.metal_query (bp_record bp_gold)) = Raises "lookup failed"
  /\ logs (snd run) = [ReadBitpandaCsvFile; MetalLookupError "Gold" "lookup failed"]
  /\ succeeded run = true
  /\ List.length (delivered run) = 1%nat.
Proof. vm_compute. repeat split. Qed.

(** C1, amended: when the security service raises on a TrueWealth row, the
    run ends in the error callback with the raised error and delivers no
    envelope, after a query-error line that names the identifier tried
    (the ISIN or else the security name) and the row's line number (index
    plus two) was logged. The Bitpanda converter guards its only lookup,
    that of metal assets: a raised error is logged, the raw asset identifier
    becomes the symbol, and a run that got past the tokenizer always ends in
    the success callback. *)
Theorem C1_resolver_error_by_provider :
  forall getSecurity account reward_asset now zurich_15h fmt,
  (forall before o after st message,
      TrueWealth.loop getSecurity account zurich_15h
        (map TrueWealth.record_of before) 0 TrueWealth.started
      = TrueWealth.Next st ->
      TrueWealth.isIgnoredRecord (TrueWealth.record_of o) = Some false ->
      getSecurity (calls st) (TrueWealth.query_of (TrueWealth.record_of o))
      = Raises message ->
      let run := TrueWealth.on_parsed getSecurity account now zurich_15h
                   (inr (before ++ o :: after)%list) in
      fst run = Failure (Raised message)
      /\ succeeded run = false
      /\ snd run =
         logged (QueryError (or_ostring (TrueWealth.r_isin (TrueWealth.record_of o))
                                        (TrueWealth.r_securityName (TrueWealth.record_of o)))
                            (List.length before + 2))
                (called (TrueWealth.query_of (TrueWealth.record_of o)) st))
  /\ (forall record st message,
      has_class record "metal" = true ->
      getSecurity (calls st) (Bitpanda.metal_query record) = Raises message ->
      converted_symbol getSecurity record st = Bitpanda.asset record
      /\ converted_state getSecurity record st =
         logged (MetalLookupError (Bitpanda.asset record) message)
                (called (Bitpanda.metal_query record) st))
  /\ (forall o os,
      succeeded (Bitpanda.on_parsed getSecurity account reward_asset now fmt
                   (inr (o :: os))) = true).
Proof.
  intros getSecurity account reward_asset now zurich_15h fmt. split; [| split].
  - intros before o after st message Hloop Hign Hraise run.
    assert (Hrun : TrueWealth.loop getSecurity account zurich_15h
                     (map TrueWealth.record_of (before ++ o :: after)%list) 0
                     TrueWealth.started
                   = TrueWealth.Abort
                       (logged (QueryError
                                  (or_ostring (TrueWealth.r_isin (TrueWealth.record_of o))
                                     (TrueWealth.r_securityName (TrueWealth.record_of o)))
                                  (List.length before + 2))
                          (called (TrueWealth.query_of (TrueWealth.record_of o)) st))
                       (Raised message)).
    { rewrite map_app, truewealth_loop_app, Hloop. simpl.
      unfold TrueWealth.process_record. rewrite Hign, Hraise.
      now rewrite length_map. }
    subst run. unfold TrueWealth.on_parsed.
    destruct (before ++ o :: after)%list as [| x xs] eqn:Hl.
    { destruct before; discriminate. }
    rewrite Hrun. repeat split.
  - intros record st message Hm Hraise.
    unfold converted_symbol, converted_state, Bitpanda.convert.
    rewrite BitpandaFacts.lower_class_eq.
    unfold has_class in Hm. apply String.eqb_eq in Hm. rewrite Hm. simpl.
    rewrite Hraise. split; reflexivity.
  - intros o os. reflexivity.
Qed.

(** The amended C1 at work: the TrueWealth export read with a service that
    raises aborts at its first row, line 2; the metal row of the Bitpanda
    export falls back to its asset name. *)
Lemma C1_resolver_error_by_provider_witness :
  (let run := TrueWealth.on_parsed raising None "" zurich
                (inr ([] ++ tw_object tw_buy :: [tw_object tw_fee])%list) in
   fst run = Failure (Raised "lookup failed")
   /\ succeeded run = false
   /\ snd run =
      logged (QueryError (Some "CH1") 2)
             (called (TrueWealth.query_of (tw_record tw_buy)) TrueWealth.started))
  /\ converted_symbol raising (bp_record bp_gold) init = "Gold".
Proof.
  destruct (C1_resolver_error_by_provider raising None None "" zurich same)
    as [Htw [Hbp _]].
  split.
  - apply (Htw [] (tw_object tw_buy) [tw_object tw_fee] TrueWealth.started
             "lookup failed");
      reflexivity.
  - apply (Hbp (bp_record bp_gold) init "lookup failed"); reflexivity.
Defined.

(** ** C2: rows that match no classification rule *)

(** Every activity a Bitpanda run delivers has a type of the enumeration:
    the type determination yields one of its keys or drops the row. *)
Lemma bitpanda_types_defined getSecurity account reward_asset now fmt parsed :
  Forall (fun a => type a <> None)
    (delivered (Bitpanda.on_parsed getSecurity account reward_asset now fmt parsed)).
Proof.
  unfold delivered, Bitpanda.on_parsed.
  destruct parsed as [e | objects]; [constructor |].
  destruct objects as [| o os]; [constructor |].
  change (Forall (fun a => type a <> None)
            (acts (Bitpanda.loop getSecurity account reward_asset fmt
                     (map Bitpanda.record_of (o :: os)) Bitpanda.started))).
  generalize (map Bitpanda.record_of (o :: os)). intros records.
  assert (H : Forall (fun a => type a <> None) (acts Bitpanda.started))
    by constructor.
  revert H. generalize Bitpanda.started.
  induction records as [| r rest IH]; intros st H; simpl; auto.
  apply IH.
  destruct (Bitpanda.isIgnoredRecord r) eqn:Hi.
  { now rewrite BitpandaFacts.process_record_ignored. }
  destruct (Bitpanda.determine_type r) as [t |] eqn:Ht.
  2: { now rewrite BitpandaFacts.process_record_unclassified. }
  rewrite (BitpandaFacts.process_record_classified _ _ _ _ r st t Hi Ht).
  rewrite BitpandaFacts.acts_push_all, BitpandaFacts.acts_converted_state.
  apply Forall_app. split; auto.
  destruct (BitpandaFacts.determine_type_keys r t Ht) as [-> | [-> | ->]];
    repeat constructor; discriminate.
Qed.

(** A Bitpanda row whose transaction type matches no rule books nothing
    and calls nothing, whatever the state. *)
Example bitpanda_unmatched_type_is_dropped :
  Bitpanda.isIgnoredRecord (bp_record bp_deposit) = false
  /\ Bitpanda.determine_type (bp_record bp_deposit) = None
  /\ forall st,
       Bitpanda.process_record finding None None same (bp_record bp_deposit) st = st.
Proof.
  split; [reflexivity | split; [reflexivity |]].
  intros st. now apply BitpandaFacts.process_record_unclassified.
Qed.

(** C2 at the failing input: a TrueWealth export with a purchase and a
    fee on the same security, read with a service that finds the security.
    The "Fee" cell matches none of the four actions and passes the cast
    unchanged, the row is not ignored, and the run delivers an activity for
    it whose type is undefined, outside the enumeration. *)
Theorem C2_truewealth_unmatched_type_is_emitted :
  let run := TrueWealth.processFileContents finding (Some "account") "now" zurich
               tw_export in
  TrueWealth.cast "type" "Fee" = VString "Fee"
  /\ TrueWealth.isIgnoredRecord (tw_record tw_fee) = Some false
  /\ exists a b, delivered run = [a; b]
                 /\ type a = Some buy
                 /\ type b = None
                 /\ date b = "2024-01-03".
Proof.
  vm_compute. split; [reflexivity | split; [reflexivity |]].
  do 2 eexists. repeat split.
Qed.

(** ** C3: reward rows *)

(** C3, as stated, fails: a reward row whose asset class is "Metal" books
    its position in troy ounces, not with the quantity and the market price
    of the row. *)
Lemma C3_metal_reward_is_unit_converted :
  let r := bp_record bp_gold_reward in
  let run := Bitpanda.processFileContents missing None None "" same
               bp_gold_reward_only in
  Bitpanda.isIgnoredRecord r = false
  /\ Bitpanda.determine_type r = Some "interest"
  /\ exists a b, delivered run = [a; b]
                 /\ quantity b <> Bitpanda.amountAsset r
                 /\ unitPrice b <> Bitpanda.assetMarketPrice r.
Proof.
  vm_compute. split; [reflexivity | split; [reflexivity |]].
  do 2 eexists. split; [reflexivity |]. split; discriminate.
Qed.

(** C3, amended: a non-ignored Bitpanda row of transaction type "reward"
    appends exactly two activities, adjacent and in this order, with the
    same formatted date: a "MANUAL" booking of quantity 1 at the fiat
    amount, in the fiat currency, on the configured reward asset; then a
    buy of the rewarded asset with the row's asset quantity and market
    price, both converted to troy ounces when the asset class is metal, in
    the market-price currency or else the fiat currency. *)
Theorem C3_reward_row_books_two_activities :
  forall getSecurity account reward_asset fmt record st,
  Bitpanda.isIgnoredRecord record = false ->
  toLowerCase (Bitpanda.transactionType record) = "reward" ->
  acts (Bitpanda.process_record getSecurity account reward_asset fmt record st) =
  (acts st ++
   [ {| accountId := account;
        comment := "Staking reward " ++ Bitpanda.asset record;
        fee := Bitpanda.r_fee record;
        quantity := of_decimal false 1 0;
        type := Some interest;
        unitPrice := Bitpanda.amountFiat record;
        currency := Some (Bitpanda.fiat record);
        dataSource := "MANUAL";
        date := fmt (Bitpanda.timestamp record);
        symbol := reward_asset |};
     {| accountId := account;
        comment := "";
        fee := zero;
        quantity := position_quantity record;
        type := Some buy;
        unitPrice := position_price record;
        currency := Some (or_string (Bitpanda.assetMarketPriceCurrency record)
                                    (Bitpanda.fiat record));
        dataSource := "YAHOO";
        date := fmt (Bitpanda.timestamp record);
        symbol := Some (converted_symbol getSecurity record st) |} ])%list.
Proof.
  intros getSecurity account reward_asset fmt record st Hi Hr.
  assert (Ht : Bitpanda.determine_type record = Some "interest").
  { unfold Bitpanda.determine_type. now rewrite Hr. }
  rewrite (BitpandaFacts.process_record_classified _ _ _ _ record st _ Hi Ht).
  rewrite BitpandaFacts.acts_push_all, BitpandaFacts.acts_converted_state.
  reflexivity.
Qed.

(** The amended C3 on the reward row of the sample export. *)
Lemma C3_reward_row_books_two_activities_witness :
  Bitpanda.isIgnoredRecord (bp_record bp_reward) = false
  /\ toLowerCase (Bitpanda.transactionType (bp_record bp_reward)) = "reward"
  /\ List.length
       (acts (Bitpanda.process_record missing None (Some "REWARD") same
                (bp_record bp_reward) init)) = 2%nat.
Proof.
  split; [reflexivity | split; [reflexivity |]].
  rewrite (C3_reward_row_books_two_activities missing None (Some "REWARD") same
             (bp_record bp_reward) init); reflexivity.
Defined.

(** ** C4: the sign invariant *)

(** C4, as stated, fails: a TrueWealth purchase with an empty price cell
    is delivered with a unit price that is not a number, and NaN is not at
    least zero. *)
Lemma C4_empty_price_breaks_the_invariant :
  exists a,
    delivered (TrueWealth.processFileContents finding None "" zurich tw_no_price) = [a]
    /\ unitPrice a = NaN
    /\ sign_invariant a = false.
Proof. vm_compute. eexists. repeat split. Qed.

(** C4, amended: no activity in the envelope of either provider has a
    negative quantity, unit price or fee; each of the three is at least
    zero as soon as it is a number at all (it is NaN when the cell it comes
    from does not parse). *)
Theorem C4_no_negative_numbers :
  forall getSecurity account reward_asset now zurich_15h fmt input,
  Forall sign_normalized
    (delivered (TrueWealth.processFileContents getSecurity account now zurich_15h
                  input))
  /\ Forall sign_normalized
       (delivered (Bitpanda.processFileContents getSecurity account reward_asset
                     now fmt input)).
Proof.
  intros getSecurity account reward_asset now zurich_15h fmt input. split.
  - apply TrueWealthFacts.delivered_inv.
    apply TrueWealthFacts.sign_normalized_activity_of.
  - apply BitpandaFacts.delivered_sign_normalized.
    unfold Bitpanda.tokenized.
    destruct (parse Bitpanda.fromLine (Bitpanda.processHeaders input) Bitpanda.cast
                (Bitpanda.preprocess input)) as [e | objects] eqn:Hp; [exact I |].
    eapply CsvFacts.parse_image; eassumption.
Qed.

(** ** C5: empty and placeholder cells of numeric columns *)

(** C5, as stated, fails: the TrueWealth cast hands an empty or
    placeholder-only cell of a numeric column to [parseFloat], which gives
    NaN. *)
Lemma C5_truewealth_empty_cell_is_NaN :
  In "price" TrueWealth.numericColumns
  /\ TrueWealth.cast "price" "" = VNumber NaN
  /\ TrueWealth.cast "price" "-" = VNumber NaN
  /\ VNumber NaN <> VNumber zero.
Proof. vm_compute. repeat split; auto. discriminate. Qed.

(** The cast of the two placeholders in a numeric column of Bitpanda. *)
Lemma bitpanda_cast_placeholder column :
  In column Bitpanda.floatFields ->
  Bitpanda.cast column "" = VNumber zero /\ Bitpanda.cast column "-" = VNumber zero.
Proof.
  intros Hin.
  assert (Hf : existsb (String.eqb column) Bitpanda.floatFields = true).
  { apply existsb_exists. exists column. split; [assumption | apply String.eqb_refl]. }
  unfold Bitpanda.cast. rewrite Hf. split; reflexivity.
Qed.

(** C5, amended: for every numeric column of the Bitpanda schema the cast
    of an empty cell and of the placeholder "-" is the number 0, which is
    not NaN, and the cast of any cell is a number. The numeric columns of
    TrueWealth go through [parseFloat] as they are. *)
Theorem C5_bitpanda_placeholder_is_zero :
  forall column,
  In column Bitpanda.floatFields ->
  Bitpanda.cast column "" = VNumber zero
  /\ Bitpanda.cast column "-" = VNumber zero
  /\ isNaN zero = false
  /\ (forall field, exists x, Bitpanda.cast column field = VNumber x)
  /\ (forall tw_column field,
        In tw_column TrueWealth.numericColumns ->
        TrueWealth.cast tw_column field = VNumber (parseFloat field)).
Proof.
  intros column Hin.
  destruct (bitpanda_cast_placeholder column Hin) as [He Hd].
  split; [exact He | split; [exact Hd | split; [reflexivity | split]]].
  - assert (Hf : existsb (String.eqb column) Bitpanda.floatFields = true).
    { apply existsb_exists. exists column. split; [assumption | apply String.eqb_refl]. }
    intros field. unfold Bitpanda.cast. rewrite Hf.
    destruct (_ || _)%bool; eexists; reflexivity.
  - intros tw_column field Htw. simpl in Htw.
    repeat (destruct Htw as [<- | Htw]; [reflexivity |]). contradiction.
Qed.

(** The amended C5 on the fee column. *)
Lemma C5_bitpanda_placeholder_is_zero_witness :
  In "fee" Bitpanda.floatFields
  /\ Bitpanda.cast "fee" "-" = VNumber zero.
Proof.
  assert (Hin : In "fee" Bitpanda.floatFields) by (simpl; tauto).
  split; [exact Hin |].
  exact (proj1 (proj2 (C5_bitpanda_placeholder_is_zero "fee" Hin))).
Defined.

(** ** C6: short rows *)

Lemma nth_error_pad n (f : string -> string) : forall (l : list string) i,
  nth_error (firstn n l ++ map f (skipn n l)) i =
  option_map (fun x => if Nat.leb n i then f x else x) (nth_error l i).
Proof.
  induction n as [| n IH]; intros l i; simpl.
  - apply nth_error_map.
  - destruct l as [| x l]; simpl.
    + destruct i; reflexivity.
    + destruct i as [| i]; simpl; [reflexivity | apply IH].
Qed.




(** ** C7: metal assets *)

(** C7, as stated, fails: a deposit of gold is a non-ignored row of asset
    class "metal", and yet no lookup is attempted for it and nothing is
    booked, since the type determination does not classify it. *)
Lemma C7_unclassified_metal_row_is_not_looked_up :
  let r := bp_record bp_deposit in
  let run := Bitpanda.processFileContents finding None None "" same
               bp_deposit_only in
  Bitpanda.isIgnoredRecord r = false
  /\ has_class r "metal" = true
  /\ Bitpanda.determine_type r = None
  /\ (forall getSecurity account reward_asset fmt st,
        Bitpanda.process_record getSecurity account reward_asset fmt r st = st)
  /\ succeeded run = true
  /\ calls (snd run) = []
  /\ delivered run = [].
Proof.
  split; [reflexivity | split; [reflexivity | split; [reflexivity | split]]].
  - intros getSecurity account reward_asset fmt st.
    now apply BitpandaFacts.process_record_unclassified.
  - vm_compute. repeat split.
Qed.

(** C7, amended: a non-ignored Bitpanda row of asset class "metal" that
    the type determination classifies makes exactly one call to the
    security service, by the asset's name alone, and the activity it books
    for the position (the last one it appends, sourced "YAHOO"; a reward
    row books its fiat value before it) has the row's asset amount divided
    by 31.1034768 as quantity, the row's market price multiplied by
    31.1034768 as unit price, and as symbol what the call comes back with:
    the symbol of the security found, or the raw asset identifier when the
    lookup finds nothing, finds a security without a symbol, or raises an
    error. *)
Theorem C7_metal_rows_are_booked_in_troy_ounces :
  forall getSecurity account reward_asset fmt record st type,
  Bitpanda.isIgnoredRecord record = false ->
  has_class record "metal" = true ->
  Bitpanda.determine_type record = Some type ->
  let st' := Bitpanda.process_record getSecurity account reward_asset fmt record st in
  let lookup :=
    {| q_isin := None; q_symbol := None;
       q_name := Some (Bitpanda.asset record); q_currency := None |} in
  let resolved :=
    match getSecurity (calls st) lookup with
    | Found {| y_symbol := Some (String c s) |} => String c s
    | Found _ | NotFound | Raises _ => Bitpanda.asset record
    end in
  calls st' = (calls st ++ [lookup])%list
  /\ exists earlier a,
       acts st' = (acts st ++ earlier ++ [a])%list
       /\ Forall (fun e => dataSource e = "MANUAL") earlier
       /\ dataSource a = "YAHOO"
       /\ quantity a = div (Bitpanda.amountAsset record) (parseFloat "31.1034768")
       /\ unitPrice a
          = mul (Bitpanda.assetMarketPrice record) (parseFloat "31.1034768")
       /\ symbol a = Some resolved.
Proof.
  intros getSecurity account reward_asset fmt record st type Hi Hm Ht
    st' lookup resolved.
  subst st'.
  rewrite (BitpandaFacts.process_record_classified _ _ _ _ record st type Hi Ht).
  rewrite BitpandaFacts.calls_push_all, BitpandaFacts.acts_push_all,
    BitpandaFacts.acts_converted_state.
  assert (Hq : position_quantity record
               = div (Bitpanda.amountAsset record) (parseFloat "31.1034768")).
  { unfold position_quantity. rewrite Hm, BitpandaFacts.troy_ounce_parsed.
    reflexivity. }
  assert (Hp : position_price record
               = mul (Bitpanda.assetMarketPrice record) (parseFloat "31.1034768")).
  { unfold position_price. rewrite Hm, BitpandaFacts.troy_ounce_parsed.
    reflexivity. }
  assert (Hconv :
            calls (converted_state getSecurity record st) = (calls st ++ [lookup])%list
            /\ converted_symbol getSecurity record st = resolved).
  { unfold converted_state, converted_symbol, Bitpanda.convert, resolved.
    rewrite BitpandaFacts.lower_class_eq.
    unfold has_class in Hm. apply String.eqb_eq in Hm. rewrite Hm. simpl.
    change (Bitpanda.metal_query record) with lookup.
    destruct (getSecurity (calls st) lookup) as [[[[| c s] |] cur] | | msg];
      split; reflexivity. }
  destruct Hconv as [Hcalls Hsym].
  rewrite Hsym, Hq, Hp.
  split; [exact Hcalls |].
  unfold Bitpanda.activities_of.
  destruct (String.eqb type "interest").
  - evar (e : GhostfolioActivity). exists [e]. subst e. eexists.
    repeat split. repeat constructor.
  - exists []. eexists. repeat split. constructor.
Qed.

(** The amended C7 on the gold purchase of the sample export, read with a
    service that raises: the asset is looked up by its name, once. *)
Lemma C7_metal_rows_are_booked_in_troy_ounces_witness :
  Bitpanda.isIgnoredRecord (bp_record bp_gold) = false
  /\ has_class (bp_record bp_gold) "metal" = true
  /\ Bitpanda.determine_type (bp_record bp_gold) = Some "buy"
  /\ calls (Bitpanda.process_record raising None None same (bp_record bp_gold) init)
     = [ {| q_isin := None; q_symbol := None; q_name := Some "Gold";
            q_currency := None |} ].
Proof.
  split; [reflexivity | split; [reflexivity | split; [reflexivity |]]].
  exact (proj1 (C7_metal_rows_are_booked_in_troy_ounces raising None None same
                  (bp_record bp_gold) init "buy" eq_refl eq_refl eq_refl)).
Defined.

(** ** C8: where the tokenizer starts *)

(** C8 at the failing input. The schema is the fixed list whatever the
    file says, but the first line the tokenizer handles is line 8, and line
    8 (index 7) is the header line: on an export with seven lines of
    metadata and the header, the header is the first record the callback
    receives, and an export without any data row ends in the success
    callback with an empty envelope instead of a parse error. *)
Theorem C8_header_line_is_tokenized_as_a_record :
  (forall input other, Bitpanda.processHeaders input = Bitpanda.processHeaders other)
  /\ Bitpanda.fromLine = S Bitpanda.headerLineIdx
  /\ nth_error (split_lines bp_export) Bitpanda.headerLineIdx = Some bp_header
  /\ Bitpanda.tokenized bp_export
     = inr [bp_object bp_header; bp_object bp_reward;
            bp_object (bp_gold ++ ",-,-,-,-,-,-")]
  /\ get (bp_object bp_header) "transactionId" = VString "Transaction ID"
  /\ Bitpanda.tokenized bp_header_only = inr [bp_object bp_header]
  /\ fst (Bitpanda.processFileContents missing None None "now" same bp_header_only)
     = Success {| meta_date := "now"; meta_version := "v0"; activities := [] |}.
Proof. vm_compute. repeat split. Qed.

(** ** C9: the fee of TrueWealth activities *)

(** C9: [isNumberObject] is false of every primitive number (and of
    [undefined]), so the fee of every activity the TrueWealth converter
    assembles is 0 whatever the record's fees are, and so is the fee of
    every activity in the envelope of a run. *)
Theorem C9_truewealth_fee_is_always_zero :
  forall getSecurity account now fmt,
  (forall fees, TrueWealth.isNumberObject (TrueWealth.prim fees) = false)
  /\ (forall record security date,
        fee (TrueWealth.activity_of account record security date) = zero)
  /\ (forall input,
        Forall (fun a => fee a = zero)
          (delivered (TrueWealth.processFileContents getSecurity account now fmt input))).
Proof.
  intros getSecurity account now fmt. split; [| split].
  - apply TrueWealthFacts.isNumberObject_prim.
  - apply TrueWealthFacts.fee_activity_of.
  - intros input. apply TrueWealthFacts.delivered_inv.
    apply TrueWealthFacts.fee_activity_of.
Qed.

(** ** C10: the symbol of cryptocurrency rows *)

(** Off the names an object literal inherits, the symbol of a
    cryptocurrency row is as C10 says: a non-ignored, classified row of
    asset class "cryptocurrency" makes no call to the security service, and
    the activity it books for the position (the last one it appends) has as
    symbol the asset identifier, with "POL" renamed to "MATIC", followed by
    "USD". *)
Lemma bitpanda_cryptocurrency_symbol :
  forall getSecurity account reward_asset fmt record st type,
  Bitpanda.isIgnoredRecord record = false ->
  Bitpanda.determine_type record = Some type ->
  has_class record "cryptocurrency" = true ->
  inherited (Bitpanda.asset record) = false ->
  let st' := Bitpanda.process_record getSecurity account reward_asset fmt record st in
  calls st' = calls st
  /\ exists earlier a,
       acts st' = (acts st ++ earlier ++ [a])%list
       /\ Forall (fun e => dataSource e = "MANUAL") earlier
       /\ dataSource a = "YAHOO"
       /\ symbol a = Some (renamed (Bitpanda.asset record) ++ "USD").
Proof.
  intros getSecurity account reward_asset fmt record st type Hi Ht Hc Hown st'.
  subst st'.
  rewrite (BitpandaFacts.process_record_classified _ _ _ _ record st type Hi Ht).
  rewrite BitpandaFacts.calls_push_all, BitpandaFacts.acts_push_all,
    BitpandaFacts.acts_converted_state.
  assert (Hconv :
            converted_state getSecurity record st = st
            /\ converted_symbol getSecurity record st
               = (renamed (Bitpanda.asset record) ++ "USD")%string).
  { unfold converted_state, converted_symbol, Bitpanda.convert.
    rewrite BitpandaFacts.lower_class_eq.
    unfold has_class in Hc. rewrite Hc.
    rewrite (BitpandaFacts.mapBitpandaSymbolToYahoo_renamed _ Hown).
    split; reflexivity. }
  destruct Hconv as [Hst Hsym]. rewrite Hst, Hsym.
  split; [reflexivity |].
  unfold Bitpanda.activities_of.
  destruct (String.eqb type "interest").
  - evar (e : GhostfolioActivity). exists [e]. subst e. eexists.
    repeat split. repeat constructor.
  - exists []. eexists. repeat split. constructor.
Qed.

(** C10 at the failing input: a purchase of a cryptocurrency whose asset
    identifier is "constructor". The row is not ignored and is classified;
    the rename table has no entry for the identifier, so the symbol C10
    asks for is "constructorUSD". But the table is an object literal, and
    indexing it by "constructor" finds the function every object inherits,
    which is truthy and is returned in place of the identifier: the
    activity the run delivers has the text of that function, followed by
    "USD", as its symbol. *)
Theorem C10_inherited_name_is_not_renamed_to_itself :
  let r := bp_record bp_constructor in
  let run := Bitpanda.processFileContents missing None None "" same
               bp_constructor_only in
  Bitpanda.isIgnoredRecord r = false
  /\ Bitpanda.determine_type r = Some "buy"
  /\ has_class r "cryptocurrency" = true
  /\ Bitpanda.asset r = "constructor"
  /\ Bitpanda.lookup Bitpanda.mapping "constructor" = None
  /\ (renamed (Bitpanda.asset r) ++ "USD")%string = "constructorUSD"
  /\ Bitpanda.mapBitpandaSymbolToYahoo "constructor" = Bitpanda.MFunction "Object"
  /\ exists a,
       delivered run = [a]
       /\ symbol a = Some "function Object() { [native code] }USD".
Proof. vm_compute. repeat split. eexists. split; reflexivity. Qed.

(* ================================================================== *)
(** * Further properties of the converters                             *)
(* ================================================================== *)

(** ** The TrueWealth cast and the ignore filter *)

Lemma truewealth_cast_type v :
  TrueWealth.cast "type" v = VString (truewealth_action v).
Proof.
  unfold TrueWealth.cast, truewealth_action.
  change (existsb (String.eqb "type") TrueWealth.numericColumns) with false.
  change (String.eqb "type" "type") with true. cbv iota.
  repeat match goal with
         | |- context [if includes ?a ?b then _ else _] => destruct (includes a b)
         end; reflexivity.
Qed.

Lemma truewealth_action_cases v :
  truewealth_action v = "buy" \/ truewealth_action v = "sell"
  \/ truewealth_action v = "dividend" \/ truewealth_action v = "fx"
  \/ (truewealth_action v = v
      /\ includes (toLowerCase v) "buy" = false
      /\ includes (toLowerCase v) "sell" = false
      /\ includes (toLowerCase v) "dividend" = false
      /\ includes (toLowerCase v) "fx" = false).
Proof.
  unfold truewealth_action.
  destruct (includes (toLowerCase v) "buy"); [now left |].
  destruct (includes (toLowerCase v) "sell"); [now right; left |].
  destruct (includes (toLowerCase v) "dividend"); [now right; right; left |].
  destruct (includes (toLowerCase v) "fx"); [now right; right; right; left |].
  right; right; right; right. repeat split.
Qed.

(** X1: the cast of the "type" column is idempotent: what it returns, one
    of the four actions or the cell itself, it returns again when read a
    second time. *)
Theorem X1_truewealth_type_cast_is_idempotent :
  forall v t,
  TrueWealth.cast "type" v = VString t ->
  TrueWealth.cast "type" t = VString t
  /\ (t = "buy" \/ t = "sell" \/ t = "dividend" \/ t = "fx" \/ t = v).
Proof.
  intros v t H. rewrite truewealth_cast_type in H. injection H as <-.
  rewrite truewealth_cast_type.
  destruct (truewealth_action_cases v) as [E | [E | [E | [E | [E [Hb [Hs [Hd Hf]]]]]]]];
    rewrite E; split; auto 6; try reflexivity.
  unfold truewealth_action. now rewrite Hb, Hs, Hd, Hf.
Qed.

Lemma X1_truewealth_type_cast_is_idempotent_witness :
  TrueWealth.cast "type" "Kauf (Buy)" = VString "buy"
  /\ TrueWealth.cast "type" "buy" = VString "buy".
Proof.
  split; [reflexivity |].
  exact (proj1 (X1_truewealth_type_cast_is_idempotent "Kauf (Buy)" "buy" eq_refl)).
Defined.

(** X2: after the cast, a TrueWealth record is ignored exactly when its
    "type" cell mentions fx and none of buy, sell and dividend: a cell that
    mentions a purchase as well as fx is cast to "buy" and is not ignored. *)
Theorem X2_truewealth_ignored_iff_cast_to_fx :
  forall record v t,
  TrueWealth.cast "type" v = VString t ->
  TrueWealth.r_type record = Some t ->
  let action := toLowerCase v in
  TrueWealth.isIgnoredRecord record =
  Some (includes action "fx" && negb (includes action "buy")
        && negb (includes action "sell") && negb (includes action "dividend"))%bool
  /\ (TrueWealth.isIgnoredRecord record = Some true <-> t = "fx").
Proof.
  intros record v t H Ht action. rewrite truewealth_cast_type in H.
  injection H as <-. unfold TrueWealth.isIgnoredRecord. rewrite Ht.
  unfold TrueWealth.ignoredRecordTypes, existsb. rewrite orb_false_r.
  subst action. unfold truewealth_action.
  destruct (includes (toLowerCase v) "buy") eqn:Hb.
  { rewrite andb_false_r. simpl. split; [reflexivity |].
    split; intros H; discriminate H. }
  destruct (includes (toLowerCase v) "sell") eqn:Hs.
  { rewrite andb_false_r. simpl. split; [reflexivity |].
    split; intros H; discriminate H. }
  destruct (includes (toLowerCase v) "dividend") eqn:Hd.
  { rewrite andb_false_r. split; [reflexivity |].
    split; intros H; discriminate H. }
  destruct (includes (toLowerCase v) "fx") eqn:Hf.
  { split; [reflexivity |]. split; reflexivity. }
  rewrite Hf. split; [reflexivity |]. split; [intros H; discriminate H |].
  intros ->. discriminate Hf.
Qed.

Lemma X2_truewealth_ignored_iff_cast_to_fx_witness :
  TrueWealth.isIgnoredRecord (tw_record "2024-01-05,FX Buy,USD,1,1,1,0,0,,1,USD,")
  = Some false.
Proof.
  exact (proj1 (X2_truewealth_ignored_iff_cast_to_fx
                  (tw_record "2024-01-05,FX Buy,USD,1,1,1,0,0,,1,USD,")
                  "FX Buy" "buy" eq_refl eq_refl)).
Defined.

(** ** The TrueWealth loop *)

Section TrueWealthRun.

Variable getSecurity : SecurityService.
Variable account : option string.
Variable now : string.
Variable fmt : string -> option string.

Local Abbreviation tw_activity_of := (TrueWealth.activity_of account).
Local Abbreviation tw_process_record :=
  (TrueWealth.process_record getSecurity account fmt).
Local Abbreviation tw_loop := (TrueWealth.loop getSecurity account fmt).
Local Abbreviation tw_on_parsed := (TrueWealth.on_parsed getSecurity account now fmt).
Local Abbreviation tw_run := (TrueWealth.processFileContents getSecurity account now fmt).

(** What a row keeps, the loop keeps. *)
Lemma truewealth_loop_keeps (I : state -> Prop) :
  (forall idx record st, I st -> I (TrueWealth.final (tw_process_record idx record st))) ->
  forall records idx st, I st -> I (TrueWealth.final (tw_loop records idx st)).
Proof.
  intros Hstep. induction records as [| record rest IH]; intros idx st H; simpl; auto.
  specialize (Hstep idx record st H).
  destruct (tw_process_record idx record st); simpl in *; auto.
Qed.

(** The state a run ends in. *)
Lemma truewealth_on_parsed_state parsed :
  snd (tw_on_parsed parsed) =
  match parsed with
  | inr (o :: os) =>
      TrueWealth.final (tw_loop (map TrueWealth.record_of (o :: os)) 0
                          TrueWealth.started)
  | _ => init
  end.
Proof.
  unfold TrueWealth.on_parsed.
  destruct parsed as [e | [| o os]]; try reflexivity.
  destruct (tw_loop (map TrueWealth.record_of (o :: os)) 0 TrueWealth.started);
    reflexivity.
Qed.

Lemma truewealth_run_keeps (I : state -> Prop) :
  I init -> I TrueWealth.started ->
  (forall idx record st, I st -> I (TrueWealth.final (tw_process_record idx record st))) ->
  forall parsed, I (snd (tw_on_parsed parsed)).
Proof.
  intros H0 H1 Hstep parsed. rewrite truewealth_on_parsed_state.
  destruct parsed as [e | [| o os]]; auto.
  now apply truewealth_loop_keeps.
Qed.

(** Whatever holds of the activities of the rows that are resolved holds of
    every activity of a run. *)
Lemma truewealth_acts_of_resolved (P : GhostfolioActivity -> Prop) :
  (forall record security date,
      TrueWealth.isIgnoredRecord record = Some false ->
      P (tw_activity_of record security date)) ->
  forall parsed, Forall P (acts (snd (tw_on_parsed parsed))).
Proof.
  intros HP. apply (truewealth_run_keeps (fun st => Forall P (acts st))).
  - constructor.
  - constructor.
  - intros idx record st H. unfold TrueWealth.process_record.
    destruct (TrueWealth.isIgnoredRecord record) as [[|] |] eqn:Hi; simpl; auto.
    destruct (getSecurity (calls st) (TrueWealth.query_of record)); simpl; auto.
    destruct (fmt (TrueWealth.template (TrueWealth.r_date record))); simpl; auto.
    apply Forall_app. split; auto.
Qed.

Lemma truewealth_delivered_acts parsed :
  delivered (tw_on_parsed parsed) = []
  \/ delivered (tw_on_parsed parsed) = acts (snd (tw_on_parsed parsed)).
Proof.
  unfold delivered, TrueWealth.on_parsed.
  destruct parsed as [e | [| o os]]; try now left.
  destruct (tw_loop (map TrueWealth.record_of (o :: os)) 0 TrueWealth.started);
    simpl; auto.
Qed.

Lemma truewealth_delivered_of_resolved (P : GhostfolioActivity -> Prop) :
  (forall record security date,
      TrueWealth.isIgnoredRecord record = Some false ->
      P (tw_activity_of record security date)) ->
  forall parsed, Forall P (delivered (tw_on_parsed parsed)).
Proof.
  intros HP parsed.
  destruct (truewealth_delivered_acts parsed) as [-> | ->]; [constructor |].
  now apply truewealth_acts_of_resolved.
Qed.

Lemma order_type_dividend t :
  GhostfolioOrderType_of t = Some dividend -> t = "dividend".
Proof.
  unfold GhostfolioOrderType_of.
  destruct (String.eqb t "buy"); [discriminate |].
  destruct (String.eqb t "sell"); [discriminate |].
  destruct (String.eqb t "dividend") eqn:E; [intros _; now apply String.eqb_eq |].
  destruct (String.eqb t "interest"); [discriminate |].
  destruct (String.eqb t "fx"); discriminate.
Qed.

Lemma order_type_fx t : GhostfolioOrderType_of t = Some fx -> t = "fx".
Proof.
  unfold GhostfolioOrderType_of.
  destruct (String.eqb t "buy"); [discriminate |].
  destruct (String.eqb t "sell"); [discriminate |].
  destruct (String.eqb t "dividend"); [discriminate |].
  destruct (String.eqb t "interest"); [discriminate |].
  destruct (String.eqb t "fx") eqn:E; [intros _; now apply String.eqb_eq | discriminate].
Qed.

Lemma truewealth_type_activity_of record security date :
  type (tw_activity_of record security date) =
  match TrueWealth.r_type record with
  | Some t => GhostfolioOrderType_of t
  | None => None
  end.
Proof.
  unfold TrueWealth.activity_of.
  destruct (strict_eq (TrueWealth.r_type record) "dividend"); reflexivity.
Qed.

(** X3: every activity of type dividend in the envelope of a TrueWealth
    run has quantity 1 and the absolute price of its row as unit price:
    the share count of a dividend row is never used. *)
Theorem X3_truewealth_dividend_quantity_is_one :
  forall input,
  Forall (fun a => type a = Some dividend -> quantity a = of_decimal false 1 0)
         (delivered (tw_run input))
  /\ forall record security date,
       TrueWealth.r_type record = Some "dividend" ->
       quantity (tw_activity_of record security date) = of_decimal false 1 0
       /\ unitPrice (tw_activity_of record security date)
          = Math_abs (TrueWealth.to_number (TrueWealth.r_price record))
       /\ type (tw_activity_of record security date) = Some dividend.
Proof.
  intros input. split.
  - apply TrueWealthFacts.delivered_inv. intros record security date.
    rewrite truewealth_type_activity_of.
    destruct (TrueWealth.r_type record) as [t |] eqn:Ht; [| discriminate].
    intros H. apply order_type_dividend in H. subst t.
    unfold TrueWealth.activity_of. rewrite Ht. reflexivity.
  - intros record security date Ht. unfold TrueWealth.activity_of. rewrite Ht.
    repeat split.
Qed.

(** X4: no activity in the envelope of a TrueWealth run has type fx: a
    row whose type is "fx" is ignored before anything is booked for it. *)
Theorem X4_truewealth_never_books_fx :
  forall input, Forall (fun a => type a <> Some fx) (delivered (tw_run input)).
Proof.
  intros input. apply truewealth_delivered_of_resolved.
  intros record security date Hi. rewrite truewealth_type_activity_of.
  unfold TrueWealth.isIgnoredRecord in Hi.
  destruct (TrueWealth.r_type record) as [t |]; [| discriminate].
  intros H. apply order_type_fx in H. subst t. discriminate Hi.
Qed.

(** Calls, activities and log lines, row by row: a call is followed by an
    activity or a log line, unless the date of the row throws. *)
Lemma truewealth_loop_accounting records : forall idx st,
  (S (List.length (calls st)) = List.length (acts st) + List.length (logs st))%nat ->
  match tw_loop records idx st with
  | TrueWealth.Next st' | TrueWealth.Abort st' _ =>
      (S (List.length (calls st'))
       = List.length (acts st') + List.length (logs st'))%nat
  | TrueWealth.Throw st' =>
      (List.length (calls st')
       <= List.length (acts st') + List.length (logs st'))%nat
  end.
Proof.
  induction records as [| record rest IH]; intros idx st H; simpl; [exact H |].
  unfold TrueWealth.process_record.
  destruct (TrueWealth.isIgnoredRecord record) as [[|] |]; simpl.
  - now apply IH.
  - destruct (getSecurity (calls st) (TrueWealth.query_of record)); simpl.
    + destruct (fmt (TrueWealth.template (TrueWealth.r_date record))); simpl.
      * apply IH. simpl. rewrite !length_app. simpl. lia.
      * rewrite length_app. simpl. lia.
    + apply IH. simpl. rewrite !length_app. simpl. lia.
    + rewrite !length_app. simpl. lia.
  - lia.
Qed.

(** X5: in a TrueWealth run that ends in the success callback, or in the
    error callback with an error the security service raised, every call
    made to the service is accounted for by exactly one activity or one
    log line, the line that announces the start being one more: calls + 1
    = activities + log lines. However a run ends, the calls do not
    outnumber the activities and log lines. *)
Theorem X5_truewealth_calls_are_accounted_for :
  forall input,
  let run := TrueWealth.processFileContents getSecurity account now fmt input in
  (List.length (calls (snd run))
   <= List.length (acts (snd run)) + List.length (logs (snd run)))%nat
  /\ match fst run with
     | Success _ | Failure (Raised _) =>
         (S (List.length (calls (snd run)))
          = List.length (acts (snd run)) + List.length (logs (snd run)))%nat
     | _ => True
     end.
Proof.
  intros input run. subst run. unfold TrueWealth.processFileContents.
  destruct (TrueWealth.tokenized input) as [e | [| o os]];
    [simpl; split; [lia | exact I] | simpl; split; [lia | exact I] |].
  unfold TrueWealth.on_parsed.
  pose proof (truewealth_loop_accounting (map TrueWealth.record_of (o :: os)) 0%nat
                TrueWealth.started eq_refl) as H.
  destruct (tw_loop (map TrueWealth.record_of (o :: os)) 0 TrueWealth.started)
    as [st | st e | st]; simpl.
  - split; [lia | exact H].
  - split; [lia |]. destruct e; [exact I | exact H].
  - split; [exact H | exact I].
Qed.

End TrueWealthRun.

Lemma X3_truewealth_dividend_quantity_is_one_witness :
  quantity (TrueWealth.activity_of None
              (tw_record "2024-02-01,Dividend,CHF,12.5,40,12.5,0,0,CH1,12.5,CHF,Foo")
              {| y_symbol := Some "ABC"; y_currency := None |} "2024-02-01")
  = parseFloat "1".
Proof.
  exact (proj1 (proj2 (X3_truewealth_dividend_quantity_is_one finding None "" zurich "")
                  (tw_record "2024-02-01,Dividend,CHF,12.5,40,12.5,0,0,CH1,12.5,CHF,Foo")
                  {| y_symbol := Some "ABC"; y_currency := None |} "2024-02-01"
                  eq_refl)).
Defined.

(** ** Tokenized records, their keys and their number *)

Lemma keys_of_combine (f : string * string -> string * value) :
  (forall cf, fst (f cf) = fst cf) ->
  forall columns fields : list string,
  List.length fields = List.length columns ->
  map fst (map f (combine columns fields)) = columns.
Proof.
  intros Hf. induction columns as [| c cs IH]; intros fields Hlen; [reflexivity |].
  destruct fields as [| x xs]; [discriminate |]. simpl.
  rewrite Hf. simpl. f_equal. apply IH. now injection Hlen.
Qed.

Lemma build_keys columns cast line fields o :
  build columns cast line fields = inr o -> map fst o = columns.
Proof.
  unfold build.
  destruct (Nat.eqb _ _) eqn:E; [| discriminate].
  intros H; injection H as <-. apply Nat.eqb_eq in E.
  now apply keys_of_combine.
Qed.

(** The records the tokenizer delivers have the columns as their keys. *)
Lemma parse_keys fromLine columns cast input os :
  parse fromLine columns cast input = inr os ->
  Forall (fun o => map fst o = columns) os.
Proof.
  unfold parse. eapply CsvFacts.scan_all; [| apply Nat.le_refl].
  intros line fields o. apply build_keys.
Qed.

(** The first line whose number of fields is not the number of columns is
    the one the tokenizer reports. *)
Lemma plain_records_rejects columns cast good bad rest : forall line,
  Forall (fun l => List.length (split "," l) = List.length columns) good ->
  List.length (split "," bad) <> List.length columns ->
  plain_records columns cast line (good ++ bad :: rest)%list
  = inl (InvalidRecordLength (line + List.length good) (List.length columns)
           (List.length (split "," bad))).
Proof.
  induction good as [| g good IH]; intros line Hgood Hbad; simpl.
  - unfold plain_record, build. apply Nat.eqb_neq in Hbad. rewrite Hbad.
    now rewrite Nat.add_0_r.
  - inversion Hgood as [| ? ? Hg Hgood']; subst.
    unfold plain_record at 1. unfold build at 1. rewrite Hg, Nat.eqb_refl.
    rewrite (IH (S line) Hgood' Hbad). f_equal. f_equal. lia.
Qed.

Lemma get_in_key (o : object) (k : string) :
  get o k = VUndefined \/ In (k, get o k) o.
Proof.
  induction o as [| [k' v] r IH]; simpl; [now left |].
  destruct (get r k) eqn:Hg.
  - destruct (String.eqb k' k) eqn:E; [| now left].
    apply String.eqb_eq in E. subst. right. now left.
  - destruct IH as [H | H]; [discriminate | right; now right].
  - destruct IH as [H | H]; [discriminate | right; now right].
  - destruct IH as [H | H]; [discriminate | right; now right].
Qed.

Lemma get_defined (o : object) (k : string) :
  In k (map fst o) ->
  (forall v, In (k, v) o -> v <> VUndefined) ->
  get o k <> VUndefined.
Proof.
  induction o as [| [k' v] r IH]; simpl; [tauto |].
  intros Hin Hdef.
  destruct (get r k) eqn:Hg; try discriminate.
  destruct (String.eqb k' k) eqn:E.
  - apply String.eqb_eq in E. subst. apply Hdef. now left.
  - exfalso. destruct Hin as [-> | Hin]; [now rewrite String.eqb_refl in E |].
    apply IH; auto.
Qed.

Lemma truewealth_cast_defined column field : TrueWealth.cast column field <> VUndefined.
Proof.
  unfold TrueWealth.cast.
  repeat match goal with
         | |- context [if ?b then _ else _] => destruct b
         end; discriminate.
Qed.

Lemma truewealth_type_absent o :
  ~ In "type" (map fst o) -> TrueWealth.r_type (TrueWealth.record_of o) = None.
Proof.
  intros H. simpl. unfold get_string. now rewrite CsvFacts.get_absent.
Qed.

Lemma truewealth_type_present o :
  cast_image TrueWealth.cast o -> In "type" (map fst o) ->
  exists t, TrueWealth.r_type (TrueWealth.record_of o) = Some t.
Proof.
  intros Himg Hin. simpl. unfold get_string.
  assert (Hdef : get o "type" <> VUndefined).
  { apply get_defined; [assumption |]. intros v Hv.
    destruct (Himg _ _ Hv) as [f ->]. apply truewealth_cast_defined. }
  destruct (get_in_key o "type") as [Hu | Hk]; [contradiction |].
  destruct (Himg _ _ Hk) as [f Hf]. rewrite Hf, truewealth_cast_type. eauto.
Qed.

(** ** How a TrueWealth run ends *)

Section TrueWealthOutcome.

Variable getSecurity : SecurityService.
Variable account : option string.
Variable now : string.
Variable fmt : string -> option string.

Local Abbreviation tw_process_record :=
  (TrueWealth.process_record getSecurity account fmt).
Local Abbreviation tw_loop := (TrueWealth.loop getSecurity account fmt).
Local Abbreviation tw_on_parsed := (TrueWealth.on_parsed getSecurity account now fmt).
Local Abbreviation tw_run := (TrueWealth.processFileContents getSecurity account now fmt).

(** An abort is the raised error of the last call made. *)
Lemma truewealth_loop_abort records : forall idx st st' e,
  tw_loop records idx st = TrueWealth.Abort st' e ->
  exists history q message,
    e = Raised message
    /\ calls st' = (history ++ [q])%list
    /\ getSecurity history q = Raises message.
Proof.
  induction records as [| record rest IH]; intros idx st st' e; simpl; [discriminate |].
  destruct (tw_process_record idx record st) as [st1 | st1 e1 | st1] eqn:Hp.
  - apply IH.
  - intros H; injection H as <- <-.
    unfold TrueWealth.process_record in Hp.
    destruct (TrueWealth.isIgnoredRecord record) as [[|] |]; try discriminate.
    destruct (getSecurity (calls st) (TrueWealth.query_of record)) eqn:Hs;
      try discriminate.
    { destruct (fmt (TrueWealth.template (TrueWealth.r_date record)));
        discriminate. }
    injection Hp as <- <-.
    exists (calls st), (TrueWealth.query_of record), message. repeat split.
    exact Hs.
  - discriminate.
Qed.

(** Rows that have a type throw only on a date that does not parse. *)
Lemma truewealth_loop_throw records : forall idx st st',
  Forall (fun r => TrueWealth.r_type r <> None) records ->
  tw_loop records idx st = TrueWealth.Throw st' ->
  exists r history security,
    In r records
    /\ fmt (TrueWealth.template (TrueWealth.r_date r)) = None
    /\ calls st' = (history ++ [TrueWealth.query_of r])%list
    /\ getSecurity history (TrueWealth.query_of r) = Found security.
Proof.
  induction records as [| record rest IH]; intros idx st st' Hall; simpl;
    [discriminate |].
  inversion Hall as [| ? ? Ht Hall']; subst.
  unfold TrueWealth.process_record, TrueWealth.isIgnoredRecord.
  destruct (TrueWealth.r_type record) as [t |]; [| contradiction].
  assert (Hrest : forall st1,
             tw_loop rest (S idx) st1 = TrueWealth.Throw st' ->
             exists r history security,
               (record = r \/ In r rest)
               /\ fmt (TrueWealth.template (TrueWealth.r_date r)) = None
               /\ calls st' = (history ++ [TrueWealth.query_of r])%list
               /\ getSecurity history (TrueWealth.query_of r) = Found security).
  { intros st1 H. destruct (IH _ _ _ Hall' H) as [r [h [s [Hin Hr]]]].
    exists r, h, s. tauto. }
  destruct (existsb _ _); [apply Hrest |].
  destruct (getSecurity (calls st) (TrueWealth.query_of record)) as [security | | m]
    eqn:Hs; try apply Hrest; try discriminate.
  destruct (fmt (TrueWealth.template (TrueWealth.r_date record))) eqn:Hd;
    [apply Hrest |].
  intros H. injection H as <-.
  exists record, (calls st), security. repeat split; auto.
Qed.

Lemma truewealth_loop_throws_at_once record rest idx st :
  TrueWealth.r_type record = None ->
  tw_loop (record :: rest) idx st = TrueWealth.Throw st.
Proof.
  intros H. simpl. unfold TrueWealth.process_record, TrueWealth.isIgnoredRecord.
  now rewrite H.
Qed.

Lemma truewealth_tokenized_records input os :
  TrueWealth.tokenized input = inr os ->
  Forall (cast_image TrueWealth.cast) os
  /\ Forall (fun o => map fst o = TrueWealth.processHeaders input) os.
Proof.
  unfold TrueWealth.tokenized. intros H. split.
  - eapply CsvFacts.parse_image; eassumption.
  - eapply parse_keys; eassumption.
Qed.

Lemma truewealth_records_have_type input os :
  TrueWealth.tokenized input = inr os ->
  In "type" (TrueWealth.processHeaders input) ->
  Forall (fun r => TrueWealth.r_type r <> None) (map TrueWealth.record_of os).
Proof.
  intros Htok Hin.
  destruct (truewealth_tokenized_records input _ Htok) as [Himg Hkeys].
  apply Forall_forall. intros r Hr. apply in_map_iff in Hr.
  destruct Hr as [o' [<- Ho']].
  rewrite Forall_forall in Himg, Hkeys.
  destruct (truewealth_type_present o' (Himg _ Ho')) as [t Ht].
  - now rewrite (Hkeys _ Ho').
  - rewrite Ht. discriminate.
Qed.

(** X6: when the tokenizer returned records, a TrueWealth run ends
    without either callback in two cases only. The header names no "type"
    column: the ignore filter then throws on the first record, before any
    call to the security service and before anything is booked. Or the
    date of a row whose security was found does not parse: the run stops
    right after that call. *)
Theorem X6_truewealth_no_callback_without_type_or_date :
  forall input o os,
  TrueWealth.tokenized input = inr (o :: os) ->
  (~ In "type" (TrueWealth.processHeaders input) ->
   tw_run input = (Unhandled, TrueWealth.started))
  /\ (In "type" (TrueWealth.processHeaders input) ->
      fst (tw_run input) = Unhandled ->
      exists r history security,
        In r (map TrueWealth.record_of (o :: os))
        /\ fmt (TrueWealth.template (TrueWealth.r_date r)) = None
        /\ calls (snd (tw_run input)) = (history ++ [TrueWealth.query_of r])%list
        /\ getSecurity history (TrueWealth.query_of r) = Found security).
Proof.
  intros input o os Htok.
  destruct (truewealth_tokenized_records input _ Htok) as [Himg Hkeys].
  unfold TrueWealth.processFileContents. rewrite Htok. split.
  - intros Hout.
    assert (Ht : TrueWealth.r_type (TrueWealth.record_of o) = None).
    { apply truewealth_type_absent. inversion Hkeys as [| ? ? Hk _]; subst.
      now rewrite Hk. }
    unfold TrueWealth.on_parsed.
    change (map TrueWealth.record_of (o :: os))
      with (TrueWealth.record_of o :: map TrueWealth.record_of os).
    now rewrite (truewealth_loop_throws_at_once _ _ _ _ Ht).
  - intros Hin.
    pose proof (truewealth_records_have_type input _ Htok Hin) as Htyped.
    unfold TrueWealth.on_parsed.
    destruct (tw_loop (map TrueWealth.record_of (o :: os)) 0 TrueWealth.started)
      as [st | st e | st] eqn:Hl; simpl; try discriminate.
    intros _. exact (truewealth_loop_throw _ _ _ _ Htyped Hl).
Qed.

(** X7: a TrueWealth run ends in the error callback with a raised error
    only when the security service raised that very error on the last call
    the run made; no row is resolved after it. *)
Theorem X7_truewealth_failure_is_the_raised_error :
  forall parsed message,
  fst (TrueWealth.on_parsed getSecurity account now fmt parsed)
  = Failure (Raised message) ->
  exists history q,
    calls (snd (TrueWealth.on_parsed getSecurity account now fmt parsed))
    = (history ++ [q])%list
    /\ getSecurity history q = Raises message.
Proof.
  intros parsed message. unfold TrueWealth.on_parsed.
  destruct parsed as [e | [| o os]]; try discriminate.
  destruct (tw_loop (map TrueWealth.record_of (o :: os)) 0 TrueWealth.started)
    as [st | st e | st] eqn:Hl;
    simpl; try discriminate.
  intros H; injection H as ->.
  destruct (truewealth_loop_abort _ _ _ _ _ Hl) as [history [q [m [Hm [Hc Hs]]]]].
  injection Hm as <-. now exists history, q.
Qed.

(** X8: a missing security is never fatal for TrueWealth: when the
    tokenizer returned records, the header names a "type" column, no call
    to the security service raises and the date of every record parses,
    the run ends in the success callback with all booked activities, and
    every call is answered by an activity or by a log line: the log lines
    and the activities together are the calls and the line that announces
    the start. *)
Theorem X8_truewealth_succeeds_unless_the_service_raises :
  forall input o os,
  TrueWealth.tokenized input = inr (o :: os) ->
  In "type" (TrueWealth.processHeaders input) ->
  (forall history q message, getSecurity history q <> Raises message) ->
  Forall (fun r => fmt (TrueWealth.template (TrueWealth.r_date r)) <> None)
         (map TrueWealth.record_of (o :: os)) ->
  succeeded (tw_run input) = true
  /\ delivered (tw_run input) = acts (snd (tw_run input))
  /\ (List.length (logs (snd (tw_run input)))
      + List.length (delivered (tw_run input))
      = 1 + List.length (calls (snd (tw_run input))))%nat.
Proof.
  intros input o os Htok Hin Hnever Hdates.
  pose proof (truewealth_loop_accounting getSecurity account fmt
                (map TrueWealth.record_of (o :: os)) 0%nat TrueWealth.started eq_refl)
    as Hacc.
  pose proof (truewealth_records_have_type input _ Htok Hin) as Htyped.
  revert Hacc. unfold TrueWealth.processFileContents. rewrite Htok.
  unfold TrueWealth.on_parsed, succeeded, delivered.
  destruct (tw_loop (map TrueWealth.record_of (o :: os)) 0 TrueWealth.started)
    as [st | st e | st] eqn:Hl;
    simpl; intros Hacc.
  - repeat split. lia.
  - exfalso. destruct (truewealth_loop_abort _ _ _ _ _ Hl)
      as [history [q [m [_ [_ Hs]]]]]. exact (Hnever _ _ _ Hs).
  - exfalso. destruct (truewealth_loop_throw _ _ _ _ Htyped Hl)
      as [r [history [security [Hr [Hd _]]]]].
    rewrite Forall_forall in Hdates. exact (Hdates r Hr Hd).
Qed.

End TrueWealthOutcome.

Lemma X6_truewealth_no_callback_without_type_or_date_witness :
  TrueWealth.processFileContents finding None "" zurich
    ("date,kind,isin" ++ NL ++ "2024-01-02,Buy,CH1" ++ NL)
  = (Unhandled, TrueWealth.started).
Proof.
  apply (proj1 (X6_truewealth_no_callback_without_type_or_date finding None ""
                  zurich
                  ("date,kind,isin" ++ NL ++ "2024-01-02,Buy,CH1" ++ NL)
                  [("date", VString "2024-01-02"); ("kind", VString "Buy");
                   ("isin", VString "CH1")] [] eq_refl)).
  vm_compute. intros [H | [H | [H | []]]]; discriminate H.
Defined.

(** A row without a date: its security is found, and the run ends on the
    exception of the date, in neither callback, with nothing booked. *)
Example truewealth_unparsable_date_is_unhandled :
  let run := TrueWealth.processFileContents finding None "" zurich
               (tw_header ++ NL ++ tw_buy ++ NL ++ tw_undated ++ NL) in
  fst run = Unhandled
  /\ List.length (calls (snd run)) = 2%nat
  /\ List.length (acts (snd run)) = 1%nat
  /\ logs (snd run) = [ReadCsvFile].
Proof. vm_compute. repeat split. Qed.

Lemma X7_truewealth_failure_is_the_raised_error_witness :
  exists history q,
    calls (snd (TrueWealth.on_parsed raising None "" zurich
                  (inr [tw_object tw_buy; tw_object tw_fee])))
    = (history ++ [q])%list
    /\ raising history q = Raises "lookup failed".
Proof.
  exact (X7_truewealth_failure_is_the_raised_error raising None "" zurich
           (inr [tw_object tw_buy; tw_object tw_fee]) "lookup failed" eq_refl).
Defined.

Lemma X8_truewealth_succeeds_unless_the_service_raises_witness :
  succeeded (TrueWealth.processFileContents missing None "" zurich tw_export) = true.
Proof.
  refine (proj1 (X8_truewealth_succeeds_unless_the_service_raises missing None ""
                   zurich tw_export (tw_object tw_buy) [tw_object tw_fee]
                   eq_refl _ _ _)).
  - vm_compute. tauto.
  - intros history q message H. discriminate H.
  - repeat constructor; vm_compute; discriminate.
Defined.

(** ** Exports the tokenizer makes nothing of *)

Section ParseFailures.

Variable getSecurity : SecurityService.
Variable account reward_asset : option string.
Variable now : string.
Variable fmt : string -> option string.

Local Abbreviation tw_run := (TrueWealth.processFileContents getSecurity account now fmt).

(** X9: a TrueWealth export without quote characters and carriage returns
    that has no line after its header line (the empty text included) ends
    in the error callback with the parse error that has no details, and
    nothing is asked of the security service. *)
Theorem X9_truewealth_export_without_rows_is_a_parse_error :
  forall input,
  no_quote input = true -> no_CR input = true ->
  (List.length (plain_lines input) <= 1)%nat ->
  TrueWealth.processFileContents getSecurity account now fmt input
  = (Failure (ParsingError None), init).
Proof.
  intros input Hq Hcr H. unfold TrueWealth.processFileContents.
  rewrite (truewealth_tokenized_plain input Hq Hcr).
  destruct (plain_lines input) as [| header [| row rest]]; simpl in *;
    try reflexivity. lia.
Qed.

(** X10: in a TrueWealth export without quote characters and carriage
    returns, a row whose number of fields is not the number of columns of
    the header ends the run in the error callback, with the tokenizer's
    record-length error for the first such row: its line number (the
    header being line 1), the number of columns and the number of fields.
    No row is resolved, not even the ones before it. *)
Theorem X10_truewealth_reports_the_first_malformed_row :
  forall input header good bad rest,
  no_quote input = true -> no_CR input = true ->
  plain_lines input = (header :: good ++ bad :: rest)%list ->
  Forall (fun l => List.length (split "," l)
                   = List.length (TrueWealth.processHeaders input)) good ->
  List.length (split "," bad) <> List.length (TrueWealth.processHeaders input) ->
  TrueWealth.processFileContents getSecurity account now fmt input =
  (Failure (ParsingError
              (Some (InvalidRecordLength (2 + List.length good)
                       (List.length (TrueWealth.processHeaders input))
                       (List.length (split "," bad))))),
   init).
Proof.
  intros input header good bad rest Hq Hcr Hlines Hgood Hbad.
  unfold TrueWealth.processFileContents.
  rewrite (truewealth_tokenized_plain input Hq Hcr).
  rewrite Hlines. change (skipn 1 (header :: good ++ bad :: rest)%list)
    with (good ++ bad :: rest)%list.
  now rewrite (plain_records_rejects _ _ good bad rest 2%nat Hgood Hbad).
Qed.

Lemma truewealth_loop_books_at_most_one records : forall idx st,
  (List.length (acts (TrueWealth.final
                        (TrueWealth.loop getSecurity account fmt records idx st)))
   <= List.length (acts st) + List.length records)%nat.
Proof.
  induction records as [| record rest IH]; intros idx st; simpl; [lia |].
  unfold TrueWealth.process_record.
  destruct (TrueWealth.isIgnoredRecord record) as [[|] |]; simpl; try lia.
  - specialize (IH (S idx) st). lia.
  - destruct (getSecurity (calls st) (TrueWealth.query_of record)); simpl; try lia.
    + destruct (fmt (TrueWealth.template (TrueWealth.r_date record))); simpl;
        try lia.
      match goal with
      | |- context [TrueWealth.loop _ _ _ rest (S idx) ?s] =>
          specialize (IH (S idx) s); simpl in IH; rewrite length_app in IH;
          simpl in IH; lia
      end.
    + match goal with
      | |- context [TrueWealth.loop _ _ _ rest (S idx) ?s] =>
          specialize (IH (S idx) s); simpl in IH; lia
      end.
Qed.

(** X11: the envelope of a TrueWealth run holds at most one activity for
    each record the tokenizer returned, and none when the tokenizer
    failed. *)
Theorem X11_truewealth_books_at_most_one_activity_a_row :
  forall input,
  (List.length (delivered
                  (TrueWealth.processFileContents getSecurity account now fmt input))
   <= match TrueWealth.tokenized input with
      | inr os => List.length os
      | inl _ => 0
      end)%nat.
Proof.
  intros input. unfold TrueWealth.processFileContents.
  destruct (TrueWealth.tokenized input) as [e | os] eqn:Htok.
  { simpl. lia. }
  destruct (truewealth_delivered_acts getSecurity account now fmt (inr os)) as [-> | ->].
  { simpl. lia. }
  rewrite truewealth_on_parsed_state.
  destruct os as [| o os']; [simpl; lia |].
  pose proof (truewealth_loop_books_at_most_one
                (map TrueWealth.record_of (o :: os')) 0%nat TrueWealth.started) as H.
  rewrite length_map in H. simpl in H. simpl. lia.
Qed.

End ParseFailures.

Lemma X9_truewealth_export_without_rows_is_a_parse_error_witness :
  TrueWealth.processFileContents finding None "" zurich (tw_header ++ NL)
  = (Failure (ParsingError None), init).
Proof.
  apply (X9_truewealth_export_without_rows_is_a_parse_error finding None "" zurich);
    [reflexivity | reflexivity |].
  vm_compute. lia.
Defined.

Lemma X10_truewealth_reports_the_first_malformed_row_witness :
  fst (TrueWealth.processFileContents finding None "" zurich
         (tw_header ++ NL ++ tw_buy ++ NL ++ "2024-01-02,Buy,CHF,10,-5" ++ NL
          ++ tw_fee ++ NL))
  = Failure (ParsingError (Some (InvalidRecordLength 3 12 5))).
Proof.
  refine (f_equal fst
            (X10_truewealth_reports_the_first_malformed_row finding None "" zurich
               (tw_header ++ NL ++ tw_buy ++ NL ++ "2024-01-02,Buy,CHF,10,-5" ++ NL
                ++ tw_fee ++ NL)
               tw_header [tw_buy] "2024-01-02,Buy,CHF,10,-5" [tw_fee]
               eq_refl eq_refl eq_refl _ _)).
  - repeat constructor.
  - vm_compute. discriminate.
Defined.

(** ** The Bitpanda loop *)

Section BitpandaRun.

Variable getSecurity : SecurityService.
Variable account reward_asset : option string.
Variable now : string.
Variable fmt : string -> string.

Local Abbreviation bp_process_record :=
  (Bitpanda.process_record getSecurity account reward_asset fmt).
Local Abbreviation bp_loop := (Bitpanda.loop getSecurity account reward_asset fmt).
Local Abbreviation bp_on_parsed :=
  (Bitpanda.on_parsed getSecurity account reward_asset now fmt).
Local Abbreviation bp_run :=
  (Bitpanda.processFileContents getSecurity account reward_asset now fmt).
Local Abbreviation bp_activities_of := (Bitpanda.activities_of account reward_asset fmt).

Lemma bitpanda_loop_cons record rest st :
  bp_loop (record :: rest) st = bp_loop rest (bp_process_record record st).
Proof. reflexivity. Qed.

Lemma bitpanda_loop_app before after st :
  bp_loop (before ++ after)%list st = bp_loop after (bp_loop before st).
Proof. unfold Bitpanda.loop. apply fold_left_app. Qed.

Lemma bitpanda_process_record_idle record st :
  books record = false -> bp_process_record record st = st.
Proof.
  unfold books. intros H.
  destruct (Bitpanda.isIgnoredRecord record) eqn:Hi.
  { now apply BitpandaFacts.process_record_ignored. }
  destruct (Bitpanda.determine_type record) eqn:Ht; [discriminate |].
  now apply BitpandaFacts.process_record_unclassified.
Qed.

Lemma bitpanda_process_record_books record st :
  books record = true ->
  exists type,
    Bitpanda.determine_type record = Some type
    /\ bp_process_record record st =
       Bitpanda.push_all
         (bp_activities_of record type (converted_symbol getSecurity record st)
            (position_quantity record) (position_price record))
         (converted_state getSecurity record st).
Proof.
  unfold books. intros H.
  destruct (Bitpanda.isIgnoredRecord record) eqn:Hi; [discriminate |].
  destruct (Bitpanda.determine_type record) as [type |] eqn:Ht; [| discriminate].
  exists type. split; [reflexivity |].
  now apply BitpandaFacts.process_record_classified.
Qed.

Lemma bitpanda_calls_converted_state record st :
  calls (converted_state getSecurity record st) =
  if has_class record "metal" then (calls st ++ [Bitpanda.metal_query record])%list
  else calls st.
Proof.
  unfold converted_state, has_class, Bitpanda.convert.
  rewrite BitpandaFacts.lower_class_eq.
  destruct (String.eqb (toLowerCase (Bitpanda.assetClass record)) "cryptocurrency") eqn:Hc.
  { apply String.eqb_eq in Hc. rewrite Hc. reflexivity. }
  destruct (String.eqb (toLowerCase (Bitpanda.assetClass record)) "stock (derivative)") eqn:Hs.
  { apply String.eqb_eq in Hs. rewrite Hs. reflexivity. }
  destruct (String.eqb (toLowerCase (Bitpanda.assetClass record)) "metal");
    [| reflexivity].
  destruct (getSecurity (calls st) (Bitpanda.metal_query record))
    as [[[[| c s] |] cur] | | msg]; reflexivity.
Qed.


(** X12: rows that are ignored or that the type determination does not
    classify leave no trace: the state a Bitpanda loop ends in (activities,
    calls and log lines) is the one it ends in on the booking rows alone. *)
Theorem X12_bitpanda_idle_rows_leave_no_trace :
  forall records st,
  bp_loop records st = bp_loop (filter books records) st.
Proof.
  induction records as [| record rest IH]; intros st; [reflexivity |].
  simpl filter. destruct (books record) eqn:Hb.
  - rewrite !bitpanda_loop_cons. apply IH.
  - rewrite bitpanda_loop_cons, bitpanda_process_record_idle by exact Hb. apply IH.
Qed.

Lemma bitpanda_length_activities_of record type symbol q p :
  List.length (bp_activities_of record type symbol q p)
  = if String.eqb type "interest" then 2%nat else 1%nat.
Proof.
  unfold Bitpanda.activities_of. destruct (String.eqb type "interest"); reflexivity.
Qed.

(** X13: a Bitpanda loop books two activities for every reward row, one
    for every other classified row, none for an ignored or unclassified
    one: the number of activities it appends is the sum over its records. *)
Theorem X13_bitpanda_number_of_activities :
  forall records st,
  List.length (acts (bp_loop records st))
  = (List.length (acts st) + list_sum (map booked records))%nat.
Proof.
  induction records as [| record rest IH]; intros st; simpl list_sum.
  - simpl. lia.
  - rewrite bitpanda_loop_cons, IH.
    generalize (list_sum (map booked rest)). intros n. unfold booked.
    destruct (books record) eqn:Hb.
    + destruct (bitpanda_process_record_books record st Hb) as [type [Ht ->]].
      unfold books in Hb.
      destruct (Bitpanda.isIgnoredRecord record); [discriminate |].
      rewrite Ht, BitpandaFacts.acts_push_all, length_app,
        BitpandaFacts.acts_converted_state, bitpanda_length_activities_of. lia.
    + rewrite bitpanda_process_record_idle by exact Hb. unfold books in Hb.
      destruct (Bitpanda.isIgnoredRecord record); [lia |].
      destruct (Bitpanda.determine_type record); [discriminate | lia].
Qed.

Lemma bitpanda_calls_process_record record st :
  calls (bp_process_record record st) =
  if looked_up record then (calls st ++ [Bitpanda.metal_query record])%list
  else calls st.
Proof.
  unfold looked_up. destruct (books record) eqn:Hb; simpl.
  - destruct (bitpanda_process_record_books record st Hb) as [type [_ ->]].
    now rewrite BitpandaFacts.calls_push_all, bitpanda_calls_converted_state.
  - now rewrite bitpanda_process_record_idle.
Qed.

(** X14: the calls a Bitpanda loop makes to the security service are, in
    order, exactly one call for each row of asset class metal that books
    anything, by the asset's name and nothing else; an export without such
    a row never reaches the service. What the service answers has no
    bearing on which calls follow. *)
Theorem X14_bitpanda_calls_are_the_metal_lookups :
  forall records st,
  calls (bp_loop records st)
  = (calls st ++ map Bitpanda.metal_query (filter looked_up records))%list
  /\ Forall (fun q => q_isin q = None /\ q_symbol q = None /\ q_currency q = None)
            (map Bitpanda.metal_query (filter looked_up records)).
Proof.
  intros records st. split.
  - revert st. induction records as [| record rest IH]; intros st.
    + simpl. now rewrite app_nil_r.
    + rewrite bitpanda_loop_cons, IH, bitpanda_calls_process_record. simpl filter.
      destruct (looked_up record); [| reflexivity].
      simpl. now rewrite <- app_assoc.
  - apply Forall_forall. intros q Hq. apply in_map_iff in Hq.
    destruct Hq as [r [<- _]]. repeat split.
Qed.

End BitpandaRun.

Section BitpandaEnvelope.

Variable getSecurity : SecurityService.
Variable account reward_asset : option string.
Variable now : string.
Variable fmt : string -> string.
Variable zurich_15h : string -> option string.

Local Abbreviation bp_process_record :=
  (Bitpanda.process_record getSecurity account reward_asset fmt).
Local Abbreviation bp_loop := (Bitpanda.loop getSecurity account reward_asset fmt).
Local Abbreviation bp_on_parsed :=
  (Bitpanda.on_parsed getSecurity account reward_asset now fmt).
Local Abbreviation bp_run :=
  (Bitpanda.processFileContents getSecurity account reward_asset now fmt).
Local Abbreviation bp_activities_of := (Bitpanda.activities_of account reward_asset fmt).
Local Abbreviation tw_loop := (TrueWealth.loop getSecurity account zurich_15h).

(** What a row appends, it appends behind what is there. *)
Lemma bitpanda_process_record_appends record st :
  exists emitted,
    acts (bp_process_record record st) = (acts st ++ emitted)%list
    /\ List.length emitted = booked record
    /\ forall P : GhostfolioActivity -> Prop,
         (forall type symbol q p,
             Bitpanda.isIgnoredRecord record = false ->
             Bitpanda.determine_type record = Some type ->
             Forall P (bp_activities_of record type symbol q p)) ->
         Forall P emitted.
Proof.
  unfold booked.
  destruct (Bitpanda.isIgnoredRecord record) eqn:Hi.
  { rewrite BitpandaFacts.process_record_ignored by exact Hi.
    exists []. rewrite app_nil_r. repeat split. constructor. }
  destruct (Bitpanda.determine_type record) as [type |] eqn:Ht.
  2: { rewrite BitpandaFacts.process_record_unclassified by exact Ht.
       exists []. rewrite app_nil_r. repeat split. constructor. }
  rewrite (BitpandaFacts.process_record_classified _ _ _ _ record st type Hi Ht).
  rewrite BitpandaFacts.acts_push_all, BitpandaFacts.acts_converted_state.
  eexists. split; [reflexivity |]. split.
  - unfold Bitpanda.activities_of. destruct (String.eqb type "interest"); reflexivity.
  - intros P HP. now apply HP.
Qed.

Lemma bitpanda_loop_appends records : forall st,
  exists emitted,
    acts (bp_loop records st) = (acts st ++ emitted)%list
    /\ List.length emitted = list_sum (map booked records)
    /\ forall P : GhostfolioActivity -> Prop,
         (forall record type symbol q p,
             Bitpanda.isIgnoredRecord record = false ->
             Bitpanda.determine_type record = Some type ->
             Forall P (bp_activities_of record type symbol q p)) ->
         Forall P emitted.
Proof.
  induction records as [| record rest IH]; intros st.
  - exists []. simpl. rewrite app_nil_r. repeat split. constructor.
  - change (bp_loop (record :: rest) st) with (bp_loop rest (bp_process_record record st)).
    destruct (bitpanda_process_record_appends record st) as [e1 [H1 [L1 P1]]].
    destruct (IH (bp_process_record record st)) as [e2 [H2 [L2 P2]]].
    exists (e1 ++ e2)%list. rewrite H2, H1, <- app_assoc. split; [reflexivity |].
    split.
    + rewrite length_app, L1, L2. reflexivity.
    + intros P HP. apply Forall_app. split; [apply P1 | apply P2]; auto.
Qed.

(** X15: every activity in the envelope of a Bitpanda run carries the
    configured account and has one of two shapes: the booking of a reward,
    of type interest, sourced "MANUAL", of quantity 1, on the configured
    reward asset; or the booking of a position, of type buy or sell,
    sourced "YAHOO", with an empty comment and a symbol. No Bitpanda
    activity is a dividend or an fx. *)
Theorem X15_bitpanda_activities_have_two_shapes :
  forall input,
  Forall (bitpanda_shape account reward_asset) (delivered (bp_run input)).
Proof.
  intros input. unfold Bitpanda.processFileContents, delivered, Bitpanda.on_parsed.
  destruct (Bitpanda.tokenized input) as [e | [| o os]]; try constructor.
  change (Forall (bitpanda_shape account reward_asset)
            (acts (bp_loop (map Bitpanda.record_of (o :: os)) Bitpanda.started))).
  destruct (bitpanda_loop_appends (map Bitpanda.record_of (o :: os)) Bitpanda.started)
    as [emitted [-> [_ HP]]].
  simpl. apply HP. intros record type symbol q p _ Ht.
  unfold Bitpanda.activities_of, bitpanda_shape.
  destruct (BitpandaFacts.determine_type_keys record type Ht) as [-> | [-> | ->]];
    simpl.
  - constructor; [split; [reflexivity | left; repeat split] |].
    constructor; [| constructor].
    split; [reflexivity | right; repeat split; auto; discriminate].
  - constructor; [| constructor].
    split; [reflexivity | right; repeat split; auto; discriminate].
  - constructor; [| constructor].
    split; [reflexivity | right; repeat split; auto; discriminate].
Qed.

Lemma truewealth_loop_appends records : forall idx st,
  exists emitted,
    acts (TrueWealth.final (tw_loop records idx st)) = (acts st ++ emitted)%list.
Proof.
  induction records as [| record rest IH]; intros idx st; simpl.
  - exists []. now rewrite app_nil_r.
  - unfold TrueWealth.process_record.
    destruct (TrueWealth.isIgnoredRecord record) as [[|] |]; simpl.
    + apply IH.
    + destruct (getSecurity (calls st) (TrueWealth.query_of record)); simpl.
      * destruct (zurich_15h (TrueWealth.template (TrueWealth.r_date record)));
          simpl; [| exists []; now rewrite app_nil_r].
        match goal with
        | |- context [TrueWealth.loop _ _ _ rest (S idx) ?s] =>
            destruct (IH (S idx) s) as [e He]
        end.
        rewrite He. simpl. rewrite <- app_assoc. eauto.
      * match goal with
        | |- context [TrueWealth.loop _ _ _ rest (S idx) ?s] =>
            destruct (IH (S idx) s) as [e He]
        end.
        rewrite He. simpl. eauto.
      * exists []. now rewrite app_nil_r.
    + exists []. now rewrite app_nil_r.
Qed.

(** X16: the output is append-only and in row order, for both providers:
    what the rows of a prefix of the records have booked is still there,
    unchanged and in front, after the rows behind them were processed; for
    Bitpanda the rows behind add exactly their own number of activities. *)
Theorem X16_later_rows_only_append :
  forall before_tw after_tw idx st_tw before_bp after_bp st_bp,
  (exists emitted,
      acts (TrueWealth.final (tw_loop (before_tw ++ after_tw)%list idx st_tw))
      = (acts (TrueWealth.final (tw_loop before_tw idx st_tw)) ++ emitted)%list)
  /\ (exists emitted,
        acts (bp_loop (before_bp ++ after_bp)%list st_bp)
        = (acts (bp_loop before_bp st_bp) ++ emitted)%list
        /\ List.length emitted = list_sum (map booked after_bp)).
Proof.
  intros before_tw after_tw idx st_tw before_bp after_bp st_bp. split.
  - rewrite truewealth_loop_app.
    destruct (tw_loop before_tw idx st_tw) as [st | st e | st]; simpl.
    + apply truewealth_loop_appends.
    + exists []. now rewrite app_nil_r.
    + exists []. now rewrite app_nil_r.
  - unfold Bitpanda.loop at 1. rewrite fold_left_app.
    destruct (bitpanda_loop_appends after_bp (bp_loop before_bp st_bp))
      as [emitted [H [L _]]].
    exists emitted. split; assumption.
Qed.

End BitpandaEnvelope.

(** ** The padding of Bitpanda lines *)

Lemma prefix_append (a b : string) : String.prefix a (a ++ b) = true.
Proof.
  induction a as [| c a IH]; simpl; [now destruct b |].
  destruct (ascii_dec c c); [assumption | contradiction].
Qed.

Lemma pad_line_compliant line : compliant line = true -> Bitpanda.pad_line 18 line = line.
Proof.
  unfold compliant. intros H. apply orb_true_iff in H. destruct H as [H | H].
  - apply String.eqb_eq in H. unfold Bitpanda.pad_line. now rewrite H.
  - apply Nat.leb_le in H. unfold Bitpanda.pad_line.
    destruct (trim line); [reflexivity |].
    assert (Hlt : Nat.ltb (List.length (split "," line)) 18 = false)
      by (apply Nat.ltb_ge; exact H).
    now rewrite Hlt.
Qed.

Lemma pad_line_cases expected line :
  (Bitpanda.pad_line expected line = line
   /\ (trim line = "" \/ (expected <= List.length (split "," line))%nat))
  \/ (trim line <> ""
      /\ (List.length (split "," line) < expected)%nat
      /\ Bitpanda.pad_line expected line
         = (line ++ join "" (repeat ",-" (expected - List.length (split "," line))))%string).
Proof.
  unfold Bitpanda.pad_line.
  destruct (trim line) eqn:Ht; [left; split; [reflexivity | now left] |].
  destruct (Nat.ltb (List.length (split "," line)) expected) eqn:Hlt.
  - apply Nat.ltb_lt in Hlt. right. repeat split; [discriminate | assumption].
  - apply Nat.ltb_ge in Hlt. left. split; [reflexivity | now right].
Qed.

(** X17: the padding of a line only ever appends: the line is a prefix of
    its padding and its own fields are the first fields of the padded
    line; a line that is not blank has afterwards the larger of its own
    number of columns and the expected one (a line with too many columns is
    not cut); padding a second time changes nothing. *)
Theorem X17_padding_only_appends :
  forall expected line,
  let padded := Bitpanda.pad_line expected line in
  String.prefix line padded = true
  /\ firstn (List.length (split "," line)) (split "," padded) = split "," line
  /\ (trim line <> "" ->
      List.length (split "," padded)
      = Nat.max expected (List.length (split "," line)))
  /\ (trim line = "" -> padded = line)
  /\ Bitpanda.pad_line expected padded = padded.
Proof.
  intros expected line padded. subst padded.
  destruct (pad_line_cases expected line) as [[E Hc] | [Ht [Hlt E]]]; rewrite E.
  - split; [| split; [| split; [| split]]].
    + rewrite <- (CsvFacts.append_empty line) at 2. apply prefix_append.
    + apply firstn_all.
    + intros Ht. destruct Hc as [Hc | Hc]; [contradiction | lia].
    + reflexivity.
    + exact E.
  - assert (Hs := CsvFacts.split_padding line (expected - List.length (split "," line))).
    split; [| split; [| split; [| split]]].
    + apply prefix_append.
    + rewrite Hs, firstn_app, Nat.sub_diag, firstn_all. simpl. apply app_nil_r.
    + intros _. rewrite Hs, length_app, repeat_length. lia.
    + intros H. contradiction.
    + destruct (pad_line_cases expected
                  (line ++ join "" (repeat ",-" (expected - List.length (split "," line)))))
        as [[E2 _] | [_ [Hlt2 _]]]; [exact E2 |].
      rewrite Hs, length_app, repeat_length in Hlt2. lia.
Qed.

Lemma X17_padding_only_appends_witness :
  List.length (split "," (Bitpanda.pad_line 18 bp_gold)) = 18%nat.
Proof.
  refine (proj1 (proj2 (proj2 (X17_padding_only_appends 18 bp_gold))) _).
  vm_compute. discriminate.
Defined.

(** ** What Bitpanda hands to the tokenizer *)

Section BitpandaParsing.

Variable getSecurity : SecurityService.
Variable account reward_asset : option string.
Variable now : string.
Variable fmt : string -> string.

Local Abbreviation bp_run :=
  (Bitpanda.processFileContents getSecurity account reward_asset now fmt).

(** X18: preprocessing leaves a conforming export as it is: when the text
    has no carriage return and every line after the header line is blank
    or has eighteen columns or more, the text handed to the tokenizer is
    the input itself. *)
Theorem X18_preprocess_keeps_a_conforming_export :
  forall input,
  no_CR input = true ->
  Forall (fun l => compliant l = true)
         (skipn (Bitpanda.headerLineIdx + 1) (split_lines input)) ->
  Bitpanda.preprocess input = input.
Proof.
  intros input Hcr Hall. unfold Bitpanda.preprocess, Bitpanda.pad_lines.
  change (List.length (Bitpanda.processHeaders input)) with 18%nat.
  replace (map (Bitpanda.pad_line 18)
             (skipn (Bitpanda.headerLineIdx + 1) (split_lines input)))
    with (skipn (Bitpanda.headerLineIdx + 1) (split_lines input)).
  - rewrite firstn_skipn. now apply join_split_lines.
  - induction Hall as [| l ls Hl _ IH]; [reflexivity |].
    simpl. now rewrite pad_line_compliant, <- IH.
Qed.

(** X19: on an export without stray carriage returns the tokenizer is
    given exactly the lines of the input, those after the header line
    padded: joining the padded lines and splitting the text again gives
    them back, as many as before, the first eight (metadata and header) as
    they were. *)
Theorem X19_tokenizer_sees_the_padded_lines :
  forall input,
  clean input = true ->
  split_lines (Bitpanda.preprocess input)
  = Bitpanda.pad_lines 18 (split_lines input)
  /\ List.length (split_lines (Bitpanda.preprocess input))
     = List.length (split_lines input)
  /\ firstn 8 (split_lines (Bitpanda.preprocess input))
     = firstn 8 (split_lines input).
Proof.
  intros input H. rewrite (split_lines_preprocess input H).
  split; [reflexivity |]. unfold Bitpanda.pad_lines. split.
  - rewrite length_app, length_map, <- length_app, firstn_skipn. reflexivity.
  - change (Bitpanda.headerLineIdx + 1)%nat with 8%nat.
    rewrite firstn_app, length_firstn, firstn_firstn, Nat.min_id.
    replace (8 - Nat.min 8 (List.length (split_lines input)))%nat
      with (8 - List.length (split_lines input))%nat by lia.
    destruct (Nat.le_gt_cases 8 (List.length (split_lines input))) as [Hle | Hgt].
    + replace (8 - List.length (split_lines input))%nat with 0%nat by lia.
      simpl. apply app_nil_r.
    + rewrite (skipn_all2 (split_lines input)) by lia. simpl.
      rewrite firstn_nil. apply app_nil_r.
Qed.

(** X20: the header line is tokenized but never padded: on an export
    without quote characters and stray carriage returns whose line 8 is
    not empty and does not have eighteen columns, the run ends in the
    error callback with the tokenizer's record-length error for line 8,
    whatever the data rows are, and nothing is asked of the security
    service. *)
Theorem X20_bitpanda_short_header_line_fails_the_run :
  forall input h,
  no_quote input = true ->
  clean input = true ->
  nth_error (split_lines input) Bitpanda.headerLineIdx = Some h ->
  h <> "" ->
  List.length (split "," h) <> 18%nat ->
  bp_run input
  = (Failure (ParsingError
                (Some (InvalidRecordLength 8 18 (List.length (split "," h))))),
     init).
Proof.
  intros input h Hq Hclean Hnth Hne Hlen.
  destruct (nth_error_split _ _ Hnth) as [pre [tl [Hsplit Hpre]]].
  assert (Hlines : split_lines (Bitpanda.preprocess input)
                   = (pre ++ h :: map (Bitpanda.pad_line 18) tl)%list).
  { rewrite (split_lines_preprocess input Hclean), Hsplit.
    now apply pad_lines_at_header. }
  destruct (plain_lines_keeps _ _ _ _ Hlines Hne) as [tail' Hof].
  unfold Bitpanda.processFileContents.
  rewrite (bitpanda_tokenized_plain input Hq Hclean), Hof.
  assert (Hskip : skipn 7 (pre ++ h :: tail')%list = ([] ++ h :: tail')%list).
  { rewrite skipn_app, skipn_all2 by (rewrite Hpre; unfold Bitpanda.headerLineIdx; lia).
    rewrite Hpre. reflexivity. }
  rewrite Hskip.
  rewrite (plain_records_rejects (Bitpanda.processHeaders input) Bitpanda.cast
             [] h tail' 8%nat (Forall_nil _) Hlen).
  reflexivity.
Qed.

(** X21: a Bitpanda export without quote characters and stray carriage
    returns that has at most seven lines has no line for the tokenizer to
    start at: the run ends in the error callback with the parse error that
    has no details. *)
Theorem X21_bitpanda_export_without_line_8_is_a_parse_error :
  forall input,
  no_quote input = true ->
  clean input = true ->
  (List.length (plain_lines input) <= 7)%nat ->
  bp_run input = (Failure (ParsingError None), init).
Proof.
  intros input Hq Hclean Hlen.
  pose proof (length_plain_lines input) as Hall.
  assert (Hsame : split_lines (Bitpanda.preprocess input) = split_lines input).
  { rewrite (split_lines_preprocess input Hclean). unfold Bitpanda.pad_lines.
    change (Bitpanda.headerLineIdx + 1)%nat with 8%nat.
    rewrite firstn_all2, skipn_all2 by lia. apply app_nil_r. }
  unfold Bitpanda.processFileContents.
  rewrite (bitpanda_tokenized_plain input Hq Hclean).
  assert (Hof : plain_lines (Bitpanda.preprocess input) = plain_lines input)
    by (unfold plain_lines; now rewrite Hsame).
  rewrite Hof, skipn_all2 by lia.
  reflexivity.
Qed.


End BitpandaParsing.

Lemma X18_preprocess_keeps_a_conforming_export_witness :
  Bitpanda.preprocess (bp_meta ++ bp_header ++ NL ++ bp_reward ++ NL)
  = (bp_meta ++ bp_header ++ NL ++ bp_reward ++ NL)%string.
Proof.
  apply X18_preprocess_keeps_a_conforming_export.
  - reflexivity.
  - vm_compute. repeat constructor.
Defined.

Lemma X19_tokenizer_sees_the_padded_lines_witness :
  split_lines (Bitpanda.preprocess bp_export)
  = Bitpanda.pad_lines 18 (split_lines bp_export).
Proof.
  exact (proj1 (X19_tokenizer_sees_the_padded_lines bp_export eq_refl)).
Defined.

Lemma X20_bitpanda_short_header_line_fails_the_run_witness :
  Bitpanda.processFileContents finding None None "" same
    (bp_meta ++ "Transaction ID,Timestamp" ++ NL ++ bp_reward ++ NL)
  = (Failure (ParsingError (Some (InvalidRecordLength 8 18 2))), init).
Proof.
  apply (X20_bitpanda_short_header_line_fails_the_run finding None None "" same
           (bp_meta ++ "Transaction ID,Timestamp" ++ NL ++ bp_reward ++ NL)
           "Transaction ID,Timestamp").
  - reflexivity.
  - reflexivity.
  - reflexivity.
  - discriminate.
  - vm_compute. discriminate.
Defined.

Lemma X21_bitpanda_export_without_line_8_is_a_parse_error_witness :
  Bitpanda.processFileContents finding None None "" same bp_meta
  = (Failure (ParsingError None), init).
Proof.
  apply X21_bitpanda_export_without_line_8_is_a_parse_error.
  - reflexivity.
  - reflexivity.
  - vm_compute. lia.
Defined.


(** ** The numbers of Bitpanda cells *)

Lemma float_field column :
  In column Bitpanda.floatFields ->
  existsb (String.eqb column) Bitpanda.floatFields = true.
Proof.
  intros Hin. apply existsb_exists. exists column.
  split; [assumption | apply String.eqb_refl].
Qed.

Lemma bitpanda_cast_number column field :
  In column Bitpanda.floatFields ->
  Bitpanda.cast column field = VNumber (bitpanda_number field).
Proof. intros H. apply BitpandaFacts.cast_numeric. now apply float_field. Qed.

Lemma dot_or_dash c :
  (Ascii.eqb c "." || Ascii.eqb c "-")%bool = true -> c = "."%char \/ c = "-"%char.
Proof.
  intros H. apply orb_true_iff in H.
  destruct H as [H | H]; apply Ascii.eqb_eq in H; auto.
Qed.

Lemma strip_without_digit v :
  has_digit v = false -> dots_and_dashes (strip_non_numeric v) = true.
Proof.
  induction v as [| c v IH]; [reflexivity |]. simpl.
  intros H. apply orb_false_elim in H. destruct H as [Hc Hv].
  rewrite Hc. simpl.
  destruct (Ascii.eqb c "." || Ascii.eqb c "-")%bool eqn:E; [| now apply IH].
  simpl. rewrite E. now apply IH.
Qed.

Lemma read_digits_none s acc n :
  dots_and_dashes s = true -> read_digits s acc n = (acc, n, s).
Proof.
  destruct s as [| c s]; [reflexivity |]. simpl.
  intros H. apply andb_prop in H. destruct H as [Hc _].
  destruct (dot_or_dash c Hc) as [-> | ->]; reflexivity.
Qed.

Lemma no_literal_in_dots s :
  dots_and_dashes s = true ->
  String.prefix "Infinity" s = false
  /\ (let '(i, ni, s2) := read_digits s 0 0 in
      match s2 with
      | String "." s3 =>
          let '(m, nf, s4) := read_digits s3 i 0 in
          if ((ni =? 0) && (nf =? 0))%bool then None
          else let '(x, s5) := read_exponent s4 in
               Some (of_decimal true m (x - nf), s5)
      | _ =>
          if ni =? 0 then None
          else let '(x, s5) := read_exponent s2 in
               Some (of_decimal true i x, s5)
      end) = (None : option (number * string)).
Proof.
  intros H. split.
  - destruct s as [| c s]; [reflexivity |].
    simpl in H. apply andb_prop in H. destruct H as [Hc _].
    destruct (dot_or_dash c Hc) as [-> | ->]; reflexivity.
  - rewrite (read_digits_none s 0 0 H).
    destruct s as [| c s]; [reflexivity |].
    simpl in H. apply andb_prop in H. destruct H as [Hc Hs].
    destruct (dot_or_dash c Hc) as [-> | ->].
    + now rewrite (read_digits_none s 0 0 Hs).
    + reflexivity.
Qed.

(** Dots and dashes alone are no number. *)
Lemma parseFloat_dots_and_dashes s : dots_and_dashes s = true -> parseFloat s = NaN.
Proof.
  intros H. unfold parseFloat.
  assert (Ht : trimStart s = s).
  { destruct s as [| c s]; [reflexivity |].
    simpl in H. apply andb_prop in H. destruct H as [Hc _].
    destruct (dot_or_dash c Hc) as [-> | ->]; reflexivity. }
  rewrite Ht. destruct s as [| c s]; [reflexivity |].
  pose proof H as H'. simpl in H'. apply andb_prop in H'. destruct H' as [Hc Hs].
  destruct (dot_or_dash c Hc) as [-> | ->].
  - unfold read_decimal_literal. cbn [read_sign].
    change (String.prefix "Infinity" (String "." s)) with false. cbv iota.
    rewrite (read_digits_none (String "." s) 0 0 H).
    rewrite (read_digits_none s 0 0 Hs). reflexivity.
  - unfold read_decimal_literal. cbn [read_sign].
    destruct (no_literal_in_dots s Hs) as [Hp Hn]. rewrite Hp, Hn. reflexivity.
Qed.

(** X23: a Bitpanda numeric cell without any digit is zero only when it
    is empty or the placeholder "-" itself; any other one ("n/a", "--",
    a lone currency sign) is NaN. *)
Theorem X23_bitpanda_cell_without_digit_is_NaN :
  forall column field,
  In column Bitpanda.floatFields ->
  has_digit field = false ->
  Bitpanda.cast column field =
  VNumber (if (String.eqb field "" || String.eqb field "-")%bool then zero else NaN).
Proof.
  intros column field Hin Hd. rewrite (bitpanda_cast_number column field Hin).
  unfold bitpanda_number.
  destruct (String.eqb field "" || String.eqb field "-")%bool; [reflexivity |].
  now rewrite (parseFloat_dots_and_dashes _ (strip_without_digit field Hd)).
Qed.

Lemma X23_bitpanda_cell_without_digit_is_NaN_witness :
  Bitpanda.cast "amountAsset" "n/a" = VNumber NaN.
Proof.
  refine (X23_bitpanda_cell_without_digit_is_NaN "amountAsset" "n/a" _ eq_refl).
  simpl. tauto.
Defined.

Lemma abs_round_aux s m e l :
  SFabs (binary_round_aux prec emax s m e l) = binary_round_aux prec emax false m e l.
Proof.
  unfold binary_round_aux.
  destruct (shr_fexp prec emax m e l) as [mrs' e'].
  destruct (shr_fexp prec emax _ e' loc_Exact) as [mrs'' e''].
  destruct (shr_m mrs''); try reflexivity.
  match goal with |- context [if ?b then _ else _] => destruct b end; reflexivity.
Qed.

Lemma abs_round s m e :
  SFabs (binary_round prec emax s m e) = binary_round prec emax false m e.
Proof.
  unfold binary_round. destruct (shl_align m e _) as [mz ez]. apply abs_round_aux.
Qed.

(** The sign of a decimal is all that its magnitude does not depend on. *)
Lemma abs_of_decimal neg m e :
  Math_abs (of_decimal neg m e) = Math_abs (of_decimal false m e).
Proof.
  unfold Math_abs, of_decimal. destruct m as [| p | p]; try reflexivity.
  destruct (0 <=? e) eqn:He.
  - apply Z.leb_le in He.
    assert (Hpos : 0 < Z.pos p * 10 ^ e).
    { apply Z.mul_pos_pos; [reflexivity | apply Z.pow_pos_nonneg; lia]. }
    destruct (Z.pos p * 10 ^ e) as [| q | q] eqn:E; try lia.
    destruct neg; [| reflexivity].
    simpl. now rewrite !abs_round.
  - unfold SFdiv.
    destruct (SFdiv_core_binary prec emax (Z.pos p) 0 _ 0) as [[mz ez] lz].
    now rewrite !abs_round_aux.
Qed.

(** A dash in front of a string of digits, dots and dashes that does not
    itself begin with a dash changes the sign of what is read, not more. *)
Lemma abs_parseFloat_dash s :
  no_leading_dash s = true ->
  strip_non_numeric s = s ->
  Math_abs (parseFloat (String "-" s)) = Math_abs (parseFloat s).
Proof.
  intros Hd Hs. unfold parseFloat.
  assert (Hfirst : s = "" \/ exists c r, s = String c r
                     /\ (is_digit c = true \/ c = "."%char)).
  { destruct s as [| c r]; [now left |]. right. exists c, r. split; [reflexivity |].
    simpl in Hs, Hd.
    destruct (is_digit c) eqn:Ed; [now left |]. right.
    destruct (Ascii.eqb c ".") eqn:Ep; [now apply Ascii.eqb_eq |].
    apply negb_true_iff in Hd. rewrite Hd in Hs. simpl in Hs.
    exfalso. clear -Hs.
    assert (Hlen : forall t, (String.length (strip_non_numeric t) <= String.length t)%nat).
    { induction t as [| x t IH]; simpl; [lia |].
      destruct (is_digit x || Ascii.eqb x "." || Ascii.eqb x "-")%bool; simpl; lia. }
    specialize (Hlen r). rewrite Hs in Hlen. simpl in Hlen. lia. }
  assert (Hsign : trimStart s = s /\ read_sign s = (false, s)).
  { destruct Hfirst as [-> | [c [r [-> [Hc | ->]]]]]; [split; reflexivity | | split; reflexivity].
    unfold is_digit in Hc. apply andb_prop in Hc. destruct Hc as [H1 H2].
    apply Nat.leb_le in H1. apply Nat.leb_le in H2.
    assert (Hc : c = ascii_of_nat (nat_of_ascii c)) by (symmetry; apply ascii_nat_embedding).
    revert Hc. generalize (nat_of_ascii c) H1 H2. clear. intros n H1 H2 ->.
    do 48 (destruct n as [| n]; [lia |]).
    do 10 (destruct n as [| n]; [split; reflexivity |]). lia. }
  destruct Hsign as [Ht Hr].
  change (trimStart (String "-" s)) with (String "-" s). rewrite Ht.
  unfold read_decimal_literal. cbn [read_sign]. rewrite Hr.
  destruct (String.prefix "Infinity" s); [reflexivity |].
  destruct (read_digits s 0 0) as [[i ni] s2].
  destruct s2 as [| c2 s3].
  { destruct (ni =? 0); [reflexivity |].
    destruct (read_exponent "") as [x s5]. apply abs_of_decimal. }
  destruct c2 as [b0 b1 b2 b3 b4 b5 b6 b7].
  destruct b0, b1, b2, b3, b4, b5, b6, b7;
    try (destruct (ni =? 0); [reflexivity |];
         match goal with
         | |- context [read_exponent ?t] => destruct (read_exponent t) as [x s5]
         end; apply abs_of_decimal).
  destruct (read_digits s3 i 0) as [[m nf] s4].
  destruct ((ni =? 0) && (nf =? 0))%bool; [reflexivity |].
  destruct (read_exponent s4) as [x s5]. apply abs_of_decimal.
Qed.

Lemma strip_append a b :
  strip_non_numeric (a ++ b) = (strip_non_numeric a ++ strip_non_numeric b)%string.
Proof.
  induction a as [| c a IH]; [reflexivity |]. simpl.
  destruct (is_digit c || Ascii.eqb c "." || Ascii.eqb c "-")%bool; simpl;
    now rewrite IH.
Qed.

Lemma strip_idempotent v :
  strip_non_numeric (strip_non_numeric v) = strip_non_numeric v.
Proof.
  induction v as [| c v IH]; [reflexivity |]. simpl.
  destruct (is_digit c || Ascii.eqb c "." || Ascii.eqb c "-")%bool eqn:E;
    [| exact IH].
  simpl. now rewrite E, IH.
Qed.

(** X24: the sign of a Bitpanda numeric cell is discarded: a dash in
    front of a cell (whose own digits, dots and dashes do not begin with a
    dash) gives the same number as the cell without it. *)
Theorem X24_bitpanda_leading_dash_is_discarded :
  forall column field,
  In column Bitpanda.floatFields ->
  no_leading_dash (strip_non_numeric field) = true ->
  Bitpanda.cast column (String "-" field) = Bitpanda.cast column field.
Proof.
  intros column field Hin Hd.
  rewrite !(bitpanda_cast_number column _ Hin). f_equal. unfold bitpanda_number.
  destruct field as [| c field]; [reflexivity |].
  change (String.eqb (String "-" (String c field)) "") with false.
  assert (H1 : String.eqb (String "-" (String c field)) "-" = false)
    by (simpl; now destruct (Ascii.eqb "-" "-")).
  rewrite H1. cbn [orb].
  change (String.eqb (String c field) "") with false. cbn [orb].
  destruct (String.eqb (String c field) "-") eqn:E.
  { apply String.eqb_eq in E. rewrite E in Hd. discriminate Hd. }
  change (strip_non_numeric (String "-" (String c field)))
    with (String "-" (strip_non_numeric (String c field))).
  apply abs_parseFloat_dash; [exact Hd | apply strip_idempotent].
Qed.

Lemma X24_bitpanda_leading_dash_is_discarded_witness :
  Bitpanda.cast "amountFiat" "-12.50 EUR" = Bitpanda.cast "amountFiat" "12.50 EUR".
Proof.
  refine (X24_bitpanda_leading_dash_is_discarded "amountFiat" "12.50 EUR" _ eq_refl).
  simpl. tauto.
Defined.

Lemma append_is_empty (a b : string) : (a ++ b)%string = "" -> a = "" /\ b = "".
Proof. destruct a; simpl; [auto | discriminate]. Qed.

(** X25: what is not a digit, a dot or a dash makes no difference to a
    Bitpanda numeric cell: currency signs, letters or blanks before and
    after a cell that is neither empty nor the placeholder give the same
    number as the cell alone. *)
Theorem X25_bitpanda_currency_signs_are_ignored :
  forall column before field after,
  In column Bitpanda.floatFields ->
  strip_non_numeric before = "" ->
  strip_non_numeric after = "" ->
  field <> "" -> field <> "-" ->
  Bitpanda.cast column (before ++ field ++ after) = Bitpanda.cast column field.
Proof.
  intros column before field after Hin Hb Ha Hne Hnd.
  rewrite !(bitpanda_cast_number column _ Hin). f_equal. unfold bitpanda_number.
  assert (H1 : String.eqb field "" = false) by now apply String.eqb_neq.
  assert (H2 : String.eqb field "-" = false) by now apply String.eqb_neq.
  assert (H3 : String.eqb (before ++ field ++ after) "" = false).
  { apply String.eqb_neq. intros E. apply append_is_empty in E. destruct E as [_ E].
    apply append_is_empty in E. tauto. }
  assert (H4 : String.eqb (before ++ field ++ after) "-" = false).
  { apply String.eqb_neq. intros E.
    destruct before as [| c before].
    - simpl in E. destruct field as [| c field]; [contradiction |].
      simpl in E. injection E as -> E. apply append_is_empty in E.
      destruct E as [-> _]. contradiction.
    - simpl in E. injection E as -> _. discriminate Hb. }
  rewrite H1, H2, H3, H4. cbn [orb].
  now rewrite !strip_append, Hb, Ha, CsvFacts.append_empty.
Qed.

Lemma X25_bitpanda_currency_signs_are_ignored_witness :
  Bitpanda.cast "assetMarketPrice" "EUR 1234.5 /g" = Bitpanda.cast "assetMarketPrice" "1234.5".
Proof.
  refine (X25_bitpanda_currency_signs_are_ignored "assetMarketPrice" "EUR " "1234.5"
            " /g" _ eq_refl eq_refl _ _); [simpl; tauto | discriminate | discriminate].
Defined.

(** ** The record of a Bitpanda line *)

(** The record of a line of a plain Bitpanda export, once padded. *)
Lemma bitpanda_record_at input records i l :
  no_quote input = true -> clean input = true ->
  Bitpanda.tokenized input = inr records ->
  nth_error (split_lines (Bitpanda.preprocess input)) i = Some l ->
  l <> "" ->
  (Bitpanda.headerLineIdx <= i)%nat ->
  exists o,
    nth_error records (i - Bitpanda.headerLineIdx) = Some o
    /\ build (Bitpanda.processHeaders input) Bitpanda.cast
         (8 + (i - Bitpanda.headerLineIdx)) (split "," l) = inr o.
Proof.
  intros Hq Hc Htok Hnth Hl Hi.
  rewrite (bitpanda_tokenized_plain input Hq Hc) in Htok.
  destruct (nth_error_split _ _ Hnth) as [pre [tl [Hs Hpre]]].
  destruct (plain_lines_keeps _ pre l tl Hs Hl) as [tl' Hof].
  rewrite Hof in Htok.
  apply (plain_records_nth _ _ _ _ _ _ _ Htok).
  rewrite nth_error_skipn.
  replace (7 + (i - Bitpanda.headerLineIdx))%nat with (List.length pre)
    by (unfold Bitpanda.headerLineIdx in *; lia).
  rewrite nth_error_app2, Nat.sub_diag by lia. reflexivity.
Qed.

(** X26: in a Bitpanda export without quote characters and stray carriage
    returns that the tokenizer accepts, a line of exactly eighteen fields
    at line 8 or after is one of the records of the run, the lines from
    line 8 on being the records in order, and the properties of the record
    are the fields in the order of the fixed schema, the seven numeric ones
    through the cast and the eleven others as they are, whatever the header
    line of the file says. *)
Theorem X26_bitpanda_line_to_record :
  forall input records i line
         f0 f1 f2 f3 f4 f5 f6 f7 f8 f9 f10 f11 f12 f13 f14 f15 f16 f17,
  no_quote input = true -> clean input = true ->
  Bitpanda.tokenized input = inr records ->
  nth_error (split_lines input) i = Some line ->
  (Bitpanda.headerLineIdx <= i)%nat ->
  split "," line
  = [f0; f1; f2; f3; f4; f5; f6; f7; f8; f9; f10; f11; f12; f13; f14; f15; f16; f17] ->
  exists o,
    nth_error records (i - Bitpanda.headerLineIdx) = Some o
    /\ Bitpanda.record_of o =
       {| Bitpanda.transactionId := f0; Bitpanda.timestamp := f1;
          Bitpanda.transactionType := f2; Bitpanda.inOut := f3;
          Bitpanda.amountFiat := bitpanda_number f4; Bitpanda.fiat := f5;
          Bitpanda.amountAsset := bitpanda_number f6; Bitpanda.asset := f7;
          Bitpanda.assetMarketPrice := bitpanda_number f8;
          Bitpanda.assetMarketPriceCurrency := f9; Bitpanda.assetClass := f10;
          Bitpanda.productId := f11; Bitpanda.r_fee := bitpanda_number f12;
          Bitpanda.feeAsset := f13; Bitpanda.feePercent := bitpanda_number f14;
          Bitpanda.spread := bitpanda_number f15; Bitpanda.spreadCurrency := f16;
          Bitpanda.taxFiat := bitpanda_number f17 |}.
Proof.
  intros input records i line f0 f1 f2 f3 f4 f5 f6 f7 f8 f9 f10 f11 f12 f13 f14 f15
    f16 f17 Hq Hc Htok Hnth Hi Hsplit.
  assert (Hl : line <> "") by (intros ->; discriminate Hsplit).
  assert (Hpad : Bitpanda.pad_line 18 line = line).
  { apply pad_line_compliant. unfold compliant. rewrite Hsplit.
    apply orb_true_iff. now right. }
  assert (Hnth' : nth_error (split_lines (Bitpanda.preprocess input)) i = Some line).
  { rewrite (split_lines_preprocess input Hc). unfold Bitpanda.pad_lines.
    rewrite nth_error_pad, Hnth. cbn [option_map].
    destruct (Nat.leb (Bitpanda.headerLineIdx + 1) i); [now rewrite Hpad | reflexivity]. }
  destruct (bitpanda_record_at input records i line Hq Hc Htok Hnth' Hl Hi)
    as [o [Ho Hb]].
  exists o. split; [exact Ho |].
  unfold build in Hb. rewrite Hsplit in Hb.
  change (Nat.eqb 18 (List.length (Bitpanda.processHeaders input))) with true in Hb.
  cbv iota in Hb. injection Hb as <-.
  apply (BitpandaFacts.record_of_fields input).
Qed.

Lemma X26_bitpanda_line_to_record_witness :
  exists o,
    nth_error [bp_object bp_header; bp_object bp_reward;
               bp_object (bp_gold ++ ",-,-,-,-,-,-")] 1 = Some o
    /\ Bitpanda.asset (Bitpanda.record_of o) = "BTC"
    /\ Bitpanda.amountFiat (Bitpanda.record_of o) = parseFloat "5".
Proof.
  assert (Hi : (Bitpanda.headerLineIdx <= 8)%nat) by (unfold Bitpanda.headerLineIdx; lia).
  destruct (X26_bitpanda_line_to_record bp_export
              [bp_object bp_header; bp_object bp_reward;
               bp_object (bp_gold ++ ",-,-,-,-,-,-")] 8 bp_reward
              "T1" "2024-01-01T10:00:00+01:00" "reward" "incoming" "5" "EUR" "0.001"
              "BTC" "50000" "EUR" "Cryptocurrency" "1" "0" "-" "-" "-" "-" "0"
              eq_refl eq_refl eq_refl eq_refl Hi eq_refl)
    as [o [Ho Hr]].
  exists o. rewrite Hr. repeat split. exact Ho.
Defined.

(** ** The log of a Bitpanda run *)

Section BitpandaLog.

Variable getSecurity : SecurityService.
Variable account reward_asset : option string.
Variable fmt : string -> string.

Local Abbreviation bp_process_record :=
  (Bitpanda.process_record getSecurity account reward_asset fmt).
Local Abbreviation bp_loop := (Bitpanda.loop getSecurity account reward_asset fmt).





End BitpandaLog.

